(** * agroservices.ipm: request parameters and model input of the IPM client

    A shallow embedding of the pieces of [src/agroservices/ipm.py] that
    compute something rather than forward a request:

    - the weather-adapter parameter builders
      ([weatheradapter_forecast_params], [weatheradapter_observation_params],
      [weatheradapter_params]), which only read their arguments and build a
      fresh dict: they are pure functions into an exception result;
    - [model_input], which copies the model's input schema shallowly and
      then assigns into it: it runs in a state monad over a store of Python
      objects, so that what is shared with the caller's model stays shared;
    - the calls to the platform that use them or prepare their arguments
      ([get_weatherdatasource], [get_model], [get_weatheradapter],
      [run_model]): what the platform answers and what the [json] module
      does are parameters of these.

    Definitions come first, statements about them after. *)

From Stdlib Require Import ZArith List String Ascii Bool Lia PrimFloat DecimalString.
Import ListNotations.
Open Scope string_scope.
Open Scope Z_scope.

Set Warnings "-inexact-float,-register-all".

(** ** Python values that come out of JSON *)

(** What [json.loads] produces, and what the builders read and return. A
    dict keeps its insertion order, as a Python dict does. *)
Inductive json : Type :=
| JNull
| JBool (b : bool)
| JInt (z : Z)
| JFloat (f : float)
| JStr (s : string)
| JList (items : list json)
| JDict (entries : list (string * json)).

(** The exceptions the modelled code can raise. [Unsupported] is not a Python
    exception: it marks an input on which this model does not say what
    Python does (the [str] of a float, the equality of two containers). *)
Inductive exn : Type :=
| KeyError (key : json)
| IndexError
| TypeError
| ValueError (msg : string)
| AssertionError (msg : string) (elems : option (list json))
| UnboundLocalError (name : string)
| AttributeError
| OverflowError
| RecursionError
| Unsupported.

Inductive res (A : Type) : Type :=
| Ok (a : A)
| Raise (e : exn).
Arguments Ok {A} a.
Arguments Raise {A} e.

Definition rbind {A B : Type} (c : res A) (k : A -> res B) : res B :=
  match c with
  | Ok a => k a
  | Raise e => Raise e
  end.

Declare Scope res_scope.
Delimit Scope res_scope with res.
Notation "x <- c ;; k" := (rbind c (fun x => k))
  (at level 61, c at next level, right associativity) : res_scope.
Notation "' pat <- c ;; k" := (rbind c (fun x => match x with pat => k end))
  (at level 61, pat pattern, c at next level, right associativity) : res_scope.

Definition is_ok {A : Type} (r : res A) : bool :=
  match r with Ok _ => true | Raise _ => false end.

(** ** Strings *)

Definition string_of_Z (z : Z) : string := NilZero.string_of_int (Z.to_int z).

(** ["%02d" % z], ["%04d" % z], ["%06d" % z] for a non-negative [z]. *)
Fixpoint zeros (n : nat) : string :=
  match n with
  | O => EmptyString
  | S m => String "0" (zeros m)
  end.

Definition pad (width : nat) (z : Z) : string :=
  let s := string_of_Z z in zeros (width - String.length s) ++ s.

Definition chars (s : string) : list string :=
  map (fun c => String c EmptyString) (list_ascii_of_string s).

Definition is_digit (c : ascii) : bool :=
  let n := nat_of_ascii c in ((48 <=? n) && (n <=? 57))%nat.

Definition digit_val (c : ascii) : Z := Z.of_nat (nat_of_ascii c) - 48.

(** A run of decimal digits, read as a number; [None] when the string is
    empty or holds anything else. *)
Fixpoint digits_from (acc : Z) (s : string) : option Z :=
  match s with
  | EmptyString => Some acc
  | String c rest =>
      if is_digit c then digits_from (10 * acc + digit_val c) rest else None
  end.

Definition parse_digits (s : string) : option Z :=
  match s with
  | EmptyString => None
  | _ => digits_from 0 s
  end.

Definition is_space (c : ascii) : bool :=
  let n := nat_of_ascii c in ((n =? 32) || ((9 <=? n) && (n <=? 13)))%nat.

Fixpoint lstrip (s : string) : string :=
  match s with
  | String c rest => if is_space c then lstrip rest else s
  | EmptyString => EmptyString
  end.

Definition rev_string (s : string) : string :=
  string_of_list_ascii (rev (list_ascii_of_string s)).

Definition strip (s : string) : string := rev_string (lstrip (rev_string (lstrip s))).

(** [repr] of a [str] whose characters are printable ASCII. *)
Fixpoint escape_quoted (s : string) : string :=
  match s with
  | EmptyString => EmptyString
  | String c rest =>
      (if Ascii.eqb c "'"%char then "\'"
       else if Ascii.eqb c "\"%char then "\\"
       else String c EmptyString) ++ escape_quoted rest
  end.

Fixpoint has_char (c : ascii) (s : string) : bool :=
  match s with
  | EmptyString => false
  | String d rest => Ascii.eqb c d || has_char c rest
  end.

Definition dquote : ascii := ascii_of_nat 34.

Definition py_repr_str (s : string) : string :=
  if has_char "'"%char s && negb (has_char dquote s)
  then String dquote (s ++ String dquote EmptyString)
  else "'" ++ escape_quoted s ++ "'".

(** ** Reading JSON values the way Python reads dicts, lists and strings *)

Fixpoint assoc {A : Type} (k : string) (d : list (string * A)) : option A :=
  match d with
  | [] => None
  | (k', v) :: rest => if String.eqb k k' then Some v else assoc k rest
  end.

Definition has_key {A : Type} (k : string) (d : list (string * A)) : bool :=
  match assoc k d with Some _ => true | None => false end.

(** [d[k] = v]: an existing key keeps its place, a new one goes last. *)
Fixpoint dict_set {A : Type} (k : string) (v : A) (d : list (string * A))
  : list (string * A) :=
  match d with
  | [] => [(k, v)]
  | (k', v') :: rest =>
      if String.eqb k k' then (k', v) :: rest else (k', v') :: dict_set k v rest
  end.

Fixpoint dict_remove {A : Type} (k : string) (d : list (string * A))
  : list (string * A) :=
  match d with
  | [] => []
  | (k', v') :: rest =>
      if String.eqb k k' then rest else (k', v') :: dict_remove k rest
  end.

(** [d.update(other)] *)
Definition dict_update {A : Type} (d other : list (string * A)) : list (string * A) :=
  fold_left (fun acc kv => dict_set (fst kv) (snd kv) acc) other d.

(** [d.pop(k)] with no default. *)
Definition dict_pop {A : Type} (k : string) (d : list (string * A))
  : res (list (string * A)) :=
  if has_key k d then Ok (dict_remove k d) else Raise (KeyError (JStr k)).

(** [j[k]] for a string key. *)
Definition jget (j : json) (k : string) : res json :=
  match j with
  | JDict d =>
      match assoc k d with
      | Some v => Ok v
      | None => Raise (KeyError (JStr k))
      end
  | _ => Raise TypeError
  end.

(** [j[0]] *)
Definition jfirst (j : json) : res json :=
  match j with
  | JList (x :: _) => Ok x
  | JList [] => Raise IndexError
  | JStr (String c _) => Ok (JStr (String c EmptyString))
  | JStr EmptyString => Raise IndexError
  | JDict d => Raise (KeyError (JInt 0))
  | _ => Raise TypeError
  end.

(** [j == s] for a string literal [s]: never raises. *)
Definition jeq_str (j : json) (s : string) : bool :=
  match j with
  | JStr t => String.eqb t s
  | _ => false
  end.

Definition is_none (j : json) : bool :=
  match j with JNull => true | _ => false end.

(** [k in j] for a string [k]: a key of a dict, an element of a list, a
    substring of a string. *)
Definition jhas (k : string) (j : json) : res bool :=
  match j with
  | JDict d => Ok (has_key k d)
  | JList xs => Ok (existsb (fun x => jeq_str x k) xs)
  | JStr s => Ok (match index 0 k s with Some _ => true | None => false end)
  | _ => Raise TypeError
  end.

(** [str(j)] *)
Definition py_str (j : json) : res string :=
  match j with
  | JNull => Ok "None"
  | JBool true => Ok "True"
  | JBool false => Ok "False"
  | JInt z => Ok (string_of_Z z)
  | JStr s => Ok s
  | JFloat _ | JList _ | JDict _ => Raise Unsupported
  end.

(** What a [for] loop over [j] visits. *)
Definition py_iter (j : json) : res (list json) :=
  match j with
  | JList xs => Ok xs
  | JStr s => Ok (map JStr (chars s))
  | JDict d => Ok (map (fun kv => JStr (fst kv)) d)
  | _ => Raise TypeError
  end.

Fixpoint mapM {A B : Type} (f : A -> res B) (xs : list A) : res (list B) :=
  match xs with
  | [] => Ok []
  | x :: rest =>
      (y <- f x ;; ys <- mapM f rest ;; Ok (y :: ys))%res
  end.

(** [','.join(map(str, j))] *)
Definition join_codes (j : json) : res string :=
  (xs <- py_iter j ;;
   ss <- mapM py_str xs ;;
   Ok (String.concat "," ss))%res.

(** [int(j)]: integers, booleans and decimal strings with an optional sign
    and surrounding blanks. What else [int] reads (underscores between
    digits, digits and blanks outside ASCII, floats) is left out: the
    statements below rely on this function only where it returns. *)
Definition py_int (j : json) : res Z :=
  match j with
  | JInt z => Ok z
  | JBool b => Ok (if b then 1 else 0)
  | JStr s =>
      let t := strip s in
      let bad := Raise (ValueError ("invalid literal for int() with base 10: " ++ py_repr_str s)) in
      match t with
      | String "-" u =>
          match parse_digits u with Some n => Ok (- n) | None => bad end
      | String "+" u =>
          match parse_digits u with Some n => Ok n | None => bad end
      | _ =>
          match parse_digits t with Some n => Ok n | None => bad end
      end
  | JFloat _ => Raise Unsupported
  | JNull | JList _ | JDict _ => Raise TypeError
  end.

(** [a + b] on strings. *)
Definition str_add (a : string) (b : json) : res string :=
  match b with
  | JStr s => Ok (a ++ s)
  | _ => Raise TypeError
  end.

(** ** [datetime]: the part of the standard library the builders call *)

(** A [datetime.datetime]; [tzoffset] is the UTC offset in seconds of an
    aware value, [None] for a naive one; [fold] tells the second of two
    equal clock readings from the first, where clocks are set back. *)
Record datetime : Type := mkDatetime {
  year : Z;
  month : Z;
  day : Z;
  hour : Z;
  minute : Z;
  second : Z;
  microsecond : Z;
  tzoffset : option Z;
  fold : bool
}.

Definition is_leap (y : Z) : bool :=
  (y mod 4 =? 0) && (negb (y mod 100 =? 0) || (y mod 400 =? 0)).

Definition days_in_month (y m : Z) : Z :=
  if m =? 2 then (if is_leap y then 29 else 28)
  else if (m =? 4) || (m =? 6) || (m =? 9) || (m =? 11) then 30
  else 31.

(** Days of a common year before the first of month [m] (1..12); read at 13
    it is 365, as the table [_DAYS_BEFORE_MONTH] is only ever read for a
    month the ordinal lies in or just after. *)
Definition days_before_month_common (m : Z) : Z :=
  nth (Z.to_nat m) [0; 0; 31; 59; 90; 120; 151; 181; 212; 243; 273; 304; 334] 365.

Definition days_before_month (y m : Z) : Z :=
  days_before_month_common m + (if (2 <? m) && is_leap y then 1 else 0).

Definition days_before_year (y : Z) : Z :=
  let p := y - 1 in p * 365 + p / 4 - p / 100 + p / 400.

(** [date.toordinal()]: 0001-01-01 is day 1. *)
Definition ymd2ord (y m d : Z) : Z :=
  days_before_year y + days_before_month y m + d.

Definition MAXORDINAL : Z := 3652059.
Definition DI400Y : Z := 146097.
Definition DI100Y : Z := 36524.
Definition DI4Y : Z := 1461.

(** [date.fromordinal(n)], following [_ord2ymd]. *)
Definition ord2ymd (n : Z) : Z * Z * Z :=
  let n := n - 1 in
  let n400 := n / DI400Y in
  let n := n mod DI400Y in
  let y := n400 * 400 + 1 in
  let n100 := n / DI100Y in
  let n := n mod DI100Y in
  let n4 := n / DI4Y in
  let n := n mod DI4Y in
  let n1 := n / 365 in
  let n := n mod 365 in
  let y := y + n100 * 100 + n4 * 4 + n1 in
  if (n1 =? 4) || (n100 =? 4) then (y - 1, 12, 31)
  else
    let leapyear := (n1 =? 3) && (negb (n4 =? 24) || (n100 =? 3)) in
    let m := Z.shiftr (n + 50) 5 in
    let preceding :=
      days_before_month_common m + (if (2 <? m) && leapyear then 1 else 0) in
    if n <? preceding then
      let m := m - 1 in
      let preceding :=
        preceding - (days_in_month 1 m + (if (m =? 2) && leapyear then 1 else 0)) in
      (y, m, n - preceding + 1)
    else (y, m, n - preceding + 1).

Definition toordinal (d : datetime) : Z := ymd2ord (year d) (month d) (day d).

Definition day_seconds (d : datetime) : Z :=
  hour d * 3600 + minute d * 60 + second d.

(** The datetime at ordinal day [o] and second-of-day [s], if the day is one
    a [datetime] can hold. What arithmetic returns has [fold = 0]. *)
Definition of_ordinal_seconds (o s us : Z) (tz : option Z) : res datetime :=
  if (0 <? o) && (o <=? MAXORDINAL) then
    let '(y, m, d) := ord2ymd o in
    Ok (mkDatetime y m d (s / 3600) ((s mod 3600) / 60) (s mod 60) us tz false)
  else Raise OverflowError.

(** [d + timedelta(days=n)] *)
Definition add_days (d : datetime) (n : Z) : res datetime :=
  of_ordinal_seconds (toordinal d + n) (day_seconds d) (microsecond d) (tzoffset d).

(** [d + timedelta(seconds=n)] *)
Definition add_seconds (d : datetime) (n : Z) : res datetime :=
  let total := day_seconds d + n in
  of_ordinal_seconds (toordinal d + total / 86400) (total mod 86400)
    (microsecond d) (tzoffset d).

(** Whole seconds from 1970-01-01T00:00:00 to the wall-clock reading of [d]. *)
Definition wall_seconds (d : datetime) : Z :=
  (toordinal d - 719163) * 86400 + day_seconds d.

(** What the process sees of its surroundings: the offset of local time from
    UTC at a POSIX timestamp ([time.localtime(ts).tm_gmtoff]) and the wall
    clock ([datetime.datetime.today()], a naive value, with [fold] set when
    the clock shows the second pass of a repeated hour). *)
Record environ : Type := mkEnviron {
  tm_gmtoff : Z -> Z;
  today : datetime
}.

(** The conversion to local time follows [Modules/_datetimemodule.c], the
    implementation of [datetime] that CPython loads, function by function
    and under its names, on a platform whose [time_t] has 64 bits and whose
    [localtime] answers for every timestamp a [datetime] can lead to. *)

Definition MINYEAR : Z := 1.
Definition MAXYEAR : Z := 9999.

(** Seconds from the start of ordinal day 0 to a calendar reading. *)
Definition utc_to_seconds (y m d hh mm ss : Z) : res Z :=
  if (y <? MINYEAR) || (MAXYEAR <? y) then
    Raise (ValueError ("year " ++ string_of_Z y ++ " is out of range"))
  else Ok (((ymd2ord y m d * 24 + hh) * 60 + mm) * 60 + ss).

(** 1970-01-01T00:00:00 in those seconds. *)
Definition epoch : Z := 719163 * 24 * 60 * 60.

Definition max_fold_seconds : Z := 24 * 3600.

(** [repr] of a [timedelta] of whole seconds. *)
Definition timedelta_repr (seconds : Z) : string :=
  let days := seconds / 86400 in
  let s := seconds mod 86400 in
  "datetime.timedelta("
  ++ (if days =? 0 then (if s =? 0 then "0" else "seconds=" ++ string_of_Z s)
      else "days=" ++ string_of_Z days
           ++ (if s =? 0 then "" else ", seconds=" ++ string_of_Z s))
  ++ ")".

(** [new_timezone]: a [timezone] of a fixed offset, which has to be less
    than a day either way. *)
Definition new_timezone (offset : Z) : res Z :=
  if (-86400 <? offset) && (offset <? 86400) then Ok offset
  else Raise (ValueError
                ("offset must be a timedelta strictly between -timedelta(hours=24) and timedelta(hours=24), not "
                 ++ timedelta_repr offset ++ ".")).

Section LocalTime.
Variable E : environ.

(** [localtime(t)]: what local clocks show at POSIX timestamp [t], the
    reading of a UTC clock [tm_gmtoff] seconds later. *)
Definition localtime (t : Z) : Z * Z * Z * Z * Z * Z :=
  let w := t + tm_gmtoff E t in
  let '(y, m, d) := ord2ymd (w / 86400 + 719163) in
  let s := w mod 86400 in
  (y, m, d, s / 3600, (s mod 3600) / 60, s mod 60).

(** [local(u)]: the local reading at [u], both in seconds from day 0. It
    raises when that reading lies in a year no [datetime] can hold. *)
Definition local (u : Z) : res Z :=
  let '(y, m, d, hh, mm, ss) := localtime (u - epoch) in
  utc_to_seconds y m d hh mm ss.

(** [local_to_seconds]: solves [t = local u] for [u]. Of two solutions
    [fold] picks the earlier or the later; where clocks were set forward
    and there is none, the reading is taken with the offset in force before
    the change, or with the one after it when [fold] is set. *)
Definition local_to_seconds (y m d hh mm ss : Z) (fold : bool) : res Z :=
  (t <- utc_to_seconds y m d hh mm ss ;;
   lt <- local t ;;
   let a := lt - t in
   let u1 := t - a in
   t1 <- local u1 ;;
   b <- (if t1 =? t then
           let u2 := if fold then u1 + max_fold_seconds else u1 - max_fold_seconds in
           lt <- local u2 ;;
           Ok (lt - u2)
         else Ok (t1 - u1)) ;;
   if (t1 =? t) && (a =? b) then Ok u1
   else
     let u2 := t - b in
     t2 <- local u2 ;;
     if t2 =? t then Ok u2
     else if t1 =? t then Ok u1
     else Ok (if fold then Z.min u1 u2 else Z.max u1 u2))%res.

(** [local_timezone_from_timestamp]: the fixed-offset zone of local time at
    a POSIX timestamp. *)
Definition local_timezone_from_timestamp (timestamp : Z) : res Z :=
  new_timezone (tm_gmtoff E timestamp).

(** [local_timezone_from_local]: the zone a naive value is read in. *)
Definition local_timezone_from_local (local_dt : datetime) : res Z :=
  (seconds <- local_to_seconds (year local_dt) (month local_dt) (day local_dt)
                (hour local_dt) (minute local_dt) (second local_dt) (fold local_dt) ;;
   local_timezone_from_timestamp (seconds - epoch))%res.

(** [local_timezone]: the zone of local time at the instant a UTC value
    names, [(utc_time - epoch) // timedelta(seconds=1)]. *)
Definition local_timezone (utc_time : datetime) : res Z :=
  local_timezone_from_timestamp (wall_seconds utc_time).

(** [d.astimezone()]: [d] is taken to UTC with its own offset, that of local
    time at its reading when it is naive; the zone of the result is the one
    of local time at that UTC instant, and [timezone.fromutc] adds its
    offset. *)
Definition astimezone (d : datetime) : res datetime :=
  (offset <- match tzoffset d with
             | None => local_timezone_from_local d
             | Some off => Ok off
             end ;;
   result <- add_seconds d (- offset) ;;
   tz <- local_timezone result ;;
   r <- add_seconds result tz ;;
   Ok (mkDatetime (year r) (month r) (day r) (hour r) (minute r) (second r)
         (microsecond r) (Some tz) false))%res.
End LocalTime.

(** [d.isoformat()] *)
Definition format_offset (off : Z) : string :=
  let a := Z.abs off in
  (if off <? 0 then "-" else "+") ++ pad 2 (a / 3600) ++ ":" ++ pad 2 ((a mod 3600) / 60)
  ++ (if a mod 60 =? 0 then "" else ":" ++ pad 2 (a mod 60)).

Definition isoformat (d : datetime) : string :=
  pad 4 (year d) ++ "-" ++ pad 2 (month d) ++ "-" ++ pad 2 (day d) ++ "T"
  ++ pad 2 (hour d) ++ ":" ++ pad 2 (minute d) ++ ":" ++ pad 2 (second d)
  ++ (if microsecond d =? 0 then "" else "." ++ pad 6 (microsecond d))
  ++ match tzoffset d with
     | None => ""
     | Some off => format_offset off
     end.

(** [datetime.fromisoformat]: the forms every Python from 3.7 on accepts,
    [YYYY-MM-DD], then optionally any one separator and
    [HH[:MM[:SS[.fff[fff]]]]], then optionally [+HH:MM[:SS]] or [-HH:MM[:SS]].
    Any other string is refused, as it was before Python 3.11, which reads
    more forms; the statements below rely on this function only where it
    returns, and on the two literals lines 209 and 214 hand it, which no
    version reads. *)
Fixpoint find_char (c : ascii) (s : string) : option nat :=
  match s with
  | EmptyString => None
  | String d rest =>
      if Ascii.eqb c d then Some O
      else match find_char c rest with
           | Some n => Some (S n)
           | None => None
           end
  end.

Definition digits_at (pos len : nat) (s : string) : option Z :=
  let t := substring pos len s in
  if (String.length t =? len)%nat then parse_digits t else None.

Definition char_at (pos : nat) (s : string) : string := substring pos 1 s.

Definition parse_hh_mm_ss_ff (s : string) : option (Z * Z * Z * Z) :=
  let n := String.length s in
  match digits_at 0 2 s with
  | None => None
  | Some hh =>
      if (n =? 2)%nat then Some (hh, 0, 0, 0)
      else if negb (String.eqb (char_at 2 s) ":") then None
      else
        match digits_at 3 2 s with
        | None => None
        | Some mm =>
            if (n =? 5)%nat then Some (hh, mm, 0, 0)
            else if negb (String.eqb (char_at 5 s) ":") then None
            else
              match digits_at 6 2 s with
              | None => None
              | Some ss =>
                  if (n =? 8)%nat then Some (hh, mm, ss, 0)
                  else if negb (String.eqb (char_at 8 s) ".") then None
                  else if (n =? 12)%nat then
                    match digits_at 9 3 s with
                    | Some ff => Some (hh, mm, ss, ff * 1000)
                    | None => None
                    end
                  else if (n =? 15)%nat then
                    match digits_at 9 6 s with
                    | Some ff => Some (hh, mm, ss, ff)
                    | None => None
                    end
                  else None
              end
        end
  end.

Definition invalid_isoformat {A : Type} (s : string) : res A :=
  Raise (ValueError ("Invalid isoformat string: " ++ py_repr_str s)).

(** The checks of the [datetime] constructor. *)
Definition check_fields (y m d hh mm ss us : Z) (tz : option Z) : res datetime :=
  if negb ((1 <=? y) && (y <=? 9999)) then
    Raise (ValueError ("year " ++ string_of_Z y ++ " is out of range"))
  else if negb ((1 <=? m) && (m <=? 12)) then
    Raise (ValueError "month must be in 1..12")
  else if negb ((1 <=? d) && (d <=? days_in_month y m)) then
    Raise (ValueError "day is out of range for month")
  else if negb (hh <=? 23) then Raise (ValueError "hour must be in 0..23")
  else if negb (mm <=? 59) then Raise (ValueError "minute must be in 0..59")
  else if negb (ss <=? 59) then Raise (ValueError "second must be in 0..59")
  else Ok (mkDatetime y m d hh mm ss us tz false).

Definition parse_tz (s : string) (tzstr : string) (negative : bool) : res (option Z) :=
  let n := String.length tzstr in
  if negb ((n =? 5) || (n =? 8))%nat then invalid_isoformat s
  else
    match parse_hh_mm_ss_ff tzstr with
    | None => invalid_isoformat s
    | Some (hh, mm, ss, _) =>
        let off := hh * 3600 + mm * 60 + ss in
        if 86400 <=? off then invalid_isoformat s
        else Ok (Some (if negative then - off else off))
    end.

Definition fromisoformat_str (s : string) : res datetime :=
  let n := String.length s in
  match digits_at 0 4 s, digits_at 5 2 s, digits_at 8 2 s with
  | Some y, Some m, Some d =>
      if negb (String.eqb (char_at 4 s) "-" && String.eqb (char_at 7 s) "-")
      then invalid_isoformat s
      else if (n =? 10)%nat then check_fields y m d 0 0 0 0 None
      else
        let tstr := substring 11 (n - 11) s in
        let tzpos :=
          match find_char "-" tstr with
          | Some p => Some (p, true)
          | None =>
              match find_char "+" tstr with
              | Some p => Some (p, false)
              | None => None
              end
          end in
        let timestr :=
          match tzpos with
          | Some (p, _) => substring 0 p tstr
          | None => tstr
          end in
        match parse_hh_mm_ss_ff timestr with
        | None => invalid_isoformat s
        | Some (hh, mm, ss, us) =>
            (tz <- match tzpos with
                   | Some (p, neg) =>
                       parse_tz s (substring (S p) (String.length tstr - S p) tstr) neg
                   | None => Ok None
                   end ;;
             check_fields y m d hh mm ss us tz)%res
        end
  | _, _, _ => invalid_isoformat s
  end.

(** [datetime.datetime.fromisoformat(j)] *)
Definition fromisoformat (j : json) : res datetime :=
  match j with
  | JStr s => fromisoformat_str s
  | _ => Raise TypeError
  end.

(** ** The weather-adapter parameter builders *)

(** Keyword arguments of a call, in the order given. *)
Definition kwargs : Type := list (string * json).

(** The value a named parameter is bound to: the keyword argument of that
    name, or the default of the signature. *)
Definition kwarg (kw : kwargs) (name : string) (default : json) : json :=
  match assoc name kw with
  | Some v => v
  | None => default
  end.

(** What [**options] collects: the keyword arguments that no named parameter
    takes. *)
Definition rest_kwargs (named : list string) (kw : kwargs) : kwargs :=
  filter (fun kv => negb (existsb (String.eqb (fst kv)) named)) kw.

(** Reading a local variable that may not have been assigned. *)
Definition local_var {A : Type} (name : string) (v : option A) : res A :=
  match v with
  | Some a => Ok a
  | None => Raise (UnboundLocalError name)
  end.

(** Lines 197-199 and 249-251: [interval], or the source's first interval. *)
Definition resolve_interval (source interval : json) : res json :=
  (if is_none interval then
     t <- jget source "temporal" ;;
     ivs <- jget t "intervals" ;;
     jfirst ivs
   else Ok interval)%res.

(** Lines 201-203 and 253-255: [parameters], or the source's common ones,
    as one comma-separated string. *)
Definition resolve_codes (source parameters : json) : res string :=
  (parameters <- (if is_none parameters then
                    p <- jget source "parameters" ;;
                    jget p "common"
                  else Ok parameters) ;;
   join_codes parameters)%res.

(** Lines 266-278: the station an observation request falls back on. *)
Definition default_station_id (source : json) : res json :=
  (id <- jget source "id" ;;
   if jeq_str id "info.fruitweb" then Ok (JInt 18150029)
   else
     id <- jget source "id" ;;
     if jeq_str id "net.ipmdecisions.metos" then Ok (JInt 732)
     else
       sp <- jget source "spatial" ;;
       g <- jget sp "geoJSON" ;;
       features <- jget g "features" ;;
       f0 <- jfirst features ;;
       top <- jhas "id" f0 ;;
       if top then
         f0 <- jfirst features ;;
         i <- jget f0 "id" ;;
         n <- py_int i ;;
         Ok (JInt n)
       else
         f0 <- jfirst features ;;
         pr <- jget f0 "properties" ;;
         i <- jget pr "id" ;;
         n <- py_int i ;;
         Ok (JInt n))%res.

Section WeatherAdapter.
Variable E : environ.

(** [IPM.weatheradapter_forecast_params] *)
Definition weatheradapter_forecast_params (source : json) (kw : kwargs)
  : res (list (string * json)) :=
  let latitude := kwarg kw "latitude" (JFloat 67.2828) in
  let longitude := kwarg kw "longitude" (JFloat 14.3711) in
  let altitude := kwarg kw "altitude" (JInt 0) in
  let interval := kwarg kw "interval" JNull in
  let parameters := kwarg kw "parameters" JNull in
  let options :=
    rest_kwargs ["latitude"; "longitude"; "altitude"; "interval"; "parameters"] kw in
  let params :=
    [("latitude", latitude); ("longitude", longitude); ("altitude", altitude)] in
  (interval <- resolve_interval source interval ;;
   let params := dict_update params [("interval", interval)] in
   codes <- resolve_codes source parameters ;;
   let params := dict_update params [("parameters", JStr codes)] in
   id <- jget source "id" ;;
   params <- (if jeq_str id "fi.fmi.forecast.location"
              then dict_pop "altitude" params
              else Ok params) ;;
   id <- jget source "id" ;;
   if jeq_str id "dk.dmi.pointweather" || jeq_str id "se.slu.lantmet" then
     start <- (if has_key "timeStart" options
               then fromisoformat (JStr "timeStart")
               else Ok (today E)) ;;
     a <- astimezone E start ;;
     let timeStart := isoformat a in
     end_ <- (if has_key "timeEnd" options
              then fromisoformat (JStr "timeEnd")
              else add_days start 1) ;;
     a <- astimezone E end_ ;;
     let timeEnd := isoformat a in
     Ok (dict_update params [("timeStart", JStr timeStart); ("timeEnd", JStr timeEnd)])
   else Ok params)%res.

(** Lines 257-263: the time window of an observation request. The local
    [start] is assigned only where [timeStart] is defaulted. *)
Definition observation_window (source timeStart timeEnd : json)
  : res (json * json) :=
  ('(start, timeStart) <-
      (if is_none timeStart then
         t <- jget source "temporal" ;;
         h <- jget t "historic" ;;
         s <- jget h "start" ;;
         d <- fromisoformat s ;;
         start <- add_days d 1 ;;
         a <- astimezone E start ;;
         Ok (Some start, JStr (isoformat a))
       else Ok (None, timeStart)) ;;
   timeEnd <- (if is_none timeEnd then
                 start <- local_var "start" start ;;
                 end_ <- add_days start 1 ;;
                 a <- astimezone E end_ ;;
                 Ok (JStr (isoformat a))
               else Ok timeEnd) ;;
   Ok (timeStart, timeEnd))%res.

(** [IPM.weatheradapter_observation_params] *)
Definition weatheradapter_observation_params (source : json) (kw : kwargs)
  : res (list (string * json)) :=
  let interval := kwarg kw "interval" JNull in
  let parameters := kwarg kw "parameters" JNull in
  let timeStart := kwarg kw "timeStart" JNull in
  let timeEnd := kwarg kw "timeEnd" JNull in
  let weatherStationId := kwarg kw "weatherStationId" JNull in
  let options :=
    rest_kwargs ["interval"; "parameters"; "timeStart"; "timeEnd"; "weatherStationId"] kw in
  let params : list (string * json) := [] in
  (interval <- resolve_interval source interval ;;
   let params := dict_update params [("interval", interval)] in
   codes <- resolve_codes source parameters ;;
   let params := dict_update params [("parameters", JStr codes)] in
   '(timeStart, timeEnd) <- observation_window source timeStart timeEnd ;;
   let params := dict_update params [("timeStart", timeStart); ("timeEnd", timeEnd)] in
   weatherStationId <- (if is_none weatherStationId
                        then default_station_id source
                        else Ok weatherStationId) ;;
   let params := dict_update params [("weatherStationId", weatherStationId)] in
   id <- jget source "id" ;;
   if jeq_str id "fi.fmi.observation.station" then
     let ignoreErrors := kwarg options "ignoreErrors" (JBool true) in
     Ok (dict_update params [("ignoreErrors", ignoreErrors)])
   else Ok params)%res.

(** [IPM.weatheradapter_params] *)
Definition weatheradapter_params (source : json) (kw : kwargs)
  : res (list (string * json)) :=
  (at_ <- jget source "access_type" ;;
   if jeq_str at_ "stations" then weatheradapter_observation_params source kw
   else
     at_ <- jget source "access_type" ;;
     if jeq_str at_ "location" then weatheradapter_forecast_params source kw
     else
       at_ <- jget source "access_type" ;;
       msg <- str_add "Unknown access type : " at_ ;;
       Raise (ValueError msg))%res.
End WeatherAdapter.

(** ** A store of Python objects *)

(** [model_input] assigns into dicts it shares with its caller, so dicts
    and lists live in a store and values refer to them. *)
Definition loc : Type := nat.

Inductive val : Type :=
| VNone
| VBool (b : bool)
| VInt (z : Z)
| VFloat (f : float)
| VStr (s : string)
| VRef (l : loc).

Inductive obj : Type :=
| ODict (entries : list (string * val))
| OList (items : list val).

Definition heap : Type := list obj.

(** A computation reads and writes the store and returns or raises; what it
    wrote before raising stays written. *)
Definition M (A : Type) : Type := heap -> res A * heap.

Definition ret {A : Type} (a : A) : M A := fun h => (Ok a, h).

Definition raise {A : Type} (e : exn) : M A := fun h => (Raise e, h).

Definition bind {A B : Type} (c : M A) (k : A -> M B) : M B :=
  fun h =>
    match c h with
    | (Ok a, h') => k a h'
    | (Raise e, h') => (Raise e, h')
    end.

Definition lift {A : Type} (r : res A) : M A := fun h => (r, h).

Declare Scope py_scope.
Delimit Scope py_scope with py.
Notation "x <- c ;; k" := (bind c (fun x => k))
  (at level 61, c at next level, right associativity) : py_scope.
Notation "' pat <- c ;; k" := (bind c (fun x => match x with pat => k end))
  (at level 61, pat pattern, c at next level, right associativity) : py_scope.
Notation "c ;; k" := (bind c (fun _ => k))
  (at level 61, right associativity) : py_scope.

Fixpoint for_each {A : Type} (xs : list A) (body : A -> M unit) : M unit :=
  match xs with
  | [] => ret tt
  | x :: rest => (body x ;; for_each rest body)%py
  end.

Fixpoint map_each {A B : Type} (xs : list A) (f : A -> M B) : M (list B) :=
  match xs with
  | [] => ret []
  | x :: rest => (y <- f x ;; ys <- map_each rest f ;; ret (y :: ys))%py
  end.

(** [all(f(x) for x in xs)]: stops at the first [False]. *)
Fixpoint all_of {A : Type} (xs : list A) (f : A -> M bool) : M bool :=
  match xs with
  | [] => ret true
  | x :: rest => (b <- f x ;; if b then all_of rest f else ret false)%py
  end.

Fixpoint replace_nth {A : Type} (n : nat) (a : A) (xs : list A) : list A :=
  match xs, n with
  | [], _ => []
  | _ :: rest, O => a :: rest
  | x :: rest, S m => x :: replace_nth m a rest
  end.

(** A new object; its location is the first one not in use. *)
Definition alloc (o : obj) : M val :=
  fun h => (Ok (VRef (List.length h)), (h ++ [o])%list).

(** The object a value refers to; a value that refers to none has no items
    to read or assign. *)
Definition deref (v : val) : M (loc * obj) :=
  fun h =>
    match v with
    | VRef l =>
        match nth_error h l with
        | Some o => (Ok (l, o), h)
        | None => (Raise Unsupported, h)
        end
    | _ => (Raise TypeError, h)
    end.

Definition store (l : loc) (o : obj) : M unit :=
  fun h => (Ok tt, replace_nth l o h).

(** [v[k]] for a string [k]. *)
Definition getitem (v : val) (k : string) : M val :=
  match v with
  | VRef _ =>
      ('(l, o) <- deref v ;;
       match o with
       | ODict d =>
           match assoc k d with
           | Some x => ret x
           | None => raise (KeyError (JStr k))
           end
       | OList _ => raise TypeError
       end)%py
  | _ => raise TypeError
  end.

(** [v[0]] *)
Definition getfirst (v : val) : M val :=
  match v with
  | VRef _ =>
      ('(l, o) <- deref v ;;
       match o with
       | OList (x :: _) => ret x
       | OList [] => raise IndexError
       | ODict _ => raise (KeyError (JInt 0))
       end)%py
  | VStr (String c _) => ret (VStr (String c EmptyString))
  | VStr EmptyString => raise IndexError
  | _ => raise TypeError
  end.

(** [v[k] = x] for a string [k]. *)
Definition setitem (v : val) (k : string) (x : val) : M unit :=
  ('(l, o) <- deref v ;;
   match o with
   | ODict d => store l (ODict (dict_set k x d))
   | OList _ => raise TypeError
   end)%py.

(** [v.copy()] *)
Definition copy (v : val) : M val :=
  match v with
  | VRef _ => ('(l, o) <- deref v ;; alloc o)%py
  | _ => raise AttributeError
  end.

(** [v.pop(k)], the popped value dropped. *)
Definition pop (v : val) (k : string) : M unit :=
  match v with
  | VRef _ =>
      ('(l, o) <- deref v ;;
       match o with
       | ODict d =>
           if has_key k d then store l (ODict (dict_remove k d))
           else raise (KeyError (JStr k))
       | OList _ => raise TypeError
       end)%py
  | _ => raise AttributeError
  end.

Definition is_ref (v : val) : bool :=
  match v with VRef _ => true | _ => false end.

Definition is_float (v : val) : bool :=
  match v with VFloat _ => true | _ => false end.

(** The integer a [bool] or an [int] stands for in a comparison. *)
Definition as_int (v : val) : option Z :=
  match v with
  | VBool b => Some (if b then 1 else 0)
  | VInt z => Some z
  | _ => None
  end.

(** [a == b]. Floats and two different containers are left out. *)
Definition val_eq (a b : val) : res bool :=
  match a, b with
  | VFloat _, _ | _, VFloat _ => Raise Unsupported
  | VRef l, VRef l' => if Nat.eqb l l' then Ok true else Raise Unsupported
  | VRef _, _ | _, VRef _ => Ok false
  | VNone, VNone => Ok true
  | VStr s, VStr t => Ok (String.eqb s t)
  | _, _ =>
      match as_int a, as_int b with
      | Some x, Some y => Ok (x =? y)
      | _, _ => Ok false
      end
  end.

(** [x in xs] for a list: the first element equal to [x] decides. *)
Fixpoint list_has (x : val) (xs : list val) : res bool :=
  match xs with
  | [] => Ok false
  | y :: rest =>
      (b <- val_eq x y ;; if b then Ok true else list_has x rest)%res
  end.

(** [x in v] *)
Definition contains (x : val) (v : val) : M bool :=
  match v with
  | VRef _ =>
      ('(l, o) <- deref v ;;
       match o with
       | ODict d =>
           match x with
           | VStr k => ret (has_key k d)
           | VRef _ => raise TypeError
           | VFloat _ => raise Unsupported
           | _ => ret false
           end
       | OList xs => lift (list_has x xs)
       end)%py
  | VStr s =>
      match x with
      | VStr k => ret (match index 0 k s with Some _ => true | None => false end)
      | _ => raise TypeError
      end
  | _ => raise TypeError
  end.

(** What a [for] loop over [v] visits. *)
Definition iterate (v : val) : M (list val) :=
  match v with
  | VRef _ =>
      ('(l, o) <- deref v ;;
       match o with
       | ODict d => ret (map (fun kv => VStr (fst kv)) d)
       | OList xs => ret xs
       end)%py
  | VStr s => ret (map VStr (chars s))
  | _ => raise TypeError
  end.

(** The keys a [for] loop over a dict of string keys visits. *)
Definition iterate_keys (v : val) : M (list string) :=
  match v with
  | VRef _ =>
      ('(l, o) <- deref v ;;
       match o with
       | ODict d => ret (map fst d)
       | OList _ => raise Unsupported
       end)%py
  | VStr s => ret (chars s)
  | _ => raise TypeError
  end.

(** [a + b] on strings. *)
Definition add_str (a : val) (b : string) : M string :=
  match a with
  | VStr s => ret (s ++ b)
  | _ => raise TypeError
  end.

(** A value that is not a container, as JSON. *)
Definition atom (v : val) : option json :=
  match v with
  | VNone => Some JNull
  | VBool b => Some (JBool b)
  | VInt z => Some (JInt z)
  | VFloat f => Some (JFloat f)
  | VStr s => Some (JStr s)
  | VRef _ => None
  end.

(** [set(xs) - set(ys)]: the elements, once each; the order in which
    Python would print them is not fixed. *)
Fixpoint set_of (xs : list val) (seen : list val) : res (list val) :=
  match xs with
  | [] => Ok (rev seen)
  | x :: rest =>
      if is_ref x then Raise TypeError
      else if is_float x then Raise Unsupported
      else (b <- list_has x seen ;;
            set_of rest (if b then seen else x :: seen))%res
  end.

Definition set_diff (xs ys : list val) : res (list json) :=
  (a <- set_of xs [] ;;
   b <- set_of ys [] ;;
   keep <- mapM (fun x : val => rbind (list_has x b) (fun m => Ok (x, m))) a ;;
   Ok (flat_map (fun xm : val * bool =>
                   if snd xm then []
                   else match atom (fst xm) with
                        | Some j => [j]
                        | None => []
                        end) keep))%res.

(** ** Looking into the store *)

(** The object a value refers to, if any. *)
Definition lookup (h : heap) (v : val) : option obj :=
  match v with
  | VRef l => nth_error h l
  | _ => None
  end.

(** The value a dict holds under a key. *)
Definition field (h : heap) (v : val) (k : string) : option val :=
  match lookup h v with
  | Some (ODict d) => assoc k d
  | _ => None
  end.

(** A weather parameter code as the platform writes them: a string or an
    integer. *)
Definition is_code (v : val) : bool :=
  match v with
  | VStr _ | VInt _ => true
  | _ => false
  end.

(** A value that refers to nothing at or above [n]. *)
Definition val_below (n : nat) (v : val) : bool :=
  match v with
  | VRef l => (l <? n)%nat
  | _ => true
  end.

Definition obj_below (n : nat) (o : obj) : bool :=
  match o with
  | ODict d => forallb (fun kv => val_below n (snd kv)) d
  | OList xs => forallb (val_below n) xs
  end.

(** A store in which every reference leads to an object of the store. *)
Definition closed (h : heap) : bool := forallb (obj_below (List.length h)) h.

(** A store that has not shrunk and is closed if it was. *)
Definition grows (h h' : heap) : Prop :=
  (List.length h <= List.length h')%nat /\ (closed h = true -> closed h' = true).

(** The default a schema declares for a configuration parameter. *)
Definition declared_default (h : heap) (config_params : val) (k : string) : option val :=
  match field h config_params "properties" with
  | Some cprops =>
      match field h cprops k with
      | Some decl => field h decl "default"
      | None => None
      end
  | None => None
  end.

(** A value that refers to nothing below [n]. *)
Definition val_from (n : nat) (v : val) : bool :=
  match v with
  | VRef l => (n <=? l)%nat
  | _ => true
  end.

Definition obj_from (n : nat) (o : obj) : bool :=
  match o with
  | ODict d => forallb (fun kv => val_from n (snd kv)) d
  | OList xs => forallb (val_from n) xs
  end.

(** What an allocation adds to the store [h]: objects that refer only to
    other added objects, each to ones added before it. *)
Definition fresh_ext (h ext : heap) : Prop :=
  forall i o, nth_error ext i = Some o ->
    obj_from (List.length h) o = true /\ obj_below (List.length h + i) o = true.

(** What holds of a value allocated from [h] into [h']. *)
Definition allocated (h h' : heap) (v : val) : Prop :=
  val_from (List.length h) v = true /\ val_below (List.length h') v = true.

(** What lines 865-868 choose for a key: the caller's parameter, else the
    declared default, else nothing. *)
Definition config_choice (h : heap) (parameters config_params : val) (k : string)
  : option val :=
  match field h parameters k with
  | Some x => Some x
  | None => declared_default h config_params k
  end.

(** Two stores that hold the same objects everywhere but at [l]. *)
Definition agree_except (l : loc) (h hs : heap) : Prop :=
  forall l', l' <> l -> nth_error h l' = nth_error hs l'.

(** A computation that only reads the store. *)
Definition pure {A : Type} (c : M A) : Prop :=
  forall h r h', c h = (r, h') -> h' = h.

(** The generated document [input] has the dict at [lcp] as its
    [configParameters], and that dict holds [x] under [k]. *)
Definition config_slot (h : heap) (input : val) (lcp : loc) (k : string) (x : val)
  : Prop :=
  field h input "configParameters" = Some (VRef lcp)
  /\ exists d, nth_error h lcp = Some (ODict d) /\ assoc k d = Some x.

(** ** Moving JSON in and out of the store *)

(** Allocating the parts of a container one after the other. *)
Fixpoint alloc_each {A B : Type} (f : A -> heap -> B * heap) (xs : list A) (h : heap)
  : list B * heap :=
  match xs with
  | [] => ([], h)
  | x :: rest =>
      let '(v, h1) := f x h in
      let '(vs, h2) := alloc_each f rest h1 in
      (v :: vs, h2)
  end.

(** A fresh copy of [j] in the store: the parts first, then the container
    that refers to them. *)
Fixpoint alloc_json (j : json) (h : heap) : val * heap :=
  match j with
  | JNull => (VNone, h)
  | JBool b => (VBool b, h)
  | JInt z => (VInt z, h)
  | JFloat f => (VFloat f, h)
  | JStr s => (VStr s, h)
  | JList xs =>
      let '(vs, h') := alloc_each alloc_json xs h in
      (VRef (List.length h'), (h' ++ [OList vs])%list)
  | JDict kvs =>
      let '(d, h') :=
        alloc_each (fun kv h => let '(v, h1) := alloc_json (snd kv) h in ((fst kv, v), h1))
          kvs h in
      (VRef (List.length h'), (h' ++ [ODict d])%list)
  end.

Definition new_json (j : json) : M val :=
  fun h => let '(v, h') := alloc_json j h in (Ok v, h').

Fixpoint all_some {A : Type} (xs : list (option A)) : option (list A) :=
  match xs with
  | [] => Some []
  | Some a :: rest =>
      match all_some rest with
      | Some r => Some (a :: r)
      | None => None
      end
  | None :: _ => None
  end.

(** The JSON a value stands for, read through the store to depth [fuel]. *)
Fixpoint reify (fuel : nat) (h : heap) (v : val) : option json :=
  match v with
  | VRef l =>
      match fuel with
      | O => None
      | S f =>
          match nth_error h l with
          | Some (OList xs) =>
              option_map JList (all_some (map (reify f h) xs))
          | Some (ODict d) =>
              option_map JDict
                (all_some (map (fun kv =>
                                  option_map (pair (fst kv)) (reify f h (snd kv))) d))
          | None => None
          end
      end
  | _ => atom v
  end.

(** Reading a whole value, as a library that walks it does. A walk that
    does not end within the number of objects is on a cycle. *)
Definition snapshot (v : val) : M json :=
  fun h =>
    match reify (S (List.length h)) h v with
    | Some j => (Ok j, h)
    | None => (Raise RecursionError, h)
    end.

(** ** [IPM.model_input] *)

Definition fieldobs : list string :=
  ["fieldObservations"; "fieldObservationQuantifications"].

(** The schema put in place of a property whose value the caller supplies:
    [{'type': 'string', 'pattern': '^' + token + '$', 'default': token}]. *)
Definition placeholder_schema (token : string) : obj :=
  ODict [("type", VStr "string");
         ("pattern", VStr ("^" ++ token ++ "$"));
         ("default", VStr token)].

Section ModelInput.
(** [JSF(schema).generate()]: a third-party generator of a document that
    fits the schema, with random choices. It is taken as any function of
    the schema it is given. *)
Variable jsf_generate : json -> res json.

(** Lines 841-855: the working schema and its [configParameters]. *)
Definition prepare_schema (model : val) : M (val * val) :=
  (ex <- getitem model "execution" ;;
   orig <- getitem ex "input_schema" ;;
   schema <- copy orig ;;
   props <- getitem schema "properties" ;;
   config_params <- getitem props "configParameters" ;;
   props <- getitem schema "properties" ;;
   declared <- contains (VStr "weatherData") props ;;
   (if declared then
      d <- alloc (placeholder_schema "{WEATHER_DATA}") ;;
      props <- getitem schema "properties" ;;
      setitem props "weatherData" d
    else ret tt) ;;
   for_each fieldobs (fun p =>
     cprops <- getitem config_params "properties" ;;
     declared <- contains (VStr p) cprops ;;
     if declared then
       d <- alloc (placeholder_schema ("{" ++ p ++ "}")) ;;
       cprops <- getitem config_params "properties" ;;
       setitem cprops p d
     else ret tt) ;;
   has_defs <- contains (VStr "definitions") schema ;;
   (if has_defs then pop schema "definitions" else ret tt) ;;
   ret (schema, config_params))%py.

(** Lines 857-858: the generated document, a new object. *)
Definition generate (schema : val) : M val :=
  (doc <- snapshot schema ;;
   fake <- lift (jsf_generate doc) ;;
   new_json fake)%py.

(** Lines 865-870: the body of the loop over the generated
    [configParameters]. *)
Definition fill_one (input config_params parameters : val) (p : string) : M unit :=
(given <- contains (VStr p) parameters ;;
 if given then
   x <- getitem parameters p ;;
   cp <- getitem input "configParameters" ;;
   setitem cp p x
 else
   cprops <- getitem config_params "properties" ;;
   decl <- getitem cprops p ;;
   has_default <- contains (VStr "default") decl ;;
   if has_default then
     cprops <- getitem config_params "properties" ;;
     decl <- getitem cprops p ;;
     x <- getitem decl "default" ;;
     cp <- getitem input "configParameters" ;;
     setitem cp p x
   else ret tt)%py.

(** Lines 860-870: caller's parameters, else declared defaults. *)
Definition fill_config (input config_params parameters : val) : M unit :=
(parameters <- (match parameters with
                | VNone => alloc (ODict [])
                | _ => ret parameters
                end) ;;
 present <- contains (VStr "configParameters") input ;;
 if present then
   cp <- getitem input "configParameters" ;;
   keys <- iterate_keys cp ;;
   for_each keys (fill_one input config_params parameters)
 else ret tt)%py.

(** Lines 873-877: the codes and the interval the model asks for. *)
Definition weather_requirements (model : val) : M (list val * val) :=
  (inp <- getitem model "input" ;;
   wp <- getitem inp "weather_parameters" ;;
   match wp with
   | VNone => ret ([], VNone)
   | _ =>
       inp <- getitem model "input" ;;
       wp <- getitem inp "weather_parameters" ;;
       items <- iterate wp ;;
       required <- map_each items (fun item => getitem item "parameter_code") ;;
       inp <- getitem model "input" ;;
       wp <- getitem inp "weather_parameters" ;;
       first <- getfirst wp ;;
       interval <- getitem first "interval" ;;
       ret (required, interval)
   end)%py.

(** The two [assert] statements on supplied weather data and the
    assignment after them; [prefix] is what the first message starts with. *)
Definition check_and_set_weather (prefix : string) (input weather_data : val)
    (required : list val) (interval : val) : M unit :=
  (ok <- all_of required (fun code =>
           wps <- getitem weather_data "weatherParameters" ;;
           contains code wps) ;;
   (if ok then ret tt
    else
      wps <- getitem weather_data "weatherParameters" ;;
      have <- iterate wps ;;
      missing <- lift (set_diff required have) ;;
      raise (AssertionError prefix (Some missing))) ;;
   wi <- getitem weather_data "interval" ;;
   same <- lift (val_eq interval wi) ;;
   (if same then ret tt
    else raise (AssertionError
                  "weatherdata interval is not fullfilling model requirements" None)) ;;
   setitem input "weatherData" weather_data)%py.

(** Lines 878-888 *)
Definition add_weather (model schema input weather_data : val)
    (required : list val) (interval : val) : M unit :=
  (present <- contains (VStr "weatherData") input ;;
   if present then
     match weather_data with
     | VNone =>
         id <- getitem model "id" ;;
         msg <- add_str id " requires WeatherData as input" ;;
         raise (ValueError msg)
     | _ =>
         check_and_set_weather "WeatherData parameter are missing: "
           input weather_data required interval
     end
   else
     match weather_data with
     | VNone => ret tt
     | _ =>
         props <- getitem schema "properties" ;;
         declared <- contains (VStr "weatherData") props ;;
         if declared then
           check_and_set_weather "Some weatherdata parameter are missing"
             input weather_data required interval
         else ret tt
     end)%py.

(** Lines 891-897: the body of the loop over the two field-observation
    properties. *)
Definition add_fieldob (model input config_params : val) (p : string) (pvalue : val)
  : M unit :=
(cp <- getitem input "configParameters" ;;
 present <- contains (VStr p) cp ;;
 if present then
   (match pvalue with
    | VNone =>
        id <- getitem model "id" ;;
        msg <- add_str id (" requires " ++ p ++ " as input") ;;
        raise (ValueError msg)
    | _ => ret tt
    end) ;;
   cp <- getitem input "configParameters" ;;
   setitem cp p pvalue
 else
   match pvalue with
   | VNone => ret tt
   | _ =>
       cprops <- getitem config_params "properties" ;;
       declared <- contains (VStr p) cprops ;;
       if declared then
         cp <- getitem input "configParameters" ;;
         setitem cp p pvalue
       else ret tt
   end)%py.

(** Lines 889-897 *)
Definition add_fieldobs (model input config_params : val)
    (field_observations field_observation_quantifications : val) : M unit :=
for_each (combine fieldobs [field_observations; field_observation_quantifications])
  (fun '(p, pvalue) => add_fieldob model input config_params p pvalue).

(** [IPM.model_input(model, parameters, weather_data, field_observations,
    field_observation_quantifications)]; an argument left out is [VNone]. *)
Definition model_input (model parameters weather_data field_observations
    field_observation_quantifications : val) : M val :=
  ('(schema, config_params) <- prepare_schema model ;;
   input <- generate schema ;;
   fill_config input config_params parameters ;;
   '(required, interval) <- weather_requirements model ;;
   add_weather model schema input weather_data required interval ;;
   add_fieldobs model input config_params
     field_observations field_observation_quantifications ;;
   ret input)%py.
End ModelInput.

(** A key no placeholder schema has. *)
Definition not_in_placeholder (k : string) : Prop :=
  forall tok d, placeholder_schema tok = ODict d -> has_key k d = false.

(** [h'] differs from [h] at most by new objects and by the entries of
    dicts under the keys [K]; a dict that stands in for a caller-supplied
    property is left as it is. *)
Definition touches (K : list string) (h h' : heap) : Prop :=
  (forall v a x, field h v a = Some x -> ~ In a K -> field h' v a = Some x)
  /\ (forall l tok, nth_error h l = Some (placeholder_schema tok) ->
                    nth_error h' l = Some (placeholder_schema tok)).

(** ** Running [model_input] on JSON arguments *)

Definition new_arg (a : option json) : M val :=
  match a with
  | Some j => new_json j
  | None => ret VNone
  end.

(** What a caller that holds JSON documents sees of a call: the result, and
    its own model as it is once the call is over. *)
Definition call_model_input (jsf_generate : json -> res json) (model : json)
    (parameters weather_data field_observations
       field_observation_quantifications : option json)
  : res json * option json :=
  let '(m, h) := alloc_json model [] in
  let setup :=
    (p <- new_arg parameters ;;
     w <- new_arg weather_data ;;
     fo <- new_arg field_observations ;;
     foq <- new_arg field_observation_quantifications ;;
     r <- model_input jsf_generate m p w fo foq ;;
     snapshot r)%py in
  let '(r, h') := setup h in
  (r, reify (S (List.length h')) h' m).

(** ** The calls to the platform *)

(** [j[k] = v] for a string [k], on a value no one else holds: the value
    after the assignment. *)
Definition jset (j : json) (k : string) (v : json) : res json :=
  match j with
  | JDict d => Ok (JDict (dict_set k v d))
  | _ => Raise TypeError
  end.

(** What [REST.http_get] and [REST.http_post] are called with; every call
    of this module also passes [frmt='json']. *)
Record request : Type := mkRequest {
  req_url : json;
  req_headers : option json;
  req_params : option json;
  req_data : option json
}.

(** A Python dict whose keys are the hashable values JSON has: [None],
    booleans, integers, strings. A key that is already there keeps its
    place and its first spelling. *)
Definition pydict : Type := list (json * json).

(** [a == b] on two such keys. *)
Definition key_eqb (a b : json) : bool :=
  match a, b with
  | JNull, JNull => true
  | JStr s, JStr t => String.eqb s t
  | JBool x, JBool y => Bool.eqb x y
  | JInt x, JInt y => x =? y
  | JBool x, JInt y => (if x then 1 else 0) =? y
  | JInt x, JBool y => x =? (if y then 1 else 0)
  | _, _ => false
  end.

(** [hash(k)]: lists and dicts have none. *)
Definition hash_check (k : json) : res unit :=
  match k with
  | JList _ | JDict _ => Raise TypeError
  | JFloat _ => Raise Unsupported
  | _ => Ok tt
  end.

Fixpoint pydict_get (k : json) (d : pydict) : option json :=
  match d with
  | [] => None
  | (k', v) :: rest => if key_eqb k k' then Some v else pydict_get k rest
  end.

Fixpoint pydict_set (k v : json) (d : pydict) : pydict :=
  match d with
  | [] => [(k, v)]
  | (k', v') :: rest =>
      if key_eqb k k' then (k', v) :: rest else (k', v') :: pydict_set k v rest
  end.

(** Line 385: [{item['id']: item for item in res}], added to [acc]. *)
Fixpoint index_by_id (items : list json) (acc : pydict) : res pydict :=
  match items with
  | [] => Ok acc
  | item :: rest =>
      (k <- jget item "id" ;;
       _ <- hash_check k ;;
       index_by_id rest (pydict_set k item acc))%res
  end.

(** Lines 390 and 392: [{k: v for k, v in res.items() if v[attr] == wanted}] *)
Fixpoint select (attr wanted : string) (d : pydict) : res pydict :=
  match d with
  | [] => Ok []
  | (k, v) :: rest =>
      (a <- jget v attr ;;
       kept <- select attr wanted rest ;;
       Ok (if jeq_str a wanted then (k, v) :: kept else kept))%res
  end.

(** [','.join(d.keys())] *)
Definition join_keys (d : pydict) : res string :=
  (ss <- mapM (fun kv : json * json =>
                 match fst kv with
                 | JStr s => Ok s
                 | _ => Raise TypeError
                 end) d ;;
   Ok (String.concat "," ss))%res.

(** The test of lines 390 and 392 on a source that has the attribute. *)
Definition attr_is (attr wanted : string) (source : json) : bool :=
  match jget source attr with
  | Ok v => jeq_str v wanted
  | Raise _ => false
  end.

(** What [get_weatherdatasource] returns: the dict of all sources, or one
    of them. *)
Inductive datasources : Type :=
| AllSources (sources : pydict)
| OneSource (source : json).

(** [str.format] with the one keyword argument [arg = value], for
    templates whose replacement fields are plain names: no attribute, no
    index, no conversion, no format specification. *)
Inductive fmt_state : Type :=
| FmtText
| FmtOpen
| FmtClose
| FmtField (name : string).

Fixpoint all_digits (s : string) : bool :=
  match s with
  | EmptyString => true
  | String c rest => is_digit c && all_digits rest
  end.

(** The value of the field [name]: a number, or nothing, asks for a
    positional argument, and there is none. *)
Definition fmt_field (arg value name : string) : res string :=
  if String.eqb name arg then Ok value
  else if all_digits name then
    (if (String.length name <=? 18)%nat then Raise IndexError else Raise Unsupported)
  else Raise (KeyError (JStr name)).

Definition fmt_in_field (arg value name : string) (c : ascii) (out : string)
  : res (fmt_state * string) :=
  if Ascii.eqb c "}"%char then
    (v <- fmt_field arg value name ;; Ok (FmtText, out ++ v))%res
  else if Ascii.eqb c "{"%char then Raise (ValueError "unexpected '{' in field name")
  else if Ascii.eqb c "["%char || Ascii.eqb c "."%char
          || Ascii.eqb c "!"%char || Ascii.eqb c ":"%char then Raise Unsupported
  else Ok (FmtField (name ++ String c EmptyString), out).

Definition fmt_step (arg value : string) (st : fmt_state) (c : ascii) (out : string)
  : res (fmt_state * string) :=
  match st with
  | FmtText =>
      if Ascii.eqb c "{"%char then Ok (FmtOpen, out)
      else if Ascii.eqb c "}"%char then Ok (FmtClose, out)
      else Ok (FmtText, out ++ String c EmptyString)
  | FmtOpen =>
      if Ascii.eqb c "{"%char then Ok (FmtText, out ++ "{")
      else fmt_in_field arg value "" c out
  | FmtClose =>
      if Ascii.eqb c "}"%char then Ok (FmtText, out ++ "}")
      else Raise (ValueError "Single '}' encountered in format string")
  | FmtField name => fmt_in_field arg value name c out
  end.

Fixpoint fmt_run (arg value : string) (st : fmt_state) (s out : string) : res string :=
  match s with
  | EmptyString =>
      match st with
      | FmtText => Ok out
      | FmtOpen => Raise (ValueError "Single '{' encountered in format string")
      | FmtClose => Raise (ValueError "Single '}' encountered in format string")
      | FmtField _ => Raise (ValueError "expected '}' before end of string")
      end
  | String c rest =>
      ('(st', out') <- fmt_step arg value st c out ;;
       fmt_run arg value st' rest out')%res
  end.

(** [template.format(arg=value)] *)
Definition py_format (template : json) (arg value : string) : res string :=
  match template with
  | JStr s => fmt_run arg value FmtText s ""
  | _ => Raise AttributeError
  end.

(** What a library reads of a value it is passed. *)
Definition read_value (v : val) : M json :=
  fun h =>
    match reify (S (List.length h)) h v with
    | Some j => (Ok j, h)
    | None => (Raise Unsupported, h)
    end.

Section Services.
(** The attributes [self._url] and [self.callback], the inherited
    [get_headers], [http_get] and [http_post], and the two functions of
    the [json] module; the generator is the one [model_input] calls. *)
Variable E : environ.
Variable base_url : string.
Variable callback : json.
Variable get_headers : string -> json.
Variable http_get : request -> res json.
Variable http_post : request -> res json.
Variable json_loads : string -> res json.
Variable json_dumps : json -> string.
Variable jsf_generate : json -> res json.

(** [json.loads(j)] *)
Definition loads (j : json) : res json :=
  match j with
  | JStr s => json_loads s
  | _ => Raise TypeError
  end.

(** [json.dumps(v)]: a value that holds itself is refused. *)
Definition dumps (v : val) : M string :=
  fun h =>
    match reify (S (List.length h)) h v with
    | Some j => (Ok (json_dumps j), h)
    | None => (Raise (ValueError "Circular reference detected"), h)
    end.

(** Lines 381-383, for one source [r] of the response: the source once the
    text under [spatial.geoJSON] is replaced by what it parses to. *)
Definition parse_geojson (r : json) : res json :=
  (sp <- jget r "spatial" ;;
   present <- jhas "geoJSON" sp ;;
   if present then
     sp <- jget r "spatial" ;;
     g <- jget sp "geoJSON" ;;
     if is_none g then Ok r
     else
       sp <- jget r "spatial" ;;
       g <- jget sp "geoJSON" ;;
       parsed <- loads g ;;
       sp <- jget r "spatial" ;;
       sp <- jset sp "geoJSON" parsed ;;
       jset r "spatial" sp
   else Ok r)%res.

(** The request of lines 373-378. *)
Definition weatherdatasource_request : request :=
  mkRequest (JStr "api/wx/rest/weatherdatasource")
    (Some (get_headers "json")) (Some (JDict [("callback", callback)])) None.

(** [IPM.get_weatherdatasource(source_id, access_type,
    authentication_type)], each argument a string or [None]. *)
Definition get_weatherdatasource (source_id access_type authentication_type : option string)
  : res datasources :=
  (res <- http_get weatherdatasource_request ;;
   items <- py_iter res ;;
   items <- mapM parse_geojson items ;;
   sources <- index_by_id items [] ;;
   match source_id with
   | None =>
       res <- match access_type with
              | Some a => select "access_type" a sources
              | None => Ok sources
              end ;;
       res <- match authentication_type with
              | Some a => select "authentication_type" a res
              | None => Ok res
              end ;;
       Ok (AllSources res)
   | Some s =>
       match pydict_get (JStr s) sources with
       | Some source => Ok (OneSource source)
       | None =>
           keys <- join_keys sources ;;
           Raise (ValueError
                    ("datasource error: source_id is not referencing a valid datasource: "
                     ++ keys))
       end
   end)%res.

(** The request of lines 670-673:
    ["api/dss/rest/model/{}/{}".format(DSSId, ModelId)] for two strings. *)
Definition model_request (DSSId ModelId : string) : request :=
  mkRequest (JStr ("api/dss/rest/model/" ++ DSSId ++ "/" ++ ModelId)) None None None.

(** [IPM.get_model(DSSId, ModelId)], both strings. *)
Definition get_model (DSSId ModelId : string) : res json :=
  (res <- http_get (model_request DSSId ModelId) ;;
   match res with
   | JDict _ =>
       has_execution <- jhas "execution" res ;;
       if has_execution then
         ex <- jget res "execution" ;;
         has_schema <- jhas "input_schema" ex ;;
         if has_schema then
           ex <- jget res "execution" ;;
           s <- jget ex "input_schema" ;;
           parsed <- loads s ;;
           ex <- jget res "execution" ;;
           ex <- jset ex "input_schema" parsed ;;
           jset res "execution" ex
         else Ok res
       else Ok res
   | _ => Ok res
   end)%res.

(** [IPM.get_weatheradapter(source, params, credentials)]. The source and
    the credentials are only read; [params] is an object of the caller's,
    or [None]. *)
Definition get_weatheradapter (source : json) (params : val) (credentials : json)
  : M json :=
  (params <- match params with
             | VNone =>
                 ps <- lift (weatheradapter_params E source []) ;;
                 new_json (JDict ps)
             | _ => ret params
             end ;;
   endpoint <- lift (template <- jget source "endpoint" ;;
                     py_format template "WEATHER_API_URL" (base_url ++ "/api/wx"))%res ;;
   auth <- lift (jget source "authentication_type") ;;
   if negb (jeq_str auth "CREDENTIALS") then
     sent <- read_value params ;;
     lift (http_get (mkRequest (JStr endpoint) None (Some sent) None))
   else
     setitem params "credentials" (VStr (json_dumps credentials)) ;;
     sent <- read_value params ;;
     lift (http_post (mkRequest (JStr endpoint) None None (Some sent))))%py.

(** [IPM.run_model(model, parameters, weather_data, field_observations,
    field_observation_quantifications, model_input)] *)
Definition run_model (model parameters weather_data field_observations
    field_observation_quantifications given : val) : M json :=
  (input <- match given with
            | VNone =>
                model_input jsf_generate model parameters weather_data
                  field_observations field_observation_quantifications
            | _ => ret given
            end ;;
   ex <- getitem model "execution" ;;
   endpoint <- getitem ex "endpoint" ;;
   body <- dumps input ;;
   url <- read_value endpoint ;;
   lift (http_post (mkRequest url
                      (Some (JDict [("Content-Type", JStr "application/json")]))
                      None (Some (JStr body)))))%py.
End Services.

(** * Statements *)

(** ** Example data *)

(** A process whose local time is UTC, started on 2024-05-17 at 10:30. *)
Definition utc_env : environ :=
  mkEnviron (fun _ => 0) (mkDatetime 2024 5 17 10 30 0 0 None false).

(** A process two hours east of UTC. *)
Definition eet_env : environ :=
  mkEnviron (fun _ => 7200) (mkDatetime 2024 5 17 12 30 0 0 None false).

(** Local time in Paris in 2024: an hour ahead of UTC, and two from 31 March
    at 01:00 UTC, when clocks went from 02:00 to 03:00, to 27 October at
    01:00 UTC, when they went from 03:00 back to 02:00. *)
Definition paris_gmtoff (t : Z) : Z :=
  if (1711846800 <=? t) && (t <? 1729990800) then 7200 else 3600.

(** A process in Paris whose clock reads [now]. *)
Definition paris_env (now : datetime) : environ := mkEnviron paris_gmtoff now.

(** A process in Cairo in 2024: two hours ahead of UTC, and three from 25
    April at 22:00 UTC, when clocks went from midnight to 01:00. *)
Definition cairo_env : environ :=
  mkEnviron (fun t => if t <? 1714082400 then 7200 else 10800)
    (mkDatetime 2024 5 17 13 30 0 0 None false).

(** The descriptor of the resolver-defaulting example, as the spec gives it. *)
Definition example_station_source : json :=
  JDict [("access_type", JStr "stations");
         ("temporal", JDict [("intervals", JList [JInt 3600]);
                             ("historic", JDict [("start", JStr "2020-01-01T00:00:00+00:00")])]);
         ("parameters", JDict [("common", JList [JStr "TM"])])].

(** The same descriptor with an id and one station in its GeoJSON. *)
Definition example_station_source_full : json :=
  JDict [("id", JStr "fi.fmi.observation.station");
         ("access_type", JStr "stations");
         ("temporal", JDict [("intervals", JList [JInt 3600]);
                             ("historic", JDict [("start", JStr "2020-01-01T00:00:00+00:00")])]);
         ("parameters", JDict [("common", JList [JStr "TM"])]);
         ("spatial",
          JDict [("geoJSON",
                  JDict [("features",
                          JList [JDict [("properties", JDict [("id", JStr "101004")])]])])])].

(** The same station source with another start of its records. *)
Definition example_station_source_since (start : string) : json :=
  JDict [("id", JStr "fi.fmi.observation.station");
         ("access_type", JStr "stations");
         ("temporal", JDict [("intervals", JList [JInt 3600]);
                             ("historic", JDict [("start", JStr start)])]);
         ("parameters", JDict [("common", JList [JStr "TM"])]);
         ("spatial",
          JDict [("geoJSON",
                  JDict [("features",
                          JList [JDict [("properties", JDict [("id", JStr "101004")])]])])])].

Definition example_location_source : json :=
  JDict [("id", JStr "dk.dmi.pointweather");
         ("access_type", JStr "location");
         ("temporal", JDict [("intervals", JList [JInt 3600])]);
         ("parameters", JDict [("common", JList [JInt 1002; JInt 3002])])].

(** A model whose schema declares [weatherData] and both field-observation
    properties; only [configParameters] is required. *)
Definition example_model : json :=
  JDict
    [("id", JStr "no.nibio.vips.model.EXAMPLE");
     ("execution",
      JDict
        [("endpoint", JStr "https://example.org/models/EXAMPLE/run");
         ("input_schema",
          JDict
            [("type", JStr "object");
             ("properties",
              JDict
                [("configParameters",
                  JDict
                    [("type", JStr "object");
                     ("properties",
                      JDict
                        [("timeZone",
                          JDict [("type", JStr "string");
                                 ("default", JStr "Europe/Oslo")]);
                         ("threshold", JDict [("type", JStr "integer")]);
                         ("fieldObservations",
                          JDict [("type", JStr "array")]);
                         ("fieldObservationQuantifications",
                          JDict [("type", JStr "array")])]);
                     ("required", JList [JStr "timeZone"; JStr "threshold"])]);
                 ("weatherData",
                  JDict [("$ref", JStr "https://example.org/schema/weatherdata")])]);
             ("required", JList [JStr "configParameters"]);
             ("definitions", JDict [])])]);
     ("input",
      JDict
        [("weather_parameters",
          JList [JDict [("parameter_code", JStr "TM"); ("interval", JInt 3600)]])])].

(** One document the generator may return for the prepared schema: every
    declared property present. *)
Definition full_fake (_ : json) : res json :=
  Ok (JDict
        [("configParameters",
          JDict [("timeZone", JStr "Europe/Oslo");
                 ("threshold", JInt 17);
                 ("fieldObservations", JStr "{fieldObservations}");
                 ("fieldObservationQuantifications",
                  JStr "{fieldObservationQuantifications}")]);
         ("weatherData", JStr "{WEATHER_DATA}")]).

(** Another one: the properties the schema does not require are left out. *)
Definition required_only_fake (_ : json) : res json :=
  Ok (JDict
        [("configParameters",
          JDict [("timeZone", JStr "Europe/Oslo");
                 ("threshold", JInt 17)])]).

Definition example_weather (interval : Z) : json :=
  JDict [("weatherParameters", JList [JStr "TM"; JStr "RH"]);
         ("interval", JInt interval);
         ("locationWeatherData", JList [])].

(** The store a caller holding [example_model] starts from, and the model
    in it. *)
Definition example_store : heap := snd (alloc_json example_model []).
Definition example_model_ref : val := fst (alloc_json example_model []).

(** The same store with a weather-data document in it: the model, the
    weather data, the store. *)
Definition example_call_store (weather : json) : val * val * heap :=
  let '(m, h) := alloc_json example_model [] in
  let '(w, h') := alloc_json weather h in
  (m, w, h').

Definition example_weather_ref (interval : Z) : val :=
  snd (fst (example_call_store (example_weather interval))).
Definition example_weather_store (interval : Z) : heap :=
  snd (example_call_store (example_weather interval)).

(** [j[k1][k2]...] *)
Definition jpath (j : json) (ks : list string) : res json :=
  fold_left (fun r k => rbind r (fun x => jget x k)) ks (Ok j).

(** The JSON form of a placeholder schema. *)
Definition placeholder_json (token : string) : json :=
  JDict [("type", JStr "string");
         ("pattern", JStr ("^" ++ token ++ "$"));
         ("default", JStr token)].

(** The schema the generator is given for a model held as JSON. *)
Definition prepared_schema (model : json) : res json :=
  let '(m, h) := alloc_json model [] in
  fst (('(schema, _) <- prepare_schema m ;; snapshot schema)%py h).

(** [example_model] once its schema is prepared: the working schema, its
    [configParameters], the store. *)
Definition example_prepared_store : heap :=
  snd (prepare_schema example_model_ref example_store).
Definition example_schema_ref : val :=
  match fst (prepare_schema example_model_ref example_store) with
  | Ok (schema, _) => schema
  | Raise _ => VNone
  end.
Definition example_cfg_ref : val :=
  match fst (prepare_schema example_model_ref example_store) with
  | Ok (_, cfg) => cfg
  | Raise _ => VNone
  end.

(** A call with every argument given: the store holding the model, the
    caller's parameters, the weather data and the two field-observation
    documents, and the five arguments in order. *)
Definition example_parameters : json := JDict [("timeZone", JStr "Europe/Paris")].

Definition example_args_store : list val * heap :=
  let '(m, h) := alloc_json example_model [] in
  let '(p, h) := alloc_json example_parameters h in
  let '(w, h) := alloc_json (example_weather 3600) h in
  let '(fo, h) := alloc_json (JList []) h in
  let '(foq, h) := alloc_json (JList []) h in
  ([m; p; w; fo; foq], h).

Definition example_arg (i : nat) : val := nth i (fst example_args_store) VNone.

(** ** More example data *)

(** Keyword arguments that override every default of the observation
    builder. *)
Definition example_overrides : kwargs :=
  [("interval", JInt 600);
   ("parameters", JList [JInt 1002; JStr "RR"]);
   ("timeStart", JStr "yesterday");
   ("timeEnd", JStr "2020-06-12T00:00:00+03:00");
   ("weatherStationId", JStr "101004")].

(** A forecast source that takes no time window and lists no common
    parameter. *)
Definition example_plain_location_source : json :=
  JDict [("id", JStr "fi.fmi.forecast.location");
         ("access_type", JStr "location");
         ("temporal", JDict [("intervals", JList [JInt 3600])]);
         ("parameters", JDict [("common", JList [])])].

(** A source that lists no interval. *)
Definition example_no_interval_source : json :=
  JDict [("id", JStr "com.example");
         ("access_type", JStr "location");
         ("temporal", JDict [("intervals", JList [])]);
         ("parameters", JDict [("common", JList [JInt 1002])])].

(** What the builders return for [example_station_source_full] with no
    keyword argument, and for [example_location_source] with a latitude,
    in [utc_env]. *)
Definition example_station_params : list (string * json) :=
  [("interval", JInt 3600); ("parameters", JStr "TM");
   ("timeStart", JStr "2020-01-02T00:00:00+00:00");
   ("timeEnd", JStr "2020-01-03T00:00:00+00:00");
   ("weatherStationId", JInt 101004); ("ignoreErrors", JBool true)].

Definition example_forecast_params : list (string * json) :=
  [("latitude", JInt 60); ("longitude", JFloat 14.3711);
   ("altitude", JInt 0); ("interval", JInt 3600);
   ("parameters", JStr "1002,3002");
   ("timeStart", JStr "2024-05-17T10:30:00+00:00");
   ("timeEnd", JStr "2024-05-18T10:30:00+00:00")].

(** A platform that answers every request with [response]. *)
Definition answer_with (response : json) (r : request) : res json := Ok response.

Definition quoted (s : string) : string :=
  String dquote (s ++ String dquote EmptyString).

(** A GeoJSON text and a [json.loads] that knows it and the empty object. *)
Definition example_geojson_text : string :=
  "{" ++ quoted "type" ++ ": " ++ quoted "FeatureCollection" ++ ", "
  ++ quoted "features" ++ ": []}".

Definition example_json_loads (s : string) : res json :=
  if String.eqb s example_geojson_text
  then Ok (JDict [("type", JStr "FeatureCollection"); ("features", JList [])])
  else if String.eqb s "{}" then Ok (JDict [])
  else Raise (ValueError "Expecting value: line 1 column 1 (char 0)").

(** A [json.dumps] for values without floats and strings without anything
    to escape. *)
Fixpoint example_json_dumps (j : json) : string :=
  match j with
  | JNull => "null"
  | JBool true => "true"
  | JBool false => "false"
  | JInt z => string_of_Z z
  | JFloat _ => "NaN"
  | JStr s => quoted s
  | JList xs => "[" ++ String.concat ", " (map example_json_dumps xs) ++ "]"
  | JDict kvs =>
      "{" ++ String.concat ", "
               (map (fun kv => quoted (fst kv) ++ ": " ++ example_json_dumps (snd kv)) kvs)
      ++ "}"
  end.

(** Three sources as the platform lists them: a forecast source with no
    GeoJSON, a station network with a GeoJSON text, and a network that asks
    for credentials and has no [geoJSON] entry. *)
Definition example_met_source : json :=
  JDict [("id", JStr "no.met.locationforecast");
         ("endpoint", JStr "{WEATHER_API_URL}/rest/weatheradapter/yr/");
         ("access_type", JStr "location");
         ("authentication_type", JStr "NONE");
         ("spatial", JDict [("countries", JList [JStr "NOR"]); ("geoJSON", JNull)])].

Definition example_fmi_source : json :=
  JDict [("id", JStr "fi.fmi.observation.station");
         ("endpoint", JStr "{WEATHER_API_URL}/rest/weatheradapter/fmi/");
         ("access_type", JStr "stations");
         ("authentication_type", JStr "NONE");
         ("spatial", JDict [("countries", JList [JStr "FIN"]);
                            ("geoJSON", JStr example_geojson_text)])].

Definition example_metos_source : json :=
  JDict [("id", JStr "net.ipmdecisions.metos");
         ("endpoint", JStr "{WEATHER_API_URL}/rest/weatheradapter/metos/");
         ("access_type", JStr "stations");
         ("authentication_type", JStr "CREDENTIALS");
         ("spatial", JDict [("countries", JList [])])].

(** [example_fmi_source] once its GeoJSON text is parsed. *)
Definition example_fmi_source_parsed : json :=
  JDict [("id", JStr "fi.fmi.observation.station");
         ("endpoint", JStr "{WEATHER_API_URL}/rest/weatheradapter/fmi/");
         ("access_type", JStr "stations");
         ("authentication_type", JStr "NONE");
         ("spatial",
          JDict [("countries", JList [JStr "FIN"]);
                 ("geoJSON", JDict [("type", JStr "FeatureCollection");
                                    ("features", JList [])])])].

Definition example_sources_response : json :=
  JList [example_met_source; example_fmi_source; example_metos_source].

(** A response that lists one id twice, and one with a source that has no
    [spatial] entry. *)
Definition example_met_source_again : json :=
  JDict [("id", JStr "no.met.locationforecast");
         ("endpoint", JStr "{WEATHER_API_URL}/rest/weatheradapter/yr/v2/");
         ("access_type", JStr "location");
         ("authentication_type", JStr "NONE");
         ("spatial", JDict [])].

Definition example_repeating_response : json :=
  JList [example_met_source; example_met_source_again; example_metos_source].

Definition example_broken_response : json :=
  JList [example_met_source; JDict [("id", JStr "com.example")]; example_fmi_source].

(** A model as the platform sends it: the input schema is a text. *)
Definition example_model_response : json :=
  JDict [("id", JStr "no.nibio.vips.model.EXAMPLE");
         ("execution",
          JDict [("endpoint", JStr "https://example.org/models/EXAMPLE/run");
                 ("input_schema", JStr "{}")]);
         ("input", JDict [("weather_parameters", JNull)])].

(** A caller's parameters for a weather-adapter call, alone in a store. *)
Definition example_adapter_params : json :=
  JDict [("weatherStationId", JInt 732); ("interval", JInt 3600)].

Definition example_adapter_store : heap := snd (alloc_json example_adapter_params []).
Definition example_adapter_ref : val := fst (alloc_json example_adapter_params []).

Definition example_credentials : json :=
  JDict [("userName", JStr "someone"); ("password", JStr "secret")].

(** [example_model] with another [input] entry. *)
Definition example_model_with_input (input : json) : json :=
  match example_model with
  | JDict d => JDict (dict_set "input" input d)
  | j => j
  end.

(** A model whose schema has no [configParameters] property. *)
Definition example_bare_model : json :=
  JDict [("id", JStr "no.nibio.vips.model.BARE");
         ("execution",
          JDict [("endpoint", JStr "https://example.org/models/BARE/run");
                 ("input_schema",
                  JDict [("type", JStr "object");
                         ("properties",
                          JDict [("weatherData",
                                  JDict [("$ref",
                                          JStr "https://example.org/schema/weatherdata")])])])]);
         ("input", JDict [("weather_parameters", JNull)])].

(** A generator that returns the empty document. *)
Definition empty_fake (_ : json) : res json := Ok (JDict []).

(** A model in a store of its own. *)
Definition store_of (model : json) : heap := snd (alloc_json model []).
Definition ref_of (model : json) : val := fst (alloc_json model []).

(** A call with parameters the generated document has no key for. *)
Definition example_extra_parameters : json :=
  JDict [("timeZone", JStr "Europe/Paris"); ("startDate", JStr "2020-03-01")].

Definition example_extra_args_store : list val * heap :=
  let '(m, h) := alloc_json example_model [] in
  let '(p, h) := alloc_json example_extra_parameters h in
  let '(w, h) := alloc_json (example_weather 3600) h in
  let '(fo, h) := alloc_json (JList []) h in
  let '(foq, h) := alloc_json (JList []) h in
  ([m; p; w; fo; foq], h).

Definition example_extra_arg (i : nat) : val := nth i (fst example_extra_args_store) VNone.

(** A document a caller has composed, in a store with [example_model]. *)
Definition example_given_store : val * val * heap :=
  let '(m, h) := alloc_json example_model [] in
  let '(g, h) := alloc_json (JDict [("configParameters",
                                     JDict [("timeZone", JStr "Europe/Oslo")])]) h in
  (m, g, h).

Definition example_given_model : val := fst (fst example_given_store).
Definition example_given_input : val := snd (fst example_given_store).
Definition example_given_heap : heap := snd example_given_store.

(** The headers the client asks for, and a platform that answers a request
    with what it was asked. *)
Definition example_headers (content : string) : json :=
  JDict [("Accept", JStr ("application/" ++ content))].

Definition echo_request (r : request) : res json :=
  Ok (JDict [("url", req_url r);
             ("params", match req_params r with Some p => p | None => JNull end);
             ("data", match req_data r with Some p => p | None => JNull end)]).

Definition example_base_url : string := "https://ipmdecisions.nibio.no".

(** A generator that adds a property of its own to [configParameters]. *)
Definition surprising_fake (_ : json) : res json :=
  Ok (JDict [("configParameters",
              JDict [("season", JStr "spring"); ("timeZone", JStr "Europe/Oslo")])]).

(** ** Keyword arguments *)

Lemma assoc_rest_kwargs (named : list string) (kw : kwargs) (k : string) :
  existsb (String.eqb k) named = false ->
  assoc k (rest_kwargs named kw) = assoc k kw.
Proof.
  intros Hk. unfold rest_kwargs.
  induction kw as [| [k' v] kw IH]; simpl; [reflexivity |].
  destruct (String.eqb_spec k k') as [-> | Hne].
  - rewrite Hk. simpl. rewrite String.eqb_refl. reflexivity.
  - destruct (existsb (String.eqb k') named); simpl; [exact IH |].
    destruct (String.eqb_spec k k'); [contradiction | exact IH].
Qed.

Lemma kwarg_rest_kwargs (named : list string) (kw : kwargs) (k : string) (d : json) :
  existsb (String.eqb k) named = false ->
  kwarg (rest_kwargs named kw) k d = kwarg kw k d.
Proof.
  intros Hk. unfold kwarg. rewrite assoc_rest_kwargs by exact Hk. reflexivity.
Qed.

Lemma has_key_rest_kwargs (named : list string) (kw : kwargs) (k : string) :
  existsb (String.eqb k) named = false ->
  has_key k (rest_kwargs named kw) = has_key k kw.
Proof.
  intros Hk. unfold has_key. rewrite assoc_rest_kwargs by exact Hk. reflexivity.
Qed.

Lemma jeq_str_true (j : json) (s : string) : jeq_str j s = true -> j = JStr s.
Proof.
  destruct j; simpl; try discriminate.
  intros H. apply String.eqb_eq in H. now subst.
Qed.

(** ** The dispatch on the access type *)

(** C9: a descriptor whose [access_type] is the string ['stations'] goes to
    the observation builder, one whose [access_type] is ['location'] to the
    forecast builder, and for any other string the call raises a
    [ValueError] whose message ends with that string; no parameters are
    returned. *)
Theorem weatheradapter_params_dispatch
    (E : environ) (source : json) (kw : kwargs) (a : string) :
  jget source "access_type" = Ok (JStr a) ->
  weatheradapter_params E source kw =
    if String.eqb a "stations" then weatheradapter_observation_params E source kw
    else if String.eqb a "location" then weatheradapter_forecast_params E source kw
    else Raise (ValueError ("Unknown access type : " ++ a)).
Proof.
  intros H. unfold weatheradapter_params. rewrite H. simpl.
  destruct (String.eqb a "stations"); [reflexivity |].
  destruct (String.eqb a "location"); reflexivity.
Qed.

Lemma weatheradapter_params_dispatch_witness :
  jget (JDict [("access_type", JStr "bogus")]) "access_type" = Ok (JStr "bogus")
  /\ weatheradapter_params utc_env (JDict [("access_type", JStr "bogus")]) []
     = Raise (ValueError "Unknown access type : bogus").
Proof.
  split; [reflexivity |].
  exact (weatheradapter_params_dispatch utc_env
           (JDict [("access_type", JStr "bogus")]) [] "bogus" eq_refl).
Defined.

(** ** Local time where the offset changes *)

(** The day after the start of the records does not exist on Cairo's clocks
    at midnight: the reading is taken with the offset in force before the
    change, and the zone of the result is the one of that instant. *)
Example observation_window_where_clocks_go_forward :
  weatheradapter_params cairo_env (example_station_source_since "2024-04-25") [] =
    Ok [("interval", JInt 3600);
        ("parameters", JStr "TM");
        ("timeStart", JStr "2024-04-25T23:00:00+02:00");
        ("timeEnd", JStr "2024-04-27T00:00:00+03:00");
        ("weatherStationId", JInt 101004);
        ("ignoreErrors", JBool true)].
Proof. vm_compute. reflexivity. Qed.

Example forecast_window_where_clocks_go_forward :
  weatheradapter_params (paris_env (mkDatetime 2024 3 30 2 30 0 0 None false))
    example_location_source [] =
    Ok [("latitude", JFloat 67.2828);
        ("longitude", JFloat 14.3711);
        ("altitude", JInt 0);
        ("interval", JInt 3600);
        ("parameters", JStr "1002,3002");
        ("timeStart", JStr "2024-03-30T02:30:00+01:00");
        ("timeEnd", JStr "2024-03-31T01:30:00+01:00")].
Proof. vm_compute. reflexivity. Qed.

(** In the hour clocks show twice, [fold] tells which pass the clock is in;
    the reading a day later has none. *)
Example forecast_window_in_a_repeated_hour :
  (p <- weatheradapter_params (paris_env (mkDatetime 2024 10 27 2 30 0 0 None false))
          example_location_source [] ;;
   Ok (assoc "timeStart" p, assoc "timeEnd" p))%res
  = Ok (Some (JStr "2024-10-27T02:30:00+02:00"), Some (JStr "2024-10-28T02:30:00+01:00"))
  /\ (p <- weatheradapter_params (paris_env (mkDatetime 2024 10 27 2 30 0 0 None true))
            example_location_source [] ;;
      Ok (assoc "timeStart" p, assoc "timeEnd" p))%res
     = Ok (Some (JStr "2024-10-27T02:30:00+01:00"), Some (JStr "2024-10-28T02:30:00+01:00")).
Proof. split; vm_compute; reflexivity. Qed.

(** Two days from the end of the calendar the window has an end, but local
    clocks two hours east of UTC show a year no [datetime] holds. *)
Example observation_window_at_the_end_of_the_calendar :
  (d <- fromisoformat (JStr "9999-12-29T23:59:59.999999") ;;
   start <- add_days d 1 ;;
   end_ <- add_days start 1 ;;
   Ok (isoformat end_))%res = Ok "9999-12-31T23:59:59.999999"
  /\ weatheradapter_params eet_env
       (example_station_source_since "9999-12-29T23:59:59.999999") []
     = Raise (ValueError "year 10000 is out of range")
  /\ weatheradapter_params eet_env
       (example_station_source_since "9999-12-29T23:00:00-05:00") []
     = Raise OverflowError.
Proof. repeat split; vm_compute; reflexivity. Qed.

(** ** The observation builder *)

(** C10: with a [timeStart] that is not [None] and [timeEnd] left to its
    default, the observation builder never returns parameters, whatever the
    source; and once the interval and the parameter codes are resolved, what
    it raises is the unbound-local error on [start]. *)
Theorem observation_timeEnd_default_needs_start
    (E : environ) (source : json) (kw : kwargs) :
  is_none (kwarg kw "timeStart" JNull) = false ->
  is_none (kwarg kw "timeEnd" JNull) = true ->
  (forall params, weatheradapter_observation_params E source kw <> Ok params)
  /\ (is_ok (resolve_interval source (kwarg kw "interval" JNull)) = true ->
      is_ok (resolve_codes source (kwarg kw "parameters" JNull)) = true ->
      weatheradapter_observation_params E source kw = Raise (UnboundLocalError "start")).
Proof.
  intros Hs He.
  assert (Hw : observation_window E source (kwarg kw "timeStart" JNull)
                 (kwarg kw "timeEnd" JNull) = Raise (UnboundLocalError "start")).
  { unfold observation_window. rewrite Hs, He. reflexivity. }
  unfold weatheradapter_observation_params. rewrite Hw.
  split.
  - intros params.
    destruct (resolve_interval source (kwarg kw "interval" JNull)); simpl; [| discriminate].
    destruct (resolve_codes source (kwarg kw "parameters" JNull)); simpl; discriminate.
  - destruct (resolve_interval source (kwarg kw "interval" JNull)); simpl; [| discriminate].
    destruct (resolve_codes source (kwarg kw "parameters" JNull)); simpl; [| discriminate].
    reflexivity.
Qed.

Lemma observation_timeEnd_default_needs_start_witness :
  weatheradapter_observation_params eet_env example_station_source_full
    [("timeStart", JStr "2020-06-12T00:00:00+03:00")]
  = Raise (UnboundLocalError "start").
Proof.
  apply (observation_timeEnd_default_needs_start eet_env example_station_source_full
           [("timeStart", JStr "2020-06-12T00:00:00+03:00")]);
    reflexivity.
Defined.

(** The parameters an observation request ends with, once each part is
    resolved. *)
Lemma observation_params_resolved
    (E : environ) (source : json) (kw : kwargs)
    (iv : json) (codes : string) (ts te w sid : json) :
  resolve_interval source (kwarg kw "interval" JNull) = Ok iv ->
  resolve_codes source (kwarg kw "parameters" JNull) = Ok codes ->
  observation_window E source (kwarg kw "timeStart" JNull) (kwarg kw "timeEnd" JNull)
    = Ok (ts, te) ->
  (if is_none (kwarg kw "weatherStationId" JNull)
   then default_station_id source
   else Ok (kwarg kw "weatherStationId" JNull)) = Ok w ->
  jget source "id" = Ok sid ->
  weatheradapter_observation_params E source kw =
    Ok ([("interval", iv); ("parameters", JStr codes); ("timeStart", ts);
         ("timeEnd", te); ("weatherStationId", w)]
        ++ if jeq_str sid "fi.fmi.observation.station"
           then [("ignoreErrors", kwarg kw "ignoreErrors" (JBool true))]
           else [])%list.
Proof.
  intros Hi Hc Hw Hs Hid.
  unfold weatheradapter_observation_params.
  rewrite Hi, Hc, Hw. cbn [rbind]. rewrite Hs. cbn [rbind]. rewrite Hid. cbn [rbind].
  rewrite kwarg_rest_kwargs by reflexivity.
  destruct (jeq_str sid "fi.fmi.observation.station"); reflexivity.
Qed.

(** C8: with no [weatherStationId] given, and the interval, the codes and
    the time window resolved, the observation builder returns parameters
    whose [weatherStationId] is the fallback station of the source:
    18150029 for ['info.fruitweb'], 732 for ['net.ipmdecisions.metos'], and
    for any other source the integer read from the first feature of
    [spatial.geoJSON.features], from its own ['id'] when it has one and from
    its [properties.id] otherwise. The parameters hold [ignoreErrors]
    exactly for the source ['fi.fmi.observation.station'], where it is the
    option of that name if given and [True] if not. *)
Theorem observation_station_fallback
    (E : environ) (source : json) (kw : kwargs)
    (iv : json) (codes : string) (ts te sid : json) :
  resolve_interval source (kwarg kw "interval" JNull) = Ok iv ->
  resolve_codes source (kwarg kw "parameters" JNull) = Ok codes ->
  observation_window E source (kwarg kw "timeStart" JNull) (kwarg kw "timeEnd" JNull)
    = Ok (ts, te) ->
  is_none (kwarg kw "weatherStationId" JNull) = true ->
  jget source "id" = Ok sid ->
  (forall w, default_station_id source = Ok w ->
     exists params,
       weatheradapter_observation_params E source kw = Ok params
       /\ assoc "weatherStationId" params = Some w
       /\ assoc "ignoreErrors" params =
            if jeq_str sid "fi.fmi.observation.station"
            then Some (kwarg kw "ignoreErrors" (JBool true))
            else None)
  /\ (sid = JStr "info.fruitweb" ->
      default_station_id source = Ok (JInt 18150029))
  /\ (sid = JStr "net.ipmdecisions.metos" ->
      default_station_id source = Ok (JInt 732))
  /\ (forall sp g features f0,
        jeq_str sid "info.fruitweb" = false ->
        jeq_str sid "net.ipmdecisions.metos" = false ->
        jget source "spatial" = Ok sp ->
        jget sp "geoJSON" = Ok g ->
        jget g "features" = Ok features ->
        jfirst features = Ok f0 ->
        (forall i n, jhas "id" f0 = Ok true ->
           jget f0 "id" = Ok i -> py_int i = Ok n ->
           default_station_id source = Ok (JInt n))
        /\ (forall pr i n, jhas "id" f0 = Ok false ->
              jget f0 "properties" = Ok pr -> jget pr "id" = Ok i -> py_int i = Ok n ->
              default_station_id source = Ok (JInt n))).
Proof.
  intros Hi Hc Hw Hn Hid.
  split; [| split; [| split]].
  - intros w Hd.
    rewrite (observation_params_resolved E source kw iv codes ts te w sid Hi Hc Hw)
      by (try rewrite Hn; assumption).
    eexists. split; [reflexivity |].
    destruct (jeq_str sid "fi.fmi.observation.station"); split; reflexivity.
  - intros ->. unfold default_station_id. rewrite Hid. reflexivity.
  - intros ->. unfold default_station_id. rewrite Hid. reflexivity.
  - intros sp g features f0 H1 H2 Hsp Hg Hf H0.
    split.
    + intros i n Ht Hi' Hn'. unfold default_station_id.
      rewrite Hid. cbn [rbind]. rewrite H1, H2, Hsp. cbn [rbind].
      rewrite Hg. cbn [rbind]. rewrite Hf. cbn [rbind]. rewrite H0. cbn [rbind].
      rewrite Ht. cbn [rbind]. rewrite Hi'. cbn [rbind]. rewrite Hn'. reflexivity.
    + intros pr i n Ht Hp Hi' Hn'. unfold default_station_id.
      rewrite Hid. cbn [rbind]. rewrite H1, H2, Hsp. cbn [rbind].
      rewrite Hg. cbn [rbind]. rewrite Hf. cbn [rbind]. rewrite H0. cbn [rbind].
      rewrite Ht. cbn [rbind]. rewrite Hp. cbn [rbind]. rewrite Hi'. cbn [rbind].
      rewrite Hn'. reflexivity.
Qed.

Lemma observation_station_fallback_witness :
  exists params,
    weatheradapter_observation_params utc_env example_station_source_full [] = Ok params
    /\ assoc "weatherStationId" params = Some (JInt 101004)
    /\ assoc "ignoreErrors" params = Some (JBool true).
Proof.
  refine (proj1 (observation_station_fallback utc_env example_station_source_full []
                   (JInt 3600) "TM"
                   (JStr "2020-01-02T00:00:00+00:00") (JStr "2020-01-03T00:00:00+00:00")
                   (JStr "fi.fmi.observation.station")
                   eq_refl eq_refl eq_refl eq_refl eq_refl)
                (JInt 101004) eq_refl).
Defined.

(** C1, as the code has it: for a stations-type descriptor whose
    [temporal.intervals] starts with [iv], whose [parameters.common] is a
    list of codes, whose [temporal.historic.start] parses as the date [d]
    with two more days inside the calendar, both of which [astimezone]
    converts to local time without raising, and which has an [id] and a
    fallback station [w], resolving with no overrides returns [interval =
    iv], [parameters] the codes joined by commas, [timeStart] the local-time
    ISO form of [d] plus one day, [timeEnd] that of [d] plus two days, and
    [weatherStationId = w] (and [ignoreErrors = True] for the one source that
    takes it). *)
Theorem observation_defaults
    (E : environ) (source temporal : json) (iv : json) (rest : list json)
    (pars : json) (common : list json) (codes : list string)
    (historic hs : json) (d start end_ a_start a_end : datetime) (sid w : json) :
  jget source "access_type" = Ok (JStr "stations") ->
  jget source "temporal" = Ok temporal ->
  jget temporal "intervals" = Ok (JList (iv :: rest)) ->
  jget source "parameters" = Ok pars ->
  jget pars "common" = Ok (JList common) ->
  mapM py_str common = Ok codes ->
  jget temporal "historic" = Ok historic ->
  jget historic "start" = Ok hs ->
  fromisoformat hs = Ok d ->
  add_days d 1 = Ok start ->
  astimezone E start = Ok a_start ->
  add_days start 1 = Ok end_ ->
  astimezone E end_ = Ok a_end ->
  jget source "id" = Ok sid ->
  default_station_id source = Ok w ->
  weatheradapter_params E source [] =
    Ok ([("interval", iv);
         ("parameters", JStr (String.concat "," codes));
         ("timeStart", JStr (isoformat a_start));
         ("timeEnd", JStr (isoformat a_end));
         ("weatherStationId", w)]
        ++ if jeq_str sid "fi.fmi.observation.station"
           then [("ignoreErrors", JBool true)] else [])%list.
Proof.
  intros Hat Ht Hiv Hp Hc Hcodes Hh Hs Hd Hst Has Hen Hae Hid Hw.
  unfold weatheradapter_params. rewrite Hat. cbn [rbind jeq_str String.eqb Ascii.eqb Bool.eqb].
  apply (observation_params_resolved E source [] iv (String.concat "," codes)
           (JStr (isoformat a_start)) (JStr (isoformat a_end)) w sid).
  - unfold resolve_interval. cbn [kwarg assoc is_none]. rewrite Ht. cbn [rbind].
    rewrite Hiv. reflexivity.
  - unfold resolve_codes, join_codes. cbn [kwarg assoc is_none]. rewrite Hp. cbn [rbind].
    rewrite Hc. cbn [rbind py_iter]. rewrite Hcodes. reflexivity.
  - unfold observation_window. cbn [kwarg assoc is_none]. rewrite Ht. cbn [rbind].
    rewrite Hh. cbn [rbind]. rewrite Hs. cbn [rbind]. rewrite Hd. cbn [rbind].
    rewrite Hst. cbn [rbind]. rewrite Has. cbn [rbind local_var]. rewrite Hen. cbn [rbind].
    rewrite Hae. reflexivity.
  - exact Hw.
  - exact Hid.
Qed.

Lemma observation_defaults_witness :
  weatheradapter_params eet_env example_station_source_full [] =
    Ok [("interval", JInt 3600);
        ("parameters", JStr "TM");
        ("timeStart", JStr "2020-01-02T02:00:00+02:00");
        ("timeEnd", JStr "2020-01-03T02:00:00+02:00");
        ("weatherStationId", JInt 101004);
        ("ignoreErrors", JBool true)].
Proof.
  eapply eq_trans.
  - eapply (observation_defaults eet_env example_station_source_full);
      solve [vm_compute; reflexivity].
  - vm_compute. reflexivity.
Defined.

(** The descriptor of the spec's own example meets every condition C1
    lists, and resolving it raises: it has no [id] to look a station up by. *)
Lemma observation_defaults_counterexample :
  jget example_station_source "access_type" = Ok (JStr "stations")
  /\ (t <- jget example_station_source "temporal" ;; jget t "intervals")%res
     = Ok (JList [JInt 3600])
  /\ (p <- jget example_station_source "parameters" ;; jget p "common")%res
     = Ok (JList [JStr "TM"])
  /\ (t <- jget example_station_source "temporal" ;;
      h <- jget t "historic" ;;
      s <- jget h "start" ;;
      fromisoformat s)%res
     = Ok (mkDatetime 2020 1 1 0 0 0 0 (Some 0) false)
  /\ weatheradapter_params utc_env example_station_source []
     = Raise (KeyError (JStr "id")).
Proof.
  repeat split; solve [vm_compute; reflexivity].
Qed.

(** ** The forecast builder *)

(** C7, where the code departs from it: for the two sources that take a
    time window, a call that passes a [timeStart] option raises
    [ValueError], whatever the timestamp is: what is parsed is the literal
    ['timeStart'], not the option's value. *)
Theorem forecast_timeStart_option_raises
    (E : environ) (source : json) (kw : kwargs) (iv : json) (codes : string) (sid : json) :
  resolve_interval source (kwarg kw "interval" JNull) = Ok iv ->
  resolve_codes source (kwarg kw "parameters" JNull) = Ok codes ->
  jget source "id" = Ok sid ->
  jeq_str sid "dk.dmi.pointweather" || jeq_str sid "se.slu.lantmet" = true ->
  has_key "timeStart" kw = true ->
  weatheradapter_forecast_params E source kw
  = Raise (ValueError "Invalid isoformat string: 'timeStart'").
Proof.
  intros Hi Hc Hid Hs Hk.
  assert (Hf : jeq_str sid "fi.fmi.forecast.location" = false).
  { apply orb_true_iff in Hs. destruct Hs as [Hs | Hs];
      apply jeq_str_true in Hs; subst sid; reflexivity. }
  unfold weatheradapter_forecast_params.
  rewrite Hi. cbn [rbind]. rewrite Hc. cbn [rbind]. rewrite Hid. cbn [rbind].
  rewrite Hf. cbn [rbind]. rewrite Hs.
  rewrite has_key_rest_kwargs by reflexivity. rewrite Hk.
  reflexivity.
Qed.

Lemma forecast_timeStart_option_raises_witness :
  weatheradapter_forecast_params utc_env example_location_source
    [("timeStart", JStr "2020-06-12T00:00:00+03:00")]
  = Raise (ValueError "Invalid isoformat string: 'timeStart'").
Proof.
  eapply (forecast_timeStart_option_raises utc_env example_location_source);
    solve [vm_compute; reflexivity].
Defined.

(** What the rest of C7 says holds: the parameters of a forecast request
    with no [timeStart] and no [timeEnd] option. *)
Lemma forecast_params_resolved
    (E : environ) (source : json) (kw : kwargs) (iv : json) (codes : string) (sid : json)
    (a_start a_end : datetime) (end_ : datetime) :
  resolve_interval source (kwarg kw "interval" JNull) = Ok iv ->
  resolve_codes source (kwarg kw "parameters" JNull) = Ok codes ->
  jget source "id" = Ok sid ->
  has_key "timeStart" kw = false ->
  has_key "timeEnd" kw = false ->
  astimezone E (today E) = Ok a_start ->
  add_days (today E) 1 = Ok end_ ->
  astimezone E end_ = Ok a_end ->
  weatheradapter_forecast_params E source kw =
    Ok ([("latitude", kwarg kw "latitude" (JFloat 67.2828));
         ("longitude", kwarg kw "longitude" (JFloat 14.3711))]
        ++ (if jeq_str sid "fi.fmi.forecast.location" then []
            else [("altitude", kwarg kw "altitude" (JInt 0))])
        ++ [("interval", iv); ("parameters", JStr codes)]
        ++ (if jeq_str sid "dk.dmi.pointweather" || jeq_str sid "se.slu.lantmet"
            then [("timeStart", JStr (isoformat a_start));
                  ("timeEnd", JStr (isoformat a_end))]
            else []))%list.
Proof.
  intros Hi Hc Hid Hs He Ha Hd Hae.
  unfold weatheradapter_forecast_params.
  rewrite Hi. cbn [rbind]. rewrite Hc. cbn [rbind]. rewrite Hid. cbn [rbind].
  rewrite !has_key_rest_kwargs by reflexivity. rewrite Hs, He.
  destruct (jeq_str sid "fi.fmi.forecast.location") eqn:Hf.
  - apply jeq_str_true in Hf. subst sid. reflexivity.
  - cbn [rbind].
    destruct (jeq_str sid "dk.dmi.pointweather" || jeq_str sid "se.slu.lantmet").
    + rewrite Ha. cbn [rbind]. rewrite Hd. cbn [rbind]. rewrite Hae. reflexivity.
    + reflexivity.
Qed.

(** ** The store *)

Lemma nth_error_replace_nth_eq {A : Type} (l : nat) (a : A) (xs : list A) :
  (l < List.length xs)%nat -> nth_error (replace_nth l a xs) l = Some a.
Proof.
  revert l. induction xs as [| x xs IH]; intros [| l] Hl; simpl in *; try lia.
  - reflexivity.
  - apply IH. lia.
Qed.

Lemma nth_error_replace_nth_neq {A : Type} (l l' : nat) (a : A) (xs : list A) :
  l <> l' -> nth_error (replace_nth l a xs) l' = nth_error xs l'.
Proof.
  revert l l'. induction xs as [| x xs IH]; intros [| l] [| l'] Hne; simpl;
    try reflexivity; try congruence.
  apply IH. congruence.
Qed.

Lemma length_replace_nth {A : Type} (l : nat) (a : A) (xs : list A) :
  List.length (replace_nth l a xs) = List.length xs.
Proof.
  revert l. induction xs as [| x xs IH]; intros [| l]; simpl; try reflexivity.
  now rewrite IH.
Qed.

Lemma assoc_dict_set_eq {A : Type} (k : string) (v : A) (d : list (string * A)) :
  assoc k (dict_set k v d) = Some v.
Proof.
  induction d as [| [k' v'] d IH]; simpl.
  - now rewrite String.eqb_refl.
  - destruct (String.eqb k k') eqn:E; simpl; rewrite E; [reflexivity | exact IH].
Qed.

Lemma assoc_dict_set_neq {A : Type} (k k' : string) (v : A) (d : list (string * A)) :
  k <> k' -> assoc k (dict_set k' v d) = assoc k d.
Proof.
  intros Hne. induction d as [| [k2 v2] d IH]; simpl.
  - destruct (String.eqb_spec k k'); [contradiction | reflexivity].
  - destruct (String.eqb_spec k' k2) as [-> | Hne2]; simpl.
    + destruct (String.eqb_spec k k2); [contradiction | reflexivity].
    + destruct (String.eqb k k2); [reflexivity | exact IH].
Qed.

(** Running a sequence once its first step is known. *)
Lemma run_bind {A B : Type} (c : M A) (k : A -> M B) (h h' : heap) (a : A) :
  c h = (Ok a, h') -> bind c k h = k a h'.
Proof. intros H. unfold bind. now rewrite H. Qed.

Lemma run_bind_raise {A B : Type} (c : M A) (k : A -> M B) (h h' : heap) (e : exn) :
  c h = (Raise e, h') -> bind c k h = (Raise e, h').
Proof. intros H. unfold bind. now rewrite H. Qed.

Lemma bind_ok {A B : Type} (c : M A) (k : A -> M B) (h h' : heap) (b : B) :
  bind c k h = (Ok b, h') ->
  exists a h1, c h = (Ok a, h1) /\ k a h1 = (Ok b, h').
Proof.
  unfold bind. destruct (c h) as [[a | e] h1]; intros H; [| discriminate].
  now exists a, h1.
Qed.

(** What the primitives do on a dict. *)
Lemma getitem_field (h : heap) (v : val) (k : string) (x : val) :
  field h v k = Some x -> getitem v k h = (Ok x, h).
Proof.
  unfold field, lookup, getitem, bind, deref.
  destruct v; try discriminate.
  destruct (nth_error h l) as [[d | xs] |]; try discriminate.
  intros ->. reflexivity.
Qed.

Lemma contains_key (h : heap) (v : val) (k : string) (d : list (string * val)) :
  lookup h v = Some (ODict d) -> contains (VStr k) v h = (Ok (has_key k d), h).
Proof.
  unfold lookup, contains, bind, deref.
  destruct v; try discriminate. intros ->. reflexivity.
Qed.

Lemma setitem_dict (h : heap) (v : val) (l : loc) (k : string) (x : val)
    (d : list (string * val)) :
  v = VRef l -> nth_error h l = Some (ODict d) ->
  setitem v k x h = (Ok tt, replace_nth l (ODict (dict_set k x d)) h).
Proof.
  intros -> H. unfold setitem, bind, deref, store. rewrite H. reflexivity.
Qed.

Lemma field_lookup (h : heap) (v : val) (k : string) (x : val) :
  field h v k = Some x -> exists d, lookup h v = Some (ODict d) /\ assoc k d = Some x.
Proof.
  unfold field. destruct (lookup h v) as [[d | xs] |]; try discriminate.
  intros H. now exists d.
Qed.

(** ** Inputs the schema asks for and the caller leaves out *)

(** [model_input] from the point where the generated document is filled
    in and the model's weather requirements are read. *)
Lemma model_input_after_skeleton
    (jsf : json -> res json) (h0 h1 h2 h3 h4 : heap)
    (model parameters weather_data fo foq schema cfg input : val)
    (required : list val) (interval : val) :
  prepare_schema model h0 = (Ok (schema, cfg), h1) ->
  generate jsf schema h1 = (Ok input, h2) ->
  fill_config input cfg parameters h2 = (Ok tt, h3) ->
  weather_requirements model h3 = (Ok (required, interval), h4) ->
  model_input jsf model parameters weather_data fo foq h0 =
    (add_weather model schema input weather_data required interval ;;
     add_fieldob model input cfg "fieldObservations" fo ;;
     add_fieldob model input cfg "fieldObservationQuantifications" foq ;;
     ret input)%py h4.
Proof.
  intros H1 H2 H3 H4. unfold model_input.
  rewrite (run_bind _ _ _ _ _ H1). cbv beta iota.
  rewrite (run_bind _ _ _ _ _ H2).
  rewrite (run_bind _ _ _ _ _ H3).
  rewrite (run_bind _ _ _ _ _ H4). cbv beta iota.
  unfold add_fieldobs, fieldobs. cbn [combine for_each].
  unfold bind.
  destruct (add_weather model schema input weather_data required interval h4)
    as [[[] | e] h5]; [| reflexivity].
  destruct (add_fieldob model input cfg "fieldObservations" fo h5)
    as [[[] | e] h6]; [| reflexivity].
  destruct (add_fieldob model input cfg "fieldObservationQuantifications" foq h6)
    as [[[] | e] h7]; reflexivity.
Qed.

Lemma add_fieldob_missing (h : heap) (model input cfg cp : val) (p : string)
    (dcp : list (string * val)) (mid : string) :
  field h input "configParameters" = Some cp ->
  lookup h cp = Some (ODict dcp) ->
  has_key p dcp = true ->
  field h model "id" = Some (VStr mid) ->
  add_fieldob model input cfg p VNone h =
    (Raise (ValueError (mid ++ " requires " ++ p ++ " as input")), h).
Proof.
  intros Hcp Hd Hk Hid. unfold add_fieldob.
  rewrite (run_bind _ _ _ _ _ (getitem_field _ _ _ _ Hcp)).
  rewrite (run_bind _ _ _ _ _ (contains_key _ _ p _ Hd)). rewrite Hk.
  rewrite (run_bind_raise _ _ h h (ValueError (mid ++ " requires " ++ p ++ " as input")));
    [reflexivity |].
  rewrite (run_bind _ _ _ _ _ (getitem_field _ _ _ _ Hid)).
  reflexivity.
Qed.

Lemma add_fieldob_unreferenced (h : heap) (model input cfg cp cprops pvalue : val)
    (p : string) (dcp dprops : list (string * val)) :
  field h input "configParameters" = Some cp ->
  lookup h cp = Some (ODict dcp) ->
  has_key p dcp = false ->
  field h cfg "properties" = Some cprops ->
  lookup h cprops = Some (ODict dprops) ->
  has_key p dprops = false ->
  add_fieldob model input cfg p pvalue h = (Ok tt, h).
Proof.
  intros Hcp Hd Hk Hpr Hdp Hkp. unfold add_fieldob.
  rewrite (run_bind _ _ _ _ _ (getitem_field _ _ _ _ Hcp)).
  rewrite (run_bind _ _ _ _ _ (contains_key _ _ p _ Hd)). rewrite Hk.
  destruct pvalue; try reflexivity;
    rewrite (run_bind _ _ _ _ _ (getitem_field _ _ _ _ Hpr));
    rewrite (run_bind _ _ _ _ _ (contains_key _ _ p _ Hdp)); rewrite Hkp;
    reflexivity.
Qed.

(** C3, as the code has it: once the schema is prepared, the document
    generated and filled in, and the weather requirements read,
    - if the generated document holds [weatherData] and no weather data is
      given, the call raises [ValueError] with the model's id followed by
      [' requires WeatherData as input'];
    - if neither the generated document nor the schema's properties hold
      [weatherData], weather data that is given is left aside and the
      store stays as it is;
    - for each of the two field-observation properties, in their order: if
      the generated [configParameters] hold the property and its argument is
      [None], the call raises [ValueError] with the model's id followed by
      [' requires '], the property name and [' as input']; if neither the
      generated [configParameters] nor the declared ones hold it, a value
      given for it is left aside. *)
Theorem missing_required_input
    (jsf : json -> res json) (h0 h1 h2 h3 h4 : heap)
    (model parameters weather_data fo foq schema cfg input : val)
    (required : list val) (interval : val) :
  prepare_schema model h0 = (Ok (schema, cfg), h1) ->
  generate jsf schema h1 = (Ok input, h2) ->
  fill_config input cfg parameters h2 = (Ok tt, h3) ->
  weather_requirements model h3 = (Ok (required, interval), h4) ->
  (forall di mid,
      lookup h4 input = Some (ODict di) ->
      has_key "weatherData" di = true ->
      weather_data = VNone ->
      field h4 model "id" = Some (VStr mid) ->
      model_input jsf model parameters weather_data fo foq h0 =
        (Raise (ValueError (mid ++ " requires WeatherData as input")), h4))
  /\ (forall di props dp,
        lookup h4 input = Some (ODict di) ->
        has_key "weatherData" di = false ->
        field h4 schema "properties" = Some props ->
        lookup h4 props = Some (ODict dp) ->
        has_key "weatherData" dp = false ->
        add_weather model schema input weather_data required interval h4 = (Ok tt, h4))
  /\ (forall h5 cp dcp mid,
        add_weather model schema input weather_data required interval h4 = (Ok tt, h5) ->
        field h5 input "configParameters" = Some cp ->
        lookup h5 cp = Some (ODict dcp) ->
        has_key "fieldObservations" dcp = true ->
        fo = VNone ->
        field h5 model "id" = Some (VStr mid) ->
        model_input jsf model parameters weather_data fo foq h0 =
          (Raise (ValueError (mid ++ " requires fieldObservations as input")), h5))
  /\ (forall h5 h6 cp dcp mid,
        add_weather model schema input weather_data required interval h4 = (Ok tt, h5) ->
        add_fieldob model input cfg "fieldObservations" fo h5 = (Ok tt, h6) ->
        field h6 input "configParameters" = Some cp ->
        lookup h6 cp = Some (ODict dcp) ->
        has_key "fieldObservationQuantifications" dcp = true ->
        foq = VNone ->
        field h6 model "id" = Some (VStr mid) ->
        model_input jsf model parameters weather_data fo foq h0 =
          (Raise (ValueError (mid ++ " requires fieldObservationQuantifications as input")),
           h6))
  /\ (forall h p pvalue cp dcp cprops dprops,
        In p fieldobs ->
        field h input "configParameters" = Some cp ->
        lookup h cp = Some (ODict dcp) ->
        has_key p dcp = false ->
        field h cfg "properties" = Some cprops ->
        lookup h cprops = Some (ODict dprops) ->
        has_key p dprops = false ->
        add_fieldob model input cfg p pvalue h = (Ok tt, h)).
Proof.
  intros H1 H2 H3 H4.
  pose proof (model_input_after_skeleton jsf h0 h1 h2 h3 h4 model parameters
                weather_data fo foq schema cfg input required interval H1 H2 H3 H4) as Hrun.
  split; [| split; [| split; [| split]]].
  - intros di mid Hin Hk -> Hid. rewrite Hrun.
    apply run_bind_raise. unfold add_weather.
    rewrite (run_bind _ _ _ _ _ (contains_key _ _ "weatherData" _ Hin)). rewrite Hk.
    rewrite (run_bind _ _ _ _ _ (getitem_field _ _ _ _ Hid)).
    reflexivity.
  - intros di props dp Hin Hk Hp Hdp Hkp. unfold add_weather.
    rewrite (run_bind _ _ _ _ _ (contains_key _ _ "weatherData" _ Hin)). rewrite Hk.
    destruct weather_data; try reflexivity;
      rewrite (run_bind _ _ _ _ _ (getitem_field _ _ _ _ Hp));
      rewrite (run_bind _ _ _ _ _ (contains_key _ _ "weatherData" _ Hdp)); rewrite Hkp;
      reflexivity.
  - intros h5 cp dcp mid Hw Hcp Hd Hk -> Hid. rewrite Hrun.
    rewrite (run_bind _ _ _ _ _ Hw).
    apply run_bind_raise.
    apply (add_fieldob_missing h5 model input cfg cp "fieldObservations" dcp mid);
      assumption.
  - intros h5 h6 cp dcp mid Hw Hf Hcp Hd Hk -> Hid. rewrite Hrun.
    rewrite (run_bind _ _ _ _ _ Hw).
    rewrite (run_bind _ _ _ _ _ Hf).
    apply run_bind_raise.
    apply (add_fieldob_missing h6 model input cfg cp
             "fieldObservationQuantifications" dcp mid); assumption.
  - intros h p pvalue cp dcp cprops dprops _ Hcp Hd Hk Hpr Hdp Hkp.
    apply (add_fieldob_unreferenced h model input cfg cp cprops pvalue p dcp dprops);
      assumption.
Qed.

Lemma missing_required_input_witness :
  exists h,
    model_input full_fake example_model_ref VNone VNone VNone VNone example_store =
      (Raise (ValueError "no.nibio.vips.model.EXAMPLE requires WeatherData as input"), h).
Proof.
  eexists. eapply eq_trans.
  - unshelve eapply (proj1 (missing_required_input full_fake example_store _ _ _ _
                               example_model_ref VNone VNone VNone VNone _ _ _ _ _
                               _ _ _ _));
      try solve [vm_compute; reflexivity].
  - vm_compute. reflexivity.
Defined.

(** The schema of [example_model] declares [weatherData]; when the
    generator leaves the property out of its document, as it may with one
    that is not required, a call with no weather data returns. *)
Lemma missing_required_input_counterexample :
  (e <- jget example_model "execution" ;;
   s <- jget e "input_schema" ;;
   p <- jget s "properties" ;;
   jhas "weatherData" p)%res = Ok true
  /\ fst (call_model_input required_only_fake example_model None None None None) =
       Ok (JDict [("configParameters",
                   JDict [("timeZone", JStr "Europe/Oslo"); ("threshold", JInt 17)])]).
Proof.
  split; vm_compute; reflexivity.
Qed.

(** ** Weather data against the model's requirements *)

Lemma getitem_inv (v : val) (k : string) (h h' : heap) (r : res val) :
  getitem v k h = (r, h') ->
  h' = h /\ forall x, r = Ok x -> field h v k = Some x.
Proof.
  unfold getitem, field, lookup, bind, deref, raise, ret.
  destruct v; try (intros [= <- <-]; split; [reflexivity | discriminate]).
  destruct (nth_error h l) as [[d | xs] |];
    try (intros [= <- <-]; split; [reflexivity | discriminate]).
  destruct (assoc k d); intros [= <- <-]; split; try reflexivity; try discriminate.
  now intros x [= ->].
Qed.

Lemma field_of_lookup (h : heap) (v : val) (k : string) (d : list (string * val)) (x : val) :
  lookup h v = Some (ODict d) -> assoc k d = Some x -> field h v k = Some x.
Proof. intros Hl Ha. unfold field. now rewrite Hl. Qed.

Lemma val_eq_code (a b : val) :
  is_code a = true -> is_code b = true ->
  (a = b /\ val_eq a b = Ok true) \/ (a <> b /\ val_eq a b = Ok false).
Proof.
  destruct a, b; simpl; try discriminate; intros _ _.
  - destruct (Z.eqb_spec z z0) as [-> | Hne]; [left | right]; split;
      try reflexivity; congruence.
  - right. split; [discriminate | reflexivity].
  - right. split; [discriminate | reflexivity].
  - destruct (String.eqb_spec s s0) as [-> | Hne]; [left | right]; split;
      try reflexivity; congruence.
Qed.

Lemma list_has_code (x : val) (xs : list val) :
  is_code x = true -> forallb is_code xs = true ->
  (In x xs /\ list_has x xs = Ok true) \/ (~ In x xs /\ list_has x xs = Ok false).
Proof.
  intros Hx. induction xs as [| y xs IH]; simpl; intros Hxs.
  - right. split; [tauto | reflexivity].
  - apply andb_true_iff in Hxs. destruct Hxs as [Hy Hxs].
    destruct (val_eq_code x y Hx Hy) as [[-> E] | [Hne E]]; rewrite E; simpl.
    + left. split; [now left | reflexivity].
    + destruct (IH Hxs) as [[Hin E'] | [Hnin E']]; rewrite E'.
      * left. split; [now right | reflexivity].
      * right. split; [| reflexivity]. intros [-> | Hin]; [now apply Hne | now apply Hnin].
Qed.

Lemma is_code_plain (x : val) : is_code x = true -> is_ref x = false /\ is_float x = false.
Proof. destruct x; simpl; try discriminate; now split. Qed.

Lemma set_of_code (xs seen : list val) :
  forallb is_code xs = true -> forallb is_code seen = true ->
  exists out,
    set_of xs seen = Ok out
    /\ forallb is_code out = true
    /\ forall v, In v out <-> In v xs \/ In v seen.
Proof.
  revert seen. induction xs as [| x xs IH]; simpl; intros seen Hxs Hs.
  - exists (rev seen). split; [reflexivity |]. split.
    + rewrite forallb_forall in *. intros v Hv. apply Hs. now apply in_rev.
    + intros v. rewrite <- in_rev. tauto.
  - apply andb_true_iff in Hxs. destruct Hxs as [Hx Hxs].
    destruct (is_code_plain x Hx) as [-> ->].
    destruct (list_has_code x seen Hx Hs) as [[Hin E] | [Hnin E]]; rewrite E; simpl.
    + destruct (IH seen Hxs Hs) as [out [E1 [E2 E3]]].
      exists out. repeat split; try assumption.
      * intros Hv. apply E3 in Hv. tauto.
      * intros [[<- | Hv] | Hv]; apply E3; tauto.
    + assert (Hs' : forallb is_code (x :: seen) = true) by (simpl; now rewrite Hx).
      destruct (IH (x :: seen) Hxs Hs') as [out [E1 [E2 E3]]].
      exists out. repeat split; try assumption.
      * intros Hv. apply E3 in Hv. simpl in Hv. tauto.
      * intros Hv. apply E3. simpl. tauto.
Qed.

Lemma is_code_atom (x : val) : is_code x = true -> exists j, atom x = Some j.
Proof. destruct x; simpl; try discriminate; eauto. Qed.

Lemma set_diff_code (xs ys : list val) :
  forallb is_code xs = true -> forallb is_code ys = true ->
  exists missing,
    set_diff xs ys = Ok missing
    /\ forall j, In j missing <->
                 exists x, In x xs /\ atom x = Some j /\ ~ In x ys.
Proof.
  intros Hxs Hys. unfold set_diff.
  destruct (set_of_code xs [] Hxs eq_refl) as [a [Ea [Ca Ia]]].
  destruct (set_of_code ys [] Hys eq_refl) as [b [Eb [Cb Ib]]].
  rewrite Ea, Eb. cbn [rbind].
  assert (Hkeep : exists keep,
             mapM (fun x : val => rbind (list_has x b) (fun m => Ok (x, m))) a = Ok keep
             /\ forall x m, In (x, m) keep <-> In x a /\ list_has x b = Ok m).
  { clear Ea Ia. induction a as [| x a IH]; simpl.
    - exists []. split; [reflexivity |]. simpl. tauto.
    - simpl in Ca. apply andb_true_iff in Ca. destruct Ca as [Cx Ca].
      destruct (IH Ca) as [keep [E1 E2]].
      destruct (list_has_code x b Cx Cb) as [[Hin E] | [Hnin E]]; rewrite E; cbn [rbind];
        rewrite E1; cbn [rbind]; eexists; (split; [reflexivity |]);
        intros x' m; simpl; rewrite E2; split.
      + intros [[= <- <-] | H]; [now split; [left |] | split; [now right | tauto]].
      + intros [[<- | H] H']; [left; congruence | right; tauto].
      + intros [[= <- <-] | H]; [now split; [left |] | split; [now right | tauto]].
      + intros [[<- | H] H']; [left; congruence | right; tauto]. }
  destruct Hkeep as [keep [Ek Ik]]. rewrite Ek. cbn [rbind].
  eexists. split; [reflexivity |].
  intros j. rewrite in_flat_map. split.
  - intros [[x m] [Hin Hj]]. simpl in Hj. destruct m; [contradiction |].
    apply Ik in Hin. destruct Hin as [Hxa Hm].
    destruct (atom x) as [j' |] eqn:Hat; [| contradiction].
    destruct Hj as [<- | []].
    exists x. split; [apply Ia in Hxa; simpl in Hxa; tauto |]. split; [exact Hat |].
    intros Hy.
    assert (Cx : is_code x = true) by (rewrite forallb_forall in Ca; now apply Ca).
    destruct (list_has_code x b Cx Cb) as [[_ E] | [Hnin _]]; [congruence |].
    apply Hnin. apply Ib. now left.
  - intros [x [Hx [Hat Hny]]].
    exists (x, false). split.
    + apply Ik. split; [apply Ia; now left |].
      assert (Cx : is_code x = true) by (rewrite forallb_forall in Hxs; now apply Hxs).
      destruct (list_has_code x b Cx Cb) as [[Hin _] | [_ E]]; [| exact E].
      exfalso. apply Hny. apply Ib in Hin. simpl in Hin. tauto.
    + simpl. rewrite Hat. now left.
Qed.

(** [all] over a test that only reads the store. *)
Lemma all_of_pure {A : Type} (xs : list A) (f : A -> M bool) (g : A -> res bool) (h : heap) :
  (forall x, f x h = (g x, h)) ->
  exists r,
    all_of xs f h = (r, h)
    /\ (r = Ok true <-> forall x, In x xs -> g x = Ok true)
    /\ ((forall x, In x xs -> exists b, g x = Ok b) -> exists b, r = Ok b).
Proof.
  intros Hf. induction xs as [| x xs IH]; simpl.
  - exists (Ok true). repeat split; try tauto. intros _. now exists true.
  - destruct IH as [r [E1 [E2 E3]]].
    unfold bind. rewrite Hf. destruct (g x) as [[|] | e] eqn:Eg.
    + exists r. split; [exact E1 |]. split.
      * rewrite E2. split; [intros H y [<- | Hy]; auto | intros H y Hy; apply H; now right].
      * intros H. apply E3. intros y Hy. apply H. now right.
    + exists (Ok false). split; [reflexivity |]. split.
      * split; [discriminate |]. intros H. specialize (H x (or_introl eq_refl)). congruence.
      * intros _. now exists false.
    + exists (Raise e). split; [reflexivity |]. split.
      * split; [discriminate |]. intros H. specialize (H x (or_introl eq_refl)). congruence.
      * intros H. destruct (H x (or_introl eq_refl)) as [b Hb]. congruence.
Qed.

Section WeatherCheck.
Variables (h : heap) (input weather_data wpv wi : val).
Variables (dw : list (string * val)) (wps : list val).
Hypothesis Hwd : lookup h weather_data = Some (ODict dw).
Hypothesis Hwp : assoc "weatherParameters" dw = Some wpv.
Hypothesis Hwps : lookup h wpv = Some (OList wps).
Hypothesis Hwi : assoc "interval" dw = Some wi.

Lemma weather_has_code (code : val) :
  (wps' <- getitem weather_data "weatherParameters" ;; contains code wps')%py h
  = (list_has code wps, h).
Proof.
  rewrite (run_bind _ _ _ _ _
             (getitem_field _ _ _ _ (field_of_lookup _ _ _ _ _ Hwd Hwp))).
  unfold contains, bind, deref, lift. unfold lookup in Hwps.
  destruct wpv; try discriminate. rewrite Hwps. reflexivity.
Qed.

Lemma iterate_weather_parameters : iterate wpv h = (Ok wps, h).
Proof.
  unfold iterate, bind, deref, ret. unfold lookup in Hwps.
  destruct wpv; try discriminate. rewrite Hwps. reflexivity.
Qed.

(** The first [assert] fails. *)
Lemma check_codes_fail (prefix : string) (required : list val) (interval : val)
    (missing : list json) :
  (forall code, In code required -> exists b, list_has code wps = Ok b) ->
  (exists code, In code required /\ list_has code wps <> Ok true) ->
  set_diff required wps = Ok missing ->
  check_and_set_weather prefix input weather_data required interval h
  = (Raise (AssertionError prefix (Some missing)), h).
Proof.
  intros Hall [code [Hin Hno]] Hdiff. unfold check_and_set_weather.
  destruct (all_of_pure required
              (fun code => (wps' <- getitem weather_data "weatherParameters" ;;
                            contains code wps')%py)
              (fun code => list_has code wps) h weather_has_code)
    as [r [E1 [E2 E3]]].
  destruct (E3 Hall) as [b ->].
  destruct b.
  - exfalso. apply Hno. now apply E2.
  - rewrite (run_bind _ _ _ _ _ E1).
    apply run_bind_raise.
    rewrite (run_bind _ _ _ _ _
               (getitem_field _ _ _ _ (field_of_lookup _ _ _ _ _ Hwd Hwp))).
    rewrite (run_bind _ _ _ _ _ iterate_weather_parameters).
    unfold bind, lift, raise. rewrite Hdiff. reflexivity.
Qed.

(** The second [assert] fails. *)
Lemma check_interval_fail (prefix : string) (required : list val) (interval : val) :
  (forall code, In code required -> list_has code wps = Ok true) ->
  val_eq interval wi = Ok false ->
  check_and_set_weather prefix input weather_data required interval h
  = (Raise (AssertionError
              "weatherdata interval is not fullfilling model requirements" None), h).
Proof.
  intros Hall Hne. unfold check_and_set_weather.
  destruct (all_of_pure required
              (fun code => (wps' <- getitem weather_data "weatherParameters" ;;
                            contains code wps')%py)
              (fun code => list_has code wps) h weather_has_code)
    as [r [E1 [E2 _]]].
  assert (Hr : r = Ok true) by now apply E2. subst r.
  rewrite (run_bind _ _ _ _ _ E1).
  unfold bind at 1. unfold ret at 1.
  rewrite (run_bind _ _ _ _ _
             (getitem_field _ _ _ _ (field_of_lookup _ _ _ _ _ Hwd Hwi))).
  unfold bind, lift, raise. rewrite Hne. reflexivity.
Qed.

(** Both [assert]s passed if the block went through. *)
Lemma check_passed (prefix : string) (required : list val) (interval : val) (h' : heap) :
  check_and_set_weather prefix input weather_data required interval h = (Ok tt, h') ->
  (forall code, In code required -> list_has code wps = Ok true)
  /\ val_eq interval wi = Ok true.
Proof.
  unfold check_and_set_weather.
  destruct (all_of_pure required
              (fun code => (wps' <- getitem weather_data "weatherParameters" ;;
                            contains code wps')%py)
              (fun code => list_has code wps) h weather_has_code)
    as [r [E1 [E2 _]]].
  destruct r as [[|] | e].
  - rewrite (run_bind _ _ _ _ _ E1).
    unfold bind at 1. unfold ret at 1.
    rewrite (run_bind _ _ _ _ _
               (getitem_field _ _ _ _ (field_of_lookup _ _ _ _ _ Hwd Hwi))).
    unfold bind at 1. unfold lift at 1.
    destruct (val_eq interval wi) as [[|] | e]; try discriminate.
    intros _. split; [now apply E2 | reflexivity].
  - rewrite (run_bind _ _ _ _ _ E1). unfold bind.
    rewrite (getitem_field _ _ _ _ (field_of_lookup _ _ _ _ _ Hwd Hwp)).
    rewrite iterate_weather_parameters. unfold lift, raise.
    destruct (set_diff required wps); discriminate.
  - rewrite (run_bind_raise _ _ _ _ _ E1). discriminate.
Qed.

(** With weather data given, and [weatherData] in the generated document
    or among the schema's properties, lines 878-888 come down to the two
    [assert]s and the assignment. *)
Lemma add_weather_supplied (model schema : val) (di : list (string * val))
    (required : list val) (interval : val) :
  lookup h input = Some (ODict di) ->
  (has_key "weatherData" di = true
   \/ exists props dp,
        field h schema "properties" = Some props
        /\ lookup h props = Some (ODict dp)
        /\ has_key "weatherData" dp = true) ->
  add_weather model schema input weather_data required interval h =
    check_and_set_weather
      (if has_key "weatherData" di
       then "WeatherData parameter are missing: "
       else "Some weatherdata parameter are missing")
      input weather_data required interval h.
Proof.
  intros Hin Hc. unfold add_weather.
  rewrite (run_bind _ _ _ _ _ (contains_key _ _ "weatherData" _ Hin)).
  assert (Hv : exists l, weather_data = VRef l).
  { unfold lookup in Hwd. destruct weather_data; try discriminate. eauto. }
  destruct Hv as [l ->].
  destruct (has_key "weatherData" di); [reflexivity |].
  destruct Hc as [Hc | [props [dp [Hp [Hdp Hk]]]]]; [discriminate |].
  rewrite (run_bind _ _ _ _ _ (getitem_field _ _ _ _ Hp)).
  rewrite (run_bind _ _ _ _ _ (contains_key _ _ "weatherData" _ Hdp)).
  rewrite Hk. reflexivity.
Qed.
End WeatherCheck.

Lemma map_each_getitem (items : list val) (k : string) (h : heap) :
  exists r,
    map_each items (fun item => getitem item k) h = (r, h)
    /\ forall out, r = Ok out ->
         Forall2 (fun item x => field h item k = Some x) items out.
Proof.
  induction items as [| item items IH]; simpl.
  - exists (Ok []). split; [reflexivity |]. intros out [= <-]. constructor.
  - destruct IH as [r [E1 E2]]. unfold bind.
    destruct (getitem item k h) as [[x | e] h1] eqn:Eg;
      destruct (getitem_inv _ _ _ _ _ Eg) as [-> Hx].
    + rewrite E1. destruct r as [out | e].
      * exists (Ok (x :: out)). split; [reflexivity |].
        intros out' [= <-]. constructor; [now apply Hx | now apply E2].
      * exists (Raise e). split; [reflexivity | discriminate].
    + exists (Raise e). split; [reflexivity | discriminate].
Qed.

(** What lines 873-877 read off a model that declares weather parameters:
    the code of every item, in order, and the interval of the first. *)
Lemma weather_requirements_declared (h h' : heap) (model inp wpars : val)
    (items required : list val) (interval : val) :
  weather_requirements model h = (Ok (required, interval), h') ->
  field h model "input" = Some inp ->
  field h inp "weather_parameters" = Some wpars ->
  lookup h wpars = Some (OList items) ->
  h' = h
  /\ Forall2 (fun item code => field h item "parameter_code" = Some code) items required
  /\ exists first, nth_error items 0 = Some first
                   /\ field h first "interval" = Some interval.
Proof.
  intros Hrun Hin Hwp Hl. unfold weather_requirements in Hrun.
  rewrite (run_bind _ _ _ _ _ (getitem_field _ _ _ _ Hin)) in Hrun.
  rewrite (run_bind _ _ _ _ _ (getitem_field _ _ _ _ Hwp)) in Hrun.
  unfold lookup in Hl. destruct wpars as [| | | | | l]; try discriminate.
  rewrite (run_bind _ _ _ _ _ (getitem_field _ _ _ _ Hin)) in Hrun.
  rewrite (run_bind _ _ _ _ _ (getitem_field _ _ _ _ Hwp)) in Hrun.
  assert (Hit : iterate (VRef l) h = (Ok items, h)).
  { unfold iterate, bind, deref, ret. now rewrite Hl. }
  rewrite (run_bind _ _ _ _ _ Hit) in Hrun.
  destruct (map_each_getitem items "parameter_code" h) as [r [E1 E2]].
  destruct r as [out | e]; [| rewrite (run_bind_raise _ _ _ _ _ E1) in Hrun; discriminate].
  rewrite (run_bind _ _ _ _ _ E1) in Hrun.
  rewrite (run_bind _ _ _ _ _ (getitem_field _ _ _ _ Hin)) in Hrun.
  rewrite (run_bind _ _ _ _ _ (getitem_field _ _ _ _ Hwp)) in Hrun.
  unfold bind at 1 in Hrun. unfold getfirst, bind, deref in Hrun. rewrite Hl in Hrun.
  destruct items as [| first items]; [discriminate |].
  unfold ret at 1 in Hrun.
  destruct (getitem first "interval" h) as [[x | e] h1] eqn:Eg; [| discriminate].
  destruct (getitem_inv _ _ _ _ _ Eg) as [-> Hx].
  unfold ret in Hrun. injection Hrun as <- <- <-.
  split; [reflexivity |]. split; [now apply E2 |].
  exists first. split; [reflexivity | now apply Hx].
Qed.

(** C2: take a call in which the schema is prepared, the document generated
    and filled in, the model's weather requirements read, weather data
    given, and [weatherData] held by the generated document or declared by
    the schema, so that the weather data is what the document gets. Then
    - the call returns only if [weatherParameters] of the weather data
      contains every required code and its [interval] equals the required
      one;
    - if the codes are strings or integers and one of them is not in
      [weatherParameters], the call raises [AssertionError] with the set of
      exactly the required codes that are not there;
    - if every code is there and the intervals differ, the call raises
      [AssertionError] on the interval;
    - for a model that declares [input.weather_parameters], the required
      codes are the [parameter_code] of each declared item and the required
      interval is the [interval] of the first. *)
Theorem weather_compatibility
    (jsf : json -> res json) (h0 h1 h2 h3 h4 : heap)
    (model parameters weather_data fo foq schema cfg input : val)
    (required : list val) (interval : val)
    (di dw : list (string * val)) (wpv wi : val) (wps : list val) :
  prepare_schema model h0 = (Ok (schema, cfg), h1) ->
  generate jsf schema h1 = (Ok input, h2) ->
  fill_config input cfg parameters h2 = (Ok tt, h3) ->
  weather_requirements model h3 = (Ok (required, interval), h4) ->
  lookup h4 input = Some (ODict di) ->
  lookup h4 weather_data = Some (ODict dw) ->
  assoc "weatherParameters" dw = Some wpv ->
  lookup h4 wpv = Some (OList wps) ->
  assoc "interval" dw = Some wi ->
  (has_key "weatherData" di = true
   \/ exists props dp,
        field h4 schema "properties" = Some props
        /\ lookup h4 props = Some (ODict dp)
        /\ has_key "weatherData" dp = true) ->
  (forall r hf,
      model_input jsf model parameters weather_data fo foq h0 = (Ok r, hf) ->
      (forall code, In code required -> list_has code wps = Ok true)
      /\ val_eq interval wi = Ok true)
  /\ (forallb is_code required = true ->
      forallb is_code wps = true ->
      (exists code, In code required /\ ~ In code wps) ->
      exists missing,
        model_input jsf model parameters weather_data fo foq h0 =
          (Raise (AssertionError
                    (if has_key "weatherData" di
                     then "WeatherData parameter are missing: "
                     else "Some weatherdata parameter are missing")
                    (Some missing)), h4)
        /\ forall j, In j missing <->
                     exists code, In code required /\ atom code = Some j
                                  /\ ~ In code wps)
  /\ ((forall code, In code required -> list_has code wps = Ok true) ->
      val_eq interval wi = Ok false ->
      model_input jsf model parameters weather_data fo foq h0 =
        (Raise (AssertionError
                  "weatherdata interval is not fullfilling model requirements" None),
         h4))
  /\ (forall inp wpars items,
        field h3 model "input" = Some inp ->
        field h3 inp "weather_parameters" = Some wpars ->
        lookup h3 wpars = Some (OList items) ->
        Forall2 (fun item code => field h3 item "parameter_code" = Some code)
          items required
        /\ exists first, nth_error items 0 = Some first
                         /\ field h3 first "interval" = Some interval).
Proof.
  intros H1 H2 H3 H4 Hin Hwd Hwp Hwps Hwi Hc.
  pose proof (model_input_after_skeleton jsf h0 h1 h2 h3 h4 model parameters
                weather_data fo foq schema cfg input required interval H1 H2 H3 H4) as Hrun.
  pose proof (add_weather_supplied h4 input weather_data dw Hwd
                model schema di required interval Hin Hc) as Hadd.
  split; [| split; [| split]].
  - intros r hf Hok. rewrite Hrun in Hok.
    apply bind_ok in Hok. destruct Hok as [[] [h5 [Hw _]]].
    rewrite Hadd in Hw.
    exact (check_passed h4 input weather_data wpv wi dw wps Hwd Hwp Hwps Hwi
             _ required interval h5 Hw).
  - intros Creq Cwps [code [Hcin Hcno]].
    destruct (set_diff_code required wps Creq Cwps) as [missing [Ed Em]].
    exists missing. split; [| exact Em].
    rewrite Hrun. apply run_bind_raise. rewrite Hadd.
    apply (check_codes_fail h4 input weather_data wpv dw wps Hwd Hwp Hwps).
    + intros c Hc'.
      assert (Cc : is_code c = true) by (rewrite forallb_forall in Creq; now apply Creq).
      destruct (list_has_code c wps Cc Cwps) as [[_ E] | [_ E]]; rewrite E; eauto.
    + exists code. split; [exact Hcin |].
      assert (Cc : is_code code = true)
        by (rewrite forallb_forall in Creq; now apply Creq).
      destruct (list_has_code code wps Cc Cwps) as [[Hi _] | [_ E]];
        [contradiction | rewrite E; discriminate].
    + exact Ed.
  - intros Hall Hne. rewrite Hrun. apply run_bind_raise. rewrite Hadd.
    now apply (check_interval_fail h4 input weather_data wpv wi dw wps Hwd Hwp Hwps Hwi).
  - intros inp wpars items Hi Hw Hl.
    destruct (weather_requirements_declared h3 h4 model inp wpars items required
                interval H4 Hi Hw Hl) as [_ Hd].
    exact Hd.
Qed.

Lemma weather_compatibility_witness :
  exists h',
    model_input full_fake example_model_ref VNone (example_weather_ref 7200)
      VNone VNone (example_weather_store 7200) =
      (Raise (AssertionError
                "weatherdata interval is not fullfilling model requirements" None), h').
Proof.
  eexists.
  unshelve eapply (proj1 (proj2 (proj2
             (weather_compatibility full_fake (example_weather_store 7200) _ _ _ _
                example_model_ref VNone (example_weather_ref 7200) VNone VNone
                _ _ _ _ _ _ _ _ _ _ _ _ _ _ _ _ _ _ _ _))));
    try solve [vm_compute; reflexivity].
  - left. vm_compute. reflexivity.
  - intros code [<- | []]. vm_compute. reflexivity.
Defined.

(** The two calls of the spec's example: weather data with the required
    interval goes into the document, weather data with another one is
    refused. *)
Example weather_compatibility_example :
  fst (call_model_input full_fake example_model None
         (Some (example_weather 3600)) (Some (JList [])) (Some (JList [])))
  = Ok (JDict
          [("configParameters",
            JDict [("timeZone", JStr "Europe/Oslo");
                   ("threshold", JInt 17);
                   ("fieldObservations", JList []);
                   ("fieldObservationQuantifications", JList [])]);
           ("weatherData", example_weather 3600)])
  /\ fst (call_model_input full_fake example_model None
            (Some (example_weather 7200)) (Some (JList [])) (Some (JList [])))
     = Raise (AssertionError
                "weatherdata interval is not fullfilling model requirements" None).
Proof.
  split; vm_compute; reflexivity.
Qed.

(** ** The schema the generator is given *)

Lemma assoc_dict_remove_neq {A : Type} (k k' : string) (d : list (string * A)) :
  k <> k' -> assoc k (dict_remove k' d) = assoc k d.
Proof.
  intros Hne. induction d as [| [k2 v2] d IH]; simpl; [reflexivity |].
  destruct (String.eqb_spec k' k2) as [-> | Hne2]; simpl.
  - destruct (String.eqb_spec k k2); [contradiction | reflexivity].
  - destruct (String.eqb k k2); [reflexivity | exact IH].
Qed.

Lemma contains_inv (x v : val) (h h' : heap) (r : res bool) :
  contains x v h = (r, h') -> h' = h.
Proof.
  unfold contains, bind, deref, lift, raise, ret.
  destruct v; try (now intros [= _ <-]).
  - destruct x; now intros [= _ <-].
  - destruct (nth_error h l) as [[d | xs] |]; try (now intros [= _ <-]).
    destruct x; now intros [= _ <-].
Qed.

Lemma setitem_inv (v : val) (k : string) (x : val) (h h' : heap) :
  setitem v k x h = (Ok tt, h') ->
  exists l d, v = VRef l /\ nth_error h l = Some (ODict d)
              /\ h' = replace_nth l (ODict (dict_set k x d)) h.
Proof.
  unfold setitem, bind, deref, store, raise.
  destruct v; try discriminate.
  destruct (nth_error h l) as [[d | xs] |] eqn:E; try discriminate.
  intros [= <-]. now exists l, d.
Qed.

Lemma copy_inv (v s : val) (h h' : heap) :
  copy v h = (Ok s, h') ->
  exists l o, v = VRef l /\ nth_error h l = Some o
              /\ s = VRef (List.length h) /\ h' = (h ++ [o])%list.
Proof.
  unfold copy, bind, deref, alloc, raise.
  destruct v; try discriminate.
  destruct (nth_error h l) as [o |] eqn:E; try discriminate.
  intros [= <- <-]. now exists l, o.
Qed.

Lemma pop_inv (v : val) (k : string) (h h' : heap) :
  pop v k h = (Ok tt, h') ->
  exists l d, v = VRef l /\ nth_error h l = Some (ODict d) /\ has_key k d = true
              /\ h' = replace_nth l (ODict (dict_remove k d)) h.
Proof.
  unfold pop, bind, deref, store, raise.
  destruct v; try discriminate.
  destruct (nth_error h l) as [[d | xs] |] eqn:E; try discriminate.
  destruct (has_key k d) eqn:Hk; try discriminate.
  intros [= <-]. now exists l, d.
Qed.

Lemma field_ref (h : heap) (v : val) (a : string) (x : val) :
  field h v a = Some x ->
  exists l d, v = VRef l /\ nth_error h l = Some (ODict d) /\ assoc a d = Some x.
Proof.
  unfold field, lookup. destruct v; try discriminate.
  destruct (nth_error h l) as [[d | xs] |] eqn:E; try discriminate.
  intros H. now exists l, d.
Qed.

Lemma touches_refl (K : list string) (h : heap) : touches K h h.
Proof. split; auto. Qed.

Lemma touches_trans (K : list string) (h1 h2 h3 : heap) :
  touches K h1 h2 -> touches K h2 h3 -> touches K h1 h3.
Proof.
  intros [F1 P1] [F2 P2]. split.
  - intros v a x H Hn. apply F2; [apply F1 |]; assumption.
  - intros l tok H. apply P2. now apply P1.
Qed.

Lemma touches_weaken (K K' : list string) (h h' : heap) :
  incl K K' -> touches K h h' -> touches K' h h'.
Proof.
  intros Hi [F P]. split; [| exact P].
  intros v a x H Hn. apply F; [exact H |]. intros Ha. apply Hn. now apply Hi.
Qed.

Lemma touches_app (K : list string) (h ext : heap) : touches K h (h ++ ext)%list.
Proof.
  split.
  - intros v a x H _. destruct (field_ref _ _ _ _ H) as [l [d [-> [Hl Ha]]]].
    unfold field, lookup. rewrite nth_error_app1.
    + now rewrite Hl.
    + apply nth_error_Some. congruence.
  - intros l tok H. rewrite nth_error_app1; [exact H |].
    apply nth_error_Some. congruence.
Qed.

Lemma touches_set (h : heap) (l : loc) (d : list (string * val)) (k : string) (x : val) :
  nth_error h l = Some (ODict d) ->
  has_key k d = true ->
  not_in_placeholder k ->
  touches [k] h (replace_nth l (ODict (dict_set k x d)) h).
Proof.
  intros Hl Hk Hnp. split.
  - intros v a y H Hn. destruct (field_ref _ _ _ _ H) as [lv [dv [-> [Hlv Ha]]]].
    unfold field, lookup. destruct (Nat.eq_dec l lv) as [<- | Hne].
    + rewrite nth_error_replace_nth_eq by (apply nth_error_Some; congruence).
      rewrite assoc_dict_set_neq by (intros ->; apply Hn; now left).
      congruence.
    + rewrite nth_error_replace_nth_neq by exact Hne. now rewrite Hlv.
  - intros l0 tok H0. destruct (Nat.eq_dec l l0) as [<- | Hne].
    + assert (E : placeholder_schema tok = ODict d) by congruence.
      rewrite (Hnp tok d E) in Hk. discriminate.
    + now rewrite nth_error_replace_nth_neq.
Qed.

Lemma touches_remove (h : heap) (l : loc) (d : list (string * val)) (k : string) :
  nth_error h l = Some (ODict d) ->
  has_key k d = true ->
  not_in_placeholder k ->
  touches [k] h (replace_nth l (ODict (dict_remove k d)) h).
Proof.
  intros Hl Hk Hnp. split.
  - intros v a y H Hn. destruct (field_ref _ _ _ _ H) as [lv [dv [-> [Hlv Ha]]]].
    unfold field, lookup. destruct (Nat.eq_dec l lv) as [<- | Hne].
    + rewrite nth_error_replace_nth_eq by (apply nth_error_Some; congruence).
      rewrite assoc_dict_remove_neq by (intros ->; apply Hn; now left).
      congruence.
    + rewrite nth_error_replace_nth_neq by exact Hne. now rewrite Hlv.
  - intros l0 tok H0. destruct (Nat.eq_dec l l0) as [<- | Hne].
    + assert (E : placeholder_schema tok = ODict d) by congruence.
      rewrite (Hnp tok d E) in Hk. discriminate.
    + now rewrite nth_error_replace_nth_neq.
Qed.

(** The replacement of one declared property by its placeholder schema:
    the conditional of lines 846-848 and of lines 850-852. *)
Lemma replace_declared (owner tgt : val) (attr k tok : string) (declared : bool)
    (h h' : heap) :
  not_in_placeholder k ->
  attr <> k ->
  field h owner attr = Some tgt ->
  contains (VStr k) tgt h = (Ok declared, h) ->
  (if declared then
     d <- alloc (placeholder_schema tok) ;;
     t <- getitem owner attr ;;
     setitem t k d
   else ret tt)%py h = (Ok tt, h') ->
  touches [k] h h'
  /\ (declared = true ->
      exists l, field h' tgt k = Some (VRef l)
                /\ nth_error h' l = Some (placeholder_schema tok))
  /\ (declared = false -> h' = h).
Proof.
  intros Hnp Hak Hf Hc Hrun. destruct declared.
  - apply bind_ok in Hrun. destruct Hrun as [d [ha [Ha Hrun]]].
    unfold alloc in Ha. injection Ha as <- <-.
    assert (Hf' : field (h ++ [placeholder_schema tok])%list owner attr = Some tgt).
    { apply (proj1 (touches_app [] h _)); [exact Hf | tauto]. }
    rewrite (run_bind _ _ _ _ _ (getitem_field _ _ _ _ Hf')) in Hrun.
    apply setitem_inv in Hrun. destruct Hrun as [lt [dt [-> [Hlt ->]]]].
    assert (Hlt0 : nth_error h lt = Some (ODict dt)).
    { unfold contains, bind, deref in Hc.
      destruct (nth_error h lt) as [o |] eqn:E; [| discriminate].
      rewrite nth_error_app1 in Hlt by (apply nth_error_Some; congruence).
      congruence. }
    assert (Hk : has_key k dt = true).
    { rewrite (contains_key h (VRef lt) k dt Hlt0) in Hc. congruence. }
    split; [| split; [| discriminate]].
    + apply (touches_trans _ _ (h ++ [placeholder_schema tok])%list).
      * apply touches_app.
      * now apply touches_set.
    + intros _. exists (List.length h). split.
      * unfold field, lookup.
        rewrite nth_error_replace_nth_eq by (apply nth_error_Some; congruence).
        apply assoc_dict_set_eq.
      * rewrite nth_error_replace_nth_neq.
        -- rewrite nth_error_app2 by lia. now rewrite Nat.sub_diag.
        -- intros ->.
           assert (List.length h < List.length h)%nat
             by (apply nth_error_Some; congruence).
           lia.
  - unfold ret in Hrun. injection Hrun as <-.
    split; [apply touches_refl |]. split; [discriminate | reflexivity].
Qed.

Lemma not_in_placeholder_weatherData : not_in_placeholder "weatherData".
Proof. intros tok d [= <-]. reflexivity. Qed.

Lemma not_in_placeholder_definitions : not_in_placeholder "definitions".
Proof. intros tok d [= <-]. reflexivity. Qed.

Lemma not_in_placeholder_fieldobs (p : string) : In p fieldobs -> not_in_placeholder p.
Proof. intros [<- | [<- | []]] tok d [= <-]; reflexivity. Qed.

Lemma contains_declared (h : heap) (tgt : val) (k : string) (old : val) (b : bool) :
  field h tgt k = Some old -> contains (VStr k) tgt h = (Ok b, h) -> b = true.
Proof.
  intros Hf Hc. destruct (field_lookup _ _ _ _ Hf) as [d [Hl Ha]].
  rewrite (contains_key h tgt k d Hl) in Hc. unfold has_key in Hc. rewrite Ha in Hc.
  congruence.
Qed.

(** One turn of the loop of lines 849-852. *)
Lemma replace_fieldob (cfg : val) (p : string) (h h' : heap) :
  In p fieldobs ->
  (cprops <- getitem cfg "properties" ;;
   declared <- contains (VStr p) cprops ;;
   if declared then
     d <- alloc (placeholder_schema ("{" ++ p ++ "}")) ;;
     cprops <- getitem cfg "properties" ;;
     setitem cprops p d
   else ret tt)%py h = (Ok tt, h') ->
  exists cprops,
    field h cfg "properties" = Some cprops
    /\ touches [p] h h'
    /\ forall old, field h cprops p = Some old ->
         exists l, field h' cprops p = Some (VRef l)
                   /\ nth_error h' l = Some (placeholder_schema ("{" ++ p ++ "}")).
Proof.
  intros Hp Hrun.
  apply bind_ok in Hrun. destruct Hrun as [cprops [ha [Hg Hrun]]].
  destruct (getitem_inv _ _ _ _ _ Hg) as [-> Hf]. specialize (Hf cprops eq_refl).
  apply bind_ok in Hrun. destruct Hrun as [declared [hb [Hc Hrun]]].
  pose proof (contains_inv _ _ _ _ _ Hc) as ->.
  assert (Hne : "properties" <> p) by (destruct Hp as [<- | [<- | []]]; discriminate).
  destruct (replace_declared cfg cprops "properties" p _ declared h h'
              (not_in_placeholder_fieldobs p Hp) Hne Hf Hc Hrun) as [Ht [Hd _]].
  exists cprops. split; [exact Hf |]. split; [exact Ht |].
  intros old Hold. apply Hd. exact (contains_declared h cprops p old declared Hold Hc).
Qed.

(** What lines 841-855 leave in the store when they go through: the
    working schema is a new dict, but its ['properties'] is the dict the
    model's own schema has, and in it, and in the properties of its
    [configParameters], each declared caller-supplied property now has a
    placeholder schema. *)
Lemma prepare_schema_effect (h0 h1 : heap) (model schema cfg : val) :
  prepare_schema model h0 = (Ok (schema, cfg), h1) ->
  exists ex orig props cprops,
    field h0 model "execution" = Some ex
    /\ field h0 ex "input_schema" = Some orig
    /\ field h0 orig "properties" = Some props
    /\ schema = VRef (List.length h0)
    /\ field h1 schema "properties" = Some props
    /\ field h1 props "configParameters" = Some cfg
    /\ field h1 cfg "properties" = Some cprops
    /\ (forall old, field h0 props "weatherData" = Some old ->
          exists l, field h1 props "weatherData" = Some (VRef l)
                    /\ nth_error h1 l = Some (placeholder_schema "{WEATHER_DATA}"))
    /\ (forall p old, In p fieldobs -> field h0 cprops p = Some old ->
          exists l, field h1 cprops p = Some (VRef l)
                    /\ nth_error h1 l = Some (placeholder_schema ("{" ++ p ++ "}"))).
Proof.
  intros Hrun. unfold prepare_schema in Hrun.
  apply bind_ok in Hrun. destruct Hrun as [ex [ha [Hg Hrun]]].
  destruct (getitem_inv _ _ _ _ _ Hg) as [-> Hex]. specialize (Hex ex eq_refl). clear Hg.
  apply bind_ok in Hrun. destruct Hrun as [orig [ha [Hg Hrun]]].
  destruct (getitem_inv _ _ _ _ _ Hg) as [-> Horig]. specialize (Horig orig eq_refl). clear Hg.
  apply bind_ok in Hrun. destruct Hrun as [schema' [hb [Hcp Hrun]]].
  destruct (copy_inv _ _ _ _ Hcp) as [lo [o [Eo [Hlo [-> ->]]]]]. clear Hcp.
  apply bind_ok in Hrun. destruct Hrun as [props [ha [Hg Hrun]]].
  destruct (getitem_inv _ _ _ _ _ Hg) as [-> Hprops]. specialize (Hprops props eq_refl).
  clear Hg.
  apply bind_ok in Hrun. destruct Hrun as [cfg' [ha [Hg Hrun]]].
  destruct (getitem_inv _ _ _ _ _ Hg) as [-> Hcfg]. specialize (Hcfg cfg' eq_refl). clear Hg.
  apply bind_ok in Hrun. destruct Hrun as [props' [ha [Hg Hrun]]].
  destruct (getitem_inv _ _ _ _ _ Hg) as [-> Hprops']. specialize (Hprops' props' eq_refl).
  clear Hg.
  assert (props' = props) by congruence. subst props'. clear Hprops'.
  apply bind_ok in Hrun. destruct Hrun as [declared [ha [Hc Hrun]]].
  pose proof (contains_inv _ _ _ _ _ Hc) as ->.
  apply bind_ok in Hrun. destruct Hrun as [[] [hc [Hw Hrun]]].
  destruct (replace_declared _ props "properties" "weatherData" "{WEATHER_DATA}"
              declared _ hc not_in_placeholder_weatherData ltac:(discriminate)
              Hprops Hc Hw) as [Tw [Ew _]].
  apply bind_ok in Hrun. destruct Hrun as [[] [hd [Hloop Hrun]]].
  unfold fieldobs in Hloop. cbn [for_each] in Hloop.
  apply bind_ok in Hloop. destruct Hloop as [[] [hd1 [Hfo Hloop]]].
  apply bind_ok in Hloop. destruct Hloop as [[] [hd2 [Hfoq Hloop]]].
  unfold ret in Hloop. injection Hloop as <-.
  destruct (replace_fieldob cfg' "fieldObservations" hc hd1
              ltac:(unfold fieldobs; simpl; tauto) Hfo) as [cprops [Hcp1 [T1 E1]]].
  destruct (replace_fieldob cfg' "fieldObservationQuantifications" hd1 hd2
              ltac:(unfold fieldobs; simpl; tauto) Hfoq) as [cprops2 [Hcp2 [T2 E2]]].
  assert (cprops2 = cprops).
  { pose proof (proj1 T1 _ _ _ Hcp1 ltac:(simpl; intuition discriminate)). congruence. }
  subst cprops2.
  apply bind_ok in Hrun. destruct Hrun as [has_defs [ha [Hcd Hrun]]].
  pose proof (contains_inv _ _ _ _ _ Hcd) as ->.
  apply bind_ok in Hrun. destruct Hrun as [[] [he [Hpop Hrun]]].
  unfold ret in Hrun. injection Hrun as <- <- <-.
  assert (Tp : touches ["definitions"] hd2 he).
  { destruct has_defs.
    - destruct (pop_inv _ _ _ _ Hpop) as [l [d [_ [Hl [Hk ->]]]]].
      now apply touches_remove; [| | apply not_in_placeholder_definitions].
    - unfold ret in Hpop. injection Hpop as <-. apply touches_refl. }
  pose proof (touches_app [] h0 [o]) as T0.
  exists ex, orig, props, cprops.
  assert (Hprops0 : field h0 orig "properties" = Some props).
  { destruct (field_ref _ _ _ _ Hprops) as [l [d [[= <-] [Hl Ha]]]].
    rewrite nth_error_app2 in Hl by lia. rewrite Nat.sub_diag in Hl.
    injection Hl as ->. rewrite Eo. unfold field, lookup. now rewrite Hlo. }
  repeat split; try assumption; try reflexivity.
  - apply (proj1 Tp); [| simpl; intuition discriminate].
    apply (proj1 T2); [| simpl; intuition discriminate].
    apply (proj1 T1); [| simpl; intuition discriminate].
    apply (proj1 Tw); [| simpl; intuition discriminate].
    exact Hprops.
  - apply (proj1 Tp); [| simpl; intuition discriminate].
    apply (proj1 T2); [| simpl; intuition discriminate].
    apply (proj1 T1); [| simpl; intuition discriminate].
    apply (proj1 Tw); [| simpl; intuition discriminate].
    exact Hcfg.
  - apply (proj1 Tp); [| simpl; intuition discriminate].
    apply (proj1 T2); [| simpl; intuition discriminate].
    exact Hcp2.
  - intros old Hold.
    assert (Hold' : field (h0 ++ [o])%list props "weatherData" = Some old)
      by (apply (proj1 T0); [exact Hold | tauto]).
    destruct (Ew (contains_declared _ _ _ _ _ Hold' Hc)) as [l [Hf Hl]].
    exists l. split.
    + apply (proj1 Tp); [| simpl; intuition discriminate].
      apply (proj1 T2); [| simpl; intuition discriminate].
      apply (proj1 T1); [| simpl; intuition discriminate].
      exact Hf.
    + apply (proj2 Tp), (proj2 T2), (proj2 T1). exact Hl.
  - intros p old Hp Hold.
    assert (Hold' : field hc cprops p = Some old).
    { apply (proj1 Tw);
        [apply (proj1 T0); [exact Hold | tauto]
        | destruct Hp as [<- | [<- | []]]; simpl; intuition discriminate]. }
    destruct Hp as [<- | [<- | []]].
    + destruct (E1 old Hold') as [l [Hf Hl]]. exists l. split.
      * apply (proj1 Tp); [| simpl; intuition discriminate].
        apply (proj1 T2); [| simpl; intuition discriminate].
        exact Hf.
      * apply (proj2 Tp), (proj2 T2). exact Hl.
    + assert (Hold2 : field hd1 cprops "fieldObservationQuantifications" = Some old)
        by (apply (proj1 T1); [exact Hold' | simpl; intuition discriminate]).
      destruct (E2 old Hold2) as [l [Hf Hl]]. exists l. split.
      * apply (proj1 Tp); [| simpl; intuition discriminate]. exact Hf.
      * apply (proj2 Tp). exact Hl.
Qed.

Lemma reify_placeholder (h : heap) (l : loc) (tok : string) :
  nth_error h l = Some (placeholder_schema tok) ->
  reify 1 h (VRef l) = Some (placeholder_json tok).
Proof. intros H. simpl. rewrite H. reflexivity. Qed.

(** C6, as the code has it: when the schema preparation goes through, the
    working schema's properties hold, for [weatherData] if the properties
    declared it, the string schema whose pattern is [^{WEATHER_DATA}$] and
    whose default is [{WEATHER_DATA}]; and the properties of its
    [configParameters] hold, for each of [fieldObservations] and
    [fieldObservationQuantifications] they declared, the string schema
    whose pattern is [^{name}$] and whose default is [{name}], [name] being
    the property's own name. *)
Theorem placeholders_for_supplied_properties
    (h0 h1 : heap) (model schema cfg : val) :
  prepare_schema model h0 = (Ok (schema, cfg), h1) ->
  exists props cprops,
    field h1 schema "properties" = Some props
    /\ field h1 props "configParameters" = Some cfg
    /\ field h1 cfg "properties" = Some cprops
    /\ (forall old, field h0 props "weatherData" = Some old ->
          exists w, field h1 props "weatherData" = Some w
                    /\ reify 1 h1 w = Some (placeholder_json "{WEATHER_DATA}"))
    /\ (forall p old, In p fieldobs -> field h0 cprops p = Some old ->
          exists w, field h1 cprops p = Some w
                    /\ reify 1 h1 w = Some (placeholder_json ("{" ++ p ++ "}"))).
Proof.
  intros Hrun.
  destruct (prepare_schema_effect h0 h1 model schema cfg Hrun)
    as [ex [orig [props [cprops [_ [_ [_ [_ [Hp [Hc [Hcp [Hw Hf]]]]]]]]]]]].
  exists props, cprops. repeat split; try assumption.
  - intros old Hold. destruct (Hw old Hold) as [l [H1 H2]].
    exists (VRef l). split; [exact H1 | now apply reify_placeholder].
  - intros p old Hp' Hold. destruct (Hf p old Hp' Hold) as [l [H1 H2]].
    exists (VRef l). split; [exact H1 | now apply reify_placeholder].
Qed.

Lemma placeholders_for_supplied_properties_witness :
  exists props cprops,
    field example_prepared_store example_schema_ref "properties" = Some props
    /\ field example_prepared_store props "configParameters" = Some example_cfg_ref
    /\ field example_prepared_store example_cfg_ref "properties" = Some cprops
    /\ (forall old, field example_store props "weatherData" = Some old ->
          exists w, field example_prepared_store props "weatherData" = Some w
                    /\ reify 1 example_prepared_store w
                       = Some (placeholder_json "{WEATHER_DATA}"))
    /\ (forall p old, In p fieldobs -> field example_store cprops p = Some old ->
          exists w, field example_prepared_store cprops p = Some w
                    /\ reify 1 example_prepared_store w
                       = Some (placeholder_json ("{" ++ p ++ "}"))).
Proof.
  apply (placeholders_for_supplied_properties example_store example_prepared_store
           example_model_ref example_schema_ref example_cfg_ref).
  vm_compute. reflexivity.
Defined.

(** The schema the generator is given for [example_model]: the token put
    for [weatherData] is [{WEATHER_DATA}], not the property's own name in
    braces. *)
Lemma placeholders_for_supplied_properties_counterexample :
  (s <- prepared_schema example_model ;;
   jpath s ["properties"; "weatherData"])%res
  = Ok (JDict [("type", JStr "string");
               ("pattern", JStr "^{WEATHER_DATA}$");
               ("default", JStr "{WEATHER_DATA}")])
  /\ JStr "{WEATHER_DATA}" <> JStr ("{" ++ "weatherData" ++ "}").
Proof.
  split; [vm_compute; reflexivity | discriminate].
Qed.

(** ** The caller's model *)

(** C5 fails on the code: after a call on [example_model], whether it
    returns or raises, the model the caller holds has the placeholder
    schemas where its input schema declared [weatherData] and
    [fieldObservations]. The copy of line 841 is one level deep, and the
    assignments of lines 847 and 851 go into dicts the copy shares with the
    model. *)
Theorem model_input_rewrites_caller_schema :
  jpath example_model ["execution"; "input_schema"; "properties"; "weatherData"]
  = Ok (JDict [("$ref", JStr "https://example.org/schema/weatherdata")])
  /\ (let '(r, after) :=
        call_model_input full_fake example_model None
          (Some (example_weather 3600)) (Some (JList [])) (Some (JList [])) in
      is_ok r = true
      /\ option_map (fun m => jpath m ["execution"; "input_schema"; "properties";
                                        "weatherData"]) after
         = Some (Ok (placeholder_json "{WEATHER_DATA}"))
      /\ option_map (fun m => jpath m ["execution"; "input_schema"; "properties";
                                        "configParameters"; "properties";
                                        "fieldObservations"]) after
         = Some (Ok (placeholder_json "{fieldObservations}")))
  /\ (let '(r, after) :=
        call_model_input full_fake example_model None None None None in
      r = Raise (ValueError "no.nibio.vips.model.EXAMPLE requires WeatherData as input")
      /\ option_map (fun m => jpath m ["execution"; "input_schema"; "properties";
                                        "weatherData"]) after
         = Some (Ok (placeholder_json "{WEATHER_DATA}"))).
Proof.
  split; [vm_compute; reflexivity |].
  split; vm_compute; repeat split; reflexivity.
Qed.

(** ** Closed stores *)

Lemma closed_nth (h : heap) (l : loc) (o : obj) :
  closed h = true -> nth_error h l = Some o -> obj_below (List.length h) o = true.
Proof.
  unfold closed. rewrite forallb_forall. intros H Hl. apply H.
  now apply nth_error_In with l.
Qed.

Lemma closed_intro (h : heap) :
  (forall l o, nth_error h l = Some o -> obj_below (List.length h) o = true) ->
  closed h = true.
Proof.
  intros H. unfold closed. apply forallb_forall. intros o Hin.
  destruct (In_nth_error _ _ Hin) as [l Hl]. now apply H with l.
Qed.

Lemma val_below_mono (n m : nat) (v : val) :
  (n <= m)%nat -> val_below n v = true -> val_below m v = true.
Proof.
  destruct v; simpl; auto. intros Hle H. apply Nat.ltb_lt in H. apply Nat.ltb_lt. lia.
Qed.

Lemma obj_below_mono (n m : nat) (o : obj) :
  (n <= m)%nat -> obj_below n o = true -> obj_below m o = true.
Proof.
  intros Hle. destruct o; simpl; rewrite !forallb_forall; intros H x Hx;
    apply (val_below_mono n m); auto.
Qed.

Lemma obj_below_assoc (n : nat) (d : list (string * val)) (a : string) (x : val) :
  obj_below n (ODict d) = true -> assoc a d = Some x -> val_below n x = true.
Proof.
  simpl. induction d as [| [k v] d IH]; simpl; [discriminate |].
  intros H. apply andb_true_iff in H. destruct H as [Hv Hd].
  destruct (String.eqb a k); [now intros [= <-] | now apply IH].
Qed.

Lemma obj_below_dict_set (n : nat) (d : list (string * val)) (k : string) (x : val) :
  obj_below n (ODict d) = true -> val_below n x = true ->
  obj_below n (ODict (dict_set k x d)) = true.
Proof.
  simpl. intros Hd Hx. induction d as [| [k' v] d IH]; simpl.
  - now rewrite Hx.
  - simpl in Hd. apply andb_true_iff in Hd. destruct Hd as [Hv Hd].
    destruct (String.eqb k k'); simpl.
    + now rewrite Hx.
    + rewrite Hv. now apply IH.
Qed.

Lemma obj_below_dict_remove (n : nat) (d : list (string * val)) (k : string) :
  obj_below n (ODict d) = true -> obj_below n (ODict (dict_remove k d)) = true.
Proof.
  simpl. induction d as [| [k' v] d IH]; simpl; [reflexivity |].
  intros Hd. apply andb_true_iff in Hd. destruct Hd as [Hv Hd].
  destruct (String.eqb k k'); simpl; [exact Hd |].
  rewrite Hv. now apply IH.
Qed.

Lemma closed_field (h : heap) (v : val) (a : string) (x : val) :
  closed h = true -> field h v a = Some x -> val_below (List.length h) x = true.
Proof.
  intros Hc Hf. destruct (field_ref _ _ _ _ Hf) as [l [d [-> [Hl Ha]]]].
  exact (obj_below_assoc _ d a x (closed_nth h l _ Hc Hl) Ha).
Qed.

Lemma field_below (h : heap) (v : val) (a : string) (x : val) :
  field h v a = Some x -> val_below (List.length h) v = true.
Proof.
  intros Hf. destruct (field_ref _ _ _ _ Hf) as [l [d [-> [Hl Ha]]]].
  simpl. apply Nat.ltb_lt. apply nth_error_Some. congruence.
Qed.

Lemma closed_app1 (h : heap) (o : obj) :
  closed h = true -> obj_below (S (List.length h)) o = true ->
  closed (h ++ [o])%list = true.
Proof.
  intros Hc Ho. apply closed_intro. intros l o' Hl.
  rewrite length_app. simpl. rewrite Nat.add_1_r.
  destruct (Nat.lt_ge_cases l (List.length h)) as [Hlt | Hge].
  - rewrite nth_error_app1 in Hl by exact Hlt.
    apply (obj_below_mono (List.length h)); [lia |]. now apply closed_nth with l.
  - rewrite nth_error_app2 in Hl by exact Hge.
    destruct (l - List.length h)%nat as [| n]; simpl in Hl.
    + now injection Hl as <-.
    + destruct n; discriminate.
Qed.

Lemma closed_replace (h : heap) (l : loc) (o : obj) :
  closed h = true -> obj_below (List.length h) o = true ->
  closed (replace_nth l o h) = true.
Proof.
  intros Hc Ho. apply closed_intro. intros l' o' Hl.
  rewrite length_replace_nth.
  destruct (Nat.eq_dec l l') as [<- | Hne].
  - destruct (Nat.lt_ge_cases l (List.length h)) as [Hlt | Hge].
    + rewrite nth_error_replace_nth_eq in Hl by exact Hlt. now injection Hl as <-.
    + assert (nth_error (replace_nth l o h) l = None).
      { apply nth_error_None. now rewrite length_replace_nth. }
      congruence.
  - rewrite nth_error_replace_nth_neq in Hl by exact Hne. now apply closed_nth with l'.
Qed.

Lemma grows_refl (h : heap) : grows h h.
Proof. split; auto. Qed.

Lemma grows_trans (h1 h2 h3 : heap) : grows h1 h2 -> grows h2 h3 -> grows h1 h3.
Proof. intros [L1 C1] [L2 C2]. split; [lia | auto]. Qed.

Lemma grows_app1 (h : heap) (o : obj) :
  (closed h = true -> obj_below (S (List.length h)) o = true) ->
  grows h (h ++ [o])%list.
Proof.
  intros Ho. split; [rewrite length_app; lia |].
  intros Hc. apply closed_app1; auto.
Qed.

Lemma grows_replace (h : heap) (l : loc) (o : obj) :
  (closed h = true -> obj_below (List.length h) o = true) ->
  grows h (replace_nth l o h).
Proof.
  intros Ho. split; [rewrite length_replace_nth; lia |].
  intros Hc. apply closed_replace; auto.
Qed.

Lemma placeholder_below (n : nat) (tok : string) :
  obj_below n (placeholder_schema tok) = true.
Proof. reflexivity. Qed.

(** Replacing a declared property keeps a closed store closed. *)
Lemma replace_declared_grows (owner : val) (attr k tok : string) (declared : bool)
    (h h' : heap) :
  (if declared then
     d <- alloc (placeholder_schema tok) ;;
     t <- getitem owner attr ;;
     setitem t k d
   else ret tt)%py h = (Ok tt, h') ->
  grows h h'.
Proof.
  intros Hrun. destruct declared.
  - apply bind_ok in Hrun. destruct Hrun as [d [ha [Ha Hrun]]].
    unfold alloc in Ha. injection Ha as <- <-.
    apply bind_ok in Hrun. destruct Hrun as [t [hb [Hg Hrun]]].
    destruct (getitem_inv _ _ _ _ _ Hg) as [-> _].
    apply setitem_inv in Hrun. destruct Hrun as [lt [dt [-> [Hlt ->]]]].
    apply (grows_trans _ (h ++ [placeholder_schema tok])%list).
    + apply grows_app1. intros _. apply placeholder_below.
    + apply grows_replace. intros Hc.
      apply obj_below_dict_set.
      * now apply closed_nth with lt.
      * simpl. apply Nat.ltb_lt. rewrite length_app. simpl. lia.
  - unfold ret in Hrun. injection Hrun as <-. apply grows_refl.
Qed.

Lemma prepare_schema_grows (h0 h1 : heap) (model schema cfg : val) :
  prepare_schema model h0 = (Ok (schema, cfg), h1) -> grows h0 h1.
Proof.
  intros Hrun. unfold prepare_schema in Hrun.
  apply bind_ok in Hrun. destruct Hrun as [ex [ha [Hg Hrun]]].
  destruct (getitem_inv _ _ _ _ _ Hg) as [-> _]. clear Hg.
  apply bind_ok in Hrun. destruct Hrun as [orig [ha [Hg Hrun]]].
  destruct (getitem_inv _ _ _ _ _ Hg) as [-> _]. clear Hg.
  apply bind_ok in Hrun. destruct Hrun as [schema' [hb [Hcp Hrun]]].
  destruct (copy_inv _ _ _ _ Hcp) as [lo [o [Eo [Hlo [-> ->]]]]]. clear Hcp.
  assert (G0 : grows h0 (h0 ++ [o])%list).
  { apply grows_app1. intros Hc. apply (obj_below_mono (List.length h0)); [lia |].
    now apply closed_nth with lo. }
  apply bind_ok in Hrun. destruct Hrun as [props [ha [Hg Hrun]]].
  destruct (getitem_inv _ _ _ _ _ Hg) as [-> _]. clear Hg.
  apply bind_ok in Hrun. destruct Hrun as [cfg' [ha [Hg Hrun]]].
  destruct (getitem_inv _ _ _ _ _ Hg) as [-> _]. clear Hg.
  apply bind_ok in Hrun. destruct Hrun as [props' [ha [Hg Hrun]]].
  destruct (getitem_inv _ _ _ _ _ Hg) as [-> _]. clear Hg.
  apply bind_ok in Hrun. destruct Hrun as [declared [ha [Hc Hrun]]].
  pose proof (contains_inv _ _ _ _ _ Hc) as ->.
  apply bind_ok in Hrun. destruct Hrun as [[] [hc [Hw Hrun]]].
  pose proof (replace_declared_grows _ _ _ _ _ _ _ Hw) as Gw.
  apply bind_ok in Hrun. destruct Hrun as [[] [hd [Hloop Hrun]]].
  unfold fieldobs in Hloop. cbn [for_each] in Hloop.
  apply bind_ok in Hloop. destruct Hloop as [[] [hd1 [Hfo Hloop]]].
  apply bind_ok in Hloop. destruct Hloop as [[] [hd2 [Hfoq Hloop]]].
  unfold ret in Hloop. injection Hloop as <-.
  assert (G1 : grows hc hd1).
  { apply bind_ok in Hfo. destruct Hfo as [cprops [ha [Hg Hfo]]].
    destruct (getitem_inv _ _ _ _ _ Hg) as [-> _].
    apply bind_ok in Hfo. destruct Hfo as [b [hb [Hcb Hfo]]].
    pose proof (contains_inv _ _ _ _ _ Hcb) as ->.
    exact (replace_declared_grows _ _ _ _ _ _ _ Hfo). }
  assert (G2 : grows hd1 hd2).
  { apply bind_ok in Hfoq. destruct Hfoq as [cprops [ha [Hg Hfoq]]].
    destruct (getitem_inv _ _ _ _ _ Hg) as [-> _].
    apply bind_ok in Hfoq. destruct Hfoq as [b [hb [Hcb Hfoq]]].
    pose proof (contains_inv _ _ _ _ _ Hcb) as ->.
    exact (replace_declared_grows _ _ _ _ _ _ _ Hfoq). }
  apply bind_ok in Hrun. destruct Hrun as [has_defs [ha [Hcd Hrun]]].
  pose proof (contains_inv _ _ _ _ _ Hcd) as ->.
  apply bind_ok in Hrun. destruct Hrun as [[] [he [Hpop Hrun]]].
  unfold ret in Hrun. injection Hrun as <- <- <-.
  assert (Gp : grows hd2 he).
  { destruct has_defs.
    - destruct (pop_inv _ _ _ _ Hpop) as [l [d [_ [Hl [Hk ->]]]]].
      apply grows_replace. intros Hcl. apply obj_below_dict_remove.
      now apply closed_nth with l.
    - unfold ret in Hpop. injection Hpop as <-. apply grows_refl. }
  exact (grows_trans _ _ _ G0 (grows_trans _ _ _ Gw
           (grows_trans _ _ _ G1 (grows_trans _ _ _ G2 Gp)))).
Qed.

(** ** Freshly allocated documents *)

Lemma json_induction (P : json -> Prop) :
  P JNull ->
  (forall b, P (JBool b)) ->
  (forall z, P (JInt z)) ->
  (forall f, P (JFloat f)) ->
  (forall s, P (JStr s)) ->
  (forall xs, Forall P xs -> P (JList xs)) ->
  (forall kvs, Forall (fun kv => P (snd kv)) kvs -> P (JDict kvs)) ->
  forall j, P j.
Proof.
  intros HN HB HI HF HS HL HD. fix IH 1.
  intros [| b | z | f | s | xs | kvs];
    [exact HN | apply HB | apply HI | apply HF | apply HS | |].
  - apply HL. induction xs as [| x xs IHxs]; constructor; [apply IH | exact IHxs].
  - apply HD. induction kvs as [| [k x] kvs IHk]; constructor; [apply IH | exact IHk].
Qed.


Lemma val_from_anti (n m : nat) (v : val) :
  (m <= n)%nat -> val_from n v = true -> val_from m v = true.
Proof.
  destruct v; simpl; auto. intros Hle H. apply Nat.leb_le in H. apply Nat.leb_le. lia.
Qed.

Lemma obj_from_anti (n m : nat) (o : obj) :
  (m <= n)%nat -> obj_from n o = true -> obj_from m o = true.
Proof.
  intros Hle. destruct o; simpl; rewrite !forallb_forall; intros H x Hx;
    apply (val_from_anti n m); auto.
Qed.

Lemma obj_from_assoc (n : nat) (d : list (string * val)) (a : string) (x : val) :
  obj_from n (ODict d) = true -> assoc a d = Some x -> val_from n x = true.
Proof.
  simpl. induction d as [| [k v] d IH]; simpl; [discriminate |].
  intros H. apply andb_true_iff in H. destruct H as [Hv Hd].
  destruct (String.eqb a k); [now intros [= <-] | now apply IH].
Qed.

Lemma fresh_ext_nil (h : heap) : fresh_ext h [].
Proof. intros [| i] o H; discriminate. Qed.

Lemma fresh_ext_app (h ext1 ext2 : heap) :
  fresh_ext h ext1 -> fresh_ext (h ++ ext1)%list ext2 -> fresh_ext h (ext1 ++ ext2)%list.
Proof.
  intros F1 F2 i o Hi.
  destruct (Nat.lt_ge_cases i (List.length ext1)) as [Hlt | Hge].
  - rewrite nth_error_app1 in Hi by exact Hlt. now apply F1.
  - rewrite nth_error_app2 in Hi by exact Hge.
    destruct (F2 _ _ Hi) as [Ha Hb]. rewrite length_app in Ha, Hb. split.
    + apply (obj_from_anti (List.length h + List.length ext1)); [lia | exact Ha].
    + replace (List.length h + i)%nat
        with (List.length h + List.length ext1 + (i - List.length ext1))%nat by lia.
      exact Hb.
Qed.

Lemma fresh_ext_snoc (h ext : heap) (o : obj) :
  fresh_ext h ext ->
  obj_from (List.length h) o = true ->
  obj_below (List.length h + List.length ext) o = true ->
  fresh_ext h (ext ++ [o])%list.
Proof.
  intros F Ha Hb i o' Hi.
  destruct (Nat.lt_ge_cases i (List.length ext)) as [Hlt | Hge].
  - rewrite nth_error_app1 in Hi by exact Hlt. now apply F.
  - rewrite nth_error_app2 in Hi by exact Hge.
    destruct (i - List.length ext)%nat as [| n] eqn:E; simpl in Hi.
    + injection Hi as <-. split; [exact Ha |].
      replace i with (List.length ext) by lia. exact Hb.
    + destruct n; discriminate.
Qed.

Lemma allocated_widen (h0 h h' h1 : heap) (v : val) :
  (List.length h0 <= List.length h)%nat -> (List.length h' <= List.length h1)%nat ->
  allocated h h' v -> allocated h0 h1 v.
Proof.
  intros H0 H1 [Ha Hb]. split.
  - now apply (val_from_anti (List.length h)).
  - now apply (val_below_mono (List.length h')).
Qed.

Lemma alloc_each_fresh {A B : Type} (f : A -> heap -> B * heap) (g : B -> val)
    (xs : list A) :
  Forall (fun x => forall h b h', f x h = (b, h') ->
            exists ext, h' = (h ++ ext)%list /\ fresh_ext h ext /\ allocated h h' (g b)) xs ->
  forall h bs h', alloc_each f xs h = (bs, h') ->
    exists ext, h' = (h ++ ext)%list /\ fresh_ext h ext
                /\ Forall (fun b => allocated h h' (g b)) bs.
Proof.
  induction 1 as [| x xs Hx Hxs IH]; intros h bs h' Hrun; simpl in Hrun.
  - injection Hrun as <- <-. exists []. rewrite app_nil_r.
    split; [reflexivity | split; [apply fresh_ext_nil | constructor]].
  - destruct (f x h) as [b h1] eqn:Ef.
    destruct (alloc_each f xs h1) as [bs' h2] eqn:Er.
    injection Hrun as <- <-.
    destruct (Hx _ _ _ Ef) as [ext1 [-> [F1 A1]]].
    destruct (IH _ _ _ Er) as [ext2 [-> [F2 A2]]].
    exists (ext1 ++ ext2)%list. rewrite app_assoc. split; [reflexivity |].
    split; [now apply fresh_ext_app |].
    constructor.
    + apply (allocated_widen h h (h ++ ext1)%list); auto.
      rewrite !length_app. lia.
    + eapply Forall_impl; [| exact A2]. intros b' Hb'.
      apply (allocated_widen h (h ++ ext1)%list ((h ++ ext1) ++ ext2)%list); auto.
      rewrite !length_app. lia.
Qed.

Lemma forallb_of_Forall {A : Type} (p : A -> bool) (xs : list A) :
  Forall (fun x => p x = true) xs -> forallb p xs = true.
Proof. intros H. apply forallb_forall. now apply Forall_forall. Qed.

(** The new objects of a document refer only to each other, parts before
    containers. *)
Lemma alloc_json_fresh (j : json) :
  forall h v h', alloc_json j h = (v, h') ->
    exists ext, h' = (h ++ ext)%list /\ fresh_ext h ext /\ allocated h h' v.
Proof.
  induction j using json_induction; intros h v h' Hrun; simpl in Hrun;
    try (injection Hrun as <- <-; exists []; rewrite app_nil_r;
         split; [reflexivity | split; [apply fresh_ext_nil | split; reflexivity]]).
  - destruct (alloc_each alloc_json xs h) as [vs h1] eqn:E.
    injection Hrun as <- <-.
    destruct (alloc_each_fresh alloc_json (fun v => v) xs H h vs h1 E)
      as [ext [-> [F A]]].
    exists (ext ++ [OList vs])%list. rewrite app_assoc. split; [reflexivity |].
    split; [| split].
    + apply fresh_ext_snoc; [exact F | |]; simpl; apply forallb_of_Forall;
        (eapply Forall_impl; [| exact A]); intros b [Ha Hb]; [exact Ha |].
      now rewrite length_app in Hb.
    + simpl. apply Nat.leb_le. rewrite length_app. lia.
    + simpl. apply Nat.ltb_lt. rewrite !length_app. simpl. lia.
  - destruct (alloc_each
                (fun kv h => let '(v, h1) := alloc_json (snd kv) h in ((fst kv, v), h1))
                kvs h) as [d h1] eqn:E.
    injection Hrun as <- <-.
    assert (Hf : Forall (fun kv : string * json => forall h b h',
                   (let '(v, h1) := alloc_json (snd kv) h in ((fst kv, v), h1)) = (b, h') ->
                   exists ext, h' = (h ++ ext)%list /\ fresh_ext h ext
                               /\ allocated h h' (snd b)) kvs).
    { eapply Forall_impl; [| exact H]. intros kv IH h0 b h0' Hb.
      destruct (alloc_json (snd kv) h0) as [v0 h2] eqn:E0.
      injection Hb as <- <-. simpl. now apply IH. }
    destruct (alloc_each_fresh _ (fun b : string * val => snd b) kvs Hf h d h1 E)
      as [ext [-> [F A]]].
    exists (ext ++ [ODict d])%list. rewrite app_assoc. split; [reflexivity |].
    split; [| split].
    + apply fresh_ext_snoc; [exact F | |]; simpl; apply forallb_of_Forall;
        (eapply Forall_impl; [| exact A]); intros b [Ha Hb]; [exact Ha |].
      now rewrite length_app in Hb.
    + simpl. apply Nat.leb_le. rewrite length_app. lia.
    + simpl. apply Nat.ltb_lt. rewrite !length_app. simpl. lia.
Qed.

(** ** Filling in the configuration parameters *)

Lemma field_agree (l : loc) (h hs : heap) (v : val) (a : string) :
  agree_except l h hs -> v <> VRef l -> field h v a = field hs v a.
Proof.
  intros Ha Hv. unfold field, lookup. destruct v; try reflexivity.
  rewrite Ha; [reflexivity | congruence].
Qed.

Lemma contains_false_field (k : string) (v : val) (h h' : heap) :
  contains (VStr k) v h = (Ok false, h') -> field h v k = None.
Proof.
  unfold contains, field, lookup, bind, deref, lift, ret, raise.
  destruct v; try reflexivity.
  destruct (nth_error h l) as [[d | xs] |]; try reflexivity.
  unfold has_key. destruct (assoc k d); [discriminate | reflexivity].
Qed.

Lemma agree_replace (l : loc) (o : obj) (h hs : heap) :
  agree_except l h hs -> agree_except l (replace_nth l o h) hs.
Proof.
  intros Ha l' Hne. rewrite nth_error_replace_nth_neq by congruence. now apply Ha.
Qed.

Section FillLoop.
Variables (hs : heap) (lcp : loc) (input cfg par : val).
Hypothesis Hpar : par <> VRef lcp.
Hypothesis Hinput : input <> VRef lcp.
Hypothesis Hcfg : cfg <> VRef lcp.
Hypothesis Hcprops :
  forall cprops, field hs cfg "properties" = Some cprops -> cprops <> VRef lcp.
Hypothesis Hdecl :
  forall cprops q decl,
    field hs cfg "properties" = Some cprops -> field hs cprops q = Some decl ->
    decl <> VRef lcp.
Hypothesis Hcp : field hs input "configParameters" = Some (VRef lcp).

(** One turn of the loop writes the chosen value under its key, in the
    generated [configParameters] and nowhere else. *)
Lemma fill_one_effect (p : string) (h h' : heap) (d : list (string * val)) :
  agree_except lcp h hs ->
  nth_error h lcp = Some (ODict d) ->
  fill_one input cfg par p h = (Ok tt, h') ->
  agree_except lcp h' hs
  /\ nth_error h' lcp =
       Some (ODict (match config_choice hs par cfg p with
                    | Some x => dict_set p x d
                    | None => d
                    end)).
Proof.
  intros Ha Hd Hrun. unfold fill_one in Hrun.
  assert (Hwrite : forall x h1,
             (cp <- getitem input "configParameters" ;; setitem cp p x)%py h = (Ok tt, h1) ->
             h1 = replace_nth lcp (ODict (dict_set p x d)) h).
  { intros x h1 Hw. apply bind_ok in Hw. destruct Hw as [cp [ha [Hg Hw]]].
    destruct (getitem_inv _ _ _ _ _ Hg) as [-> Hf]. specialize (Hf cp eq_refl).
    rewrite (field_agree lcp h hs input _ Ha Hinput) in Hf.
    assert (cp = VRef lcp) by congruence. subst cp.
    destruct (setitem_inv _ _ _ _ _ Hw) as [l [d' [[= <-] [Hl ->]]]].
    congruence. }
  assert (Hafter : forall x,
             agree_except lcp (replace_nth lcp (ODict (dict_set p x d)) h) hs
             /\ nth_error (replace_nth lcp (ODict (dict_set p x d)) h) lcp
                = Some (ODict (dict_set p x d))).
  { intros x. split; [now apply agree_replace |].
    apply nth_error_replace_nth_eq. apply nth_error_Some. congruence. }
  apply bind_ok in Hrun. destruct Hrun as [given [ha [Hc Hrun]]].
  pose proof (contains_inv _ _ _ _ _ Hc) as ->.
  destruct given.
  - apply bind_ok in Hrun. destruct Hrun as [x [ha [Hg Hrun]]].
    destruct (getitem_inv _ _ _ _ _ Hg) as [-> Hx]. specialize (Hx x eq_refl).
    rewrite (field_agree lcp h hs par _ Ha Hpar) in Hx.
    rewrite (Hwrite x h' Hrun).
    unfold config_choice. rewrite Hx. apply Hafter.
  - apply contains_false_field in Hc.
    rewrite (field_agree lcp h hs par _ Ha Hpar) in Hc.
    apply bind_ok in Hrun. destruct Hrun as [cprops [ha [Hg Hrun]]].
    destruct (getitem_inv _ _ _ _ _ Hg) as [-> Hcpr]. specialize (Hcpr cprops eq_refl).
    rewrite (field_agree lcp h hs cfg _ Ha Hcfg) in Hcpr. clear Hg.
    apply bind_ok in Hrun. destruct Hrun as [decl [ha [Hg Hrun]]].
    destruct (getitem_inv _ _ _ _ _ Hg) as [-> Hde]. specialize (Hde decl eq_refl).
    rewrite (field_agree lcp h hs cprops _ Ha (Hcprops cprops Hcpr)) in Hde. clear Hg.
    apply bind_ok in Hrun. destruct Hrun as [has_default [ha [Hcd Hrun]]].
    pose proof (contains_inv _ _ _ _ _ Hcd) as ->.
    pose proof (Hdecl cprops p decl Hcpr Hde) as Hdne.
    destruct has_default.
    + apply bind_ok in Hrun. destruct Hrun as [cprops' [ha [Hg Hrun]]].
      destruct (getitem_inv _ _ _ _ _ Hg) as [-> Hcpr']. specialize (Hcpr' cprops' eq_refl).
      rewrite (field_agree lcp h hs cfg _ Ha Hcfg) in Hcpr'. clear Hg.
      assert (cprops' = cprops) by congruence. subst cprops'.
      apply bind_ok in Hrun. destruct Hrun as [decl' [ha [Hg Hrun]]].
      destruct (getitem_inv _ _ _ _ _ Hg) as [-> Hde']. specialize (Hde' decl' eq_refl).
      rewrite (field_agree lcp h hs cprops _ Ha (Hcprops cprops Hcpr)) in Hde'. clear Hg.
      assert (decl' = decl) by congruence. subst decl'.
      apply bind_ok in Hrun. destruct Hrun as [x [ha [Hg Hrun]]].
      destruct (getitem_inv _ _ _ _ _ Hg) as [-> Hx]. specialize (Hx x eq_refl).
      rewrite (field_agree lcp h hs decl _ Ha Hdne) in Hx. clear Hg.
      rewrite (Hwrite x h' Hrun).
      unfold config_choice, declared_default. rewrite Hc, Hcpr, Hde, Hx. apply Hafter.
    + apply contains_false_field in Hcd.
      rewrite (field_agree lcp h hs decl _ Ha Hdne) in Hcd.
      unfold ret in Hrun. injection Hrun as <-.
      unfold config_choice, declared_default. rewrite Hc, Hcpr, Hde, Hcd.
      split; assumption.
Qed.

(** The loop of lines 864-870 over a list of keys. *)
Lemma fill_loop_effect (keys : list string) :
  forall (h h' : heap) (d : list (string * val)),
    agree_except lcp h hs ->
    nth_error h lcp = Some (ODict d) ->
    for_each keys (fill_one input cfg par) h = (Ok tt, h') ->
    agree_except lcp h' hs
    /\ exists d',
         nth_error h' lcp = Some (ODict d')
         /\ forall k v, assoc k d = Some v ->
              assoc k d' =
                Some (if existsb (String.eqb k) keys
                      then match config_choice hs par cfg k with
                           | Some x => x
                           | None => v
                           end
                      else v).
Proof.
  induction keys as [| p keys IH]; intros h h' d Ha Hd Hrun; simpl in Hrun.
  - unfold ret in Hrun. injection Hrun as <-. split; [exact Ha |].
    exists d. split; [exact Hd |]. intros k v Hk. exact Hk.
  - apply bind_ok in Hrun. destruct Hrun as [[] [h1 [H1 Hrun]]].
    destruct (fill_one_effect p h h1 d Ha Hd H1) as [Ha1 Hd1].
    destruct (config_choice hs par cfg p) as [x |] eqn:Ec.
    + destruct (IH h1 h' _ Ha1 Hd1 Hrun) as [Ha' [d' [Hd' Hk']]].
      split; [exact Ha' |]. exists d'. split; [exact Hd' |].
      intros k v Hk. cbn [existsb].
      destruct (String.eqb_spec k p) as [-> | Hne].
      * rewrite (Hk' p x (assoc_dict_set_eq p x d)). rewrite Ec.
        destruct (existsb (String.eqb p) keys); reflexivity.
      * apply Hk'. now rewrite assoc_dict_set_neq.
    + destruct (IH h1 h' _ Ha1 Hd1 Hrun) as [Ha' [d' [Hd' Hk']]].
      split; [exact Ha' |]. exists d'. split; [exact Hd' |].
      intros k v Hk. cbn [existsb].
      destruct (String.eqb_spec k p) as [-> | Hne].
      * rewrite (Hk' p v Hk). rewrite Ec.
        destruct (existsb (String.eqb p) keys); reflexivity.
      * now apply Hk'.
Qed.
End FillLoop.

(** ** Steps that only read *)

Lemma pure_ret {A : Type} (a : A) : pure (ret a).
Proof. intros h r h' [= _ <-]. reflexivity. Qed.

Lemma pure_raise {A : Type} (e : exn) : pure (@raise A e).
Proof. intros h r h' [= _ <-]. reflexivity. Qed.

Lemma pure_lift {A : Type} (x : res A) : pure (lift x).
Proof. intros h r h' [= _ <-]. reflexivity. Qed.

Lemma pure_bind {A B : Type} (c : M A) (k : A -> M B) :
  pure c -> (forall a, pure (k a)) -> pure (bind c k).
Proof.
  intros Hc Hk h r h'. unfold bind. destruct (c h) as [[a | e] h1] eqn:E.
  - intros H. apply Hk in H. apply Hc in E. congruence.
  - intros [= _ <-]. now apply Hc in E.
Qed.

Lemma pure_getitem (v : val) (k : string) : pure (getitem v k).
Proof. intros h r h' H. now destruct (getitem_inv _ _ _ _ _ H). Qed.

Lemma pure_contains (x v : val) : pure (contains x v).
Proof. intros h r h' H. exact (contains_inv _ _ _ _ _ H). Qed.

Lemma pure_deref (v : val) : pure (deref v).
Proof.
  intros h r h'. unfold deref. destruct v; try (now intros [= _ <-]).
  destruct (nth_error h l); now intros [= _ <-].
Qed.

Lemma pure_iterate (v : val) : pure (iterate v).
Proof.
  unfold iterate. destruct v; try apply pure_raise; try apply pure_ret.
  apply pure_bind; [apply pure_deref |]. intros [l' o]. destruct o; apply pure_ret.
Qed.

Lemma pure_iterate_keys (v : val) : pure (iterate_keys v).
Proof.
  unfold iterate_keys. destruct v; try apply pure_raise; try apply pure_ret.
  apply pure_bind; [apply pure_deref |]. intros [l' o].
  destruct o; [apply pure_ret | apply pure_raise].
Qed.

Lemma pure_getfirst (v : val) : pure (getfirst v).
Proof.
  unfold getfirst. destruct v; try apply pure_raise.
  - destruct s; [apply pure_raise | apply pure_ret].
  - apply pure_bind; [apply pure_deref |]. intros [l' o].
    destruct o as [d | [| x xs]]; try apply pure_raise; apply pure_ret.
Qed.

Lemma pure_add_str (a : val) (b : string) : pure (add_str a b).
Proof. unfold add_str. destruct a; try apply pure_raise; apply pure_ret. Qed.

Lemma pure_map_each {A B : Type} (xs : list A) (f : A -> M B) :
  (forall x, pure (f x)) -> pure (map_each xs f).
Proof.
  intros Hf. induction xs as [| x xs IH]; simpl; [apply pure_ret |].
  apply pure_bind; [apply Hf |]. intros y.
  apply pure_bind; [exact IH |]. intros ys. apply pure_ret.
Qed.

Lemma pure_all_of {A : Type} (xs : list A) (f : A -> M bool) :
  (forall x, pure (f x)) -> pure (all_of xs f).
Proof.
  intros Hf. induction xs as [| x xs IH]; simpl; [apply pure_ret |].
  apply pure_bind; [apply Hf |]. intros [|]; [exact IH | apply pure_ret].
Qed.

Lemma bind_pure_ok {A B : Type} (c : M A) (k : A -> M B) (h h' : heap) (b : B) :
  pure c -> bind c k h = (Ok b, h') ->
  exists a, c h = (Ok a, h) /\ k a h = (Ok b, h').
Proof.
  intros Hp H. apply bind_ok in H. destruct H as [a [h1 [Hc Hk]]].
  pose proof (Hp _ _ _ Hc) as ->. now exists a.
Qed.

Lemma weather_requirements_pure (model : val) : pure (weather_requirements model).
Proof.
  unfold weather_requirements.
  apply pure_bind; [apply pure_getitem | intros inp].
  apply pure_bind; [apply pure_getitem | intros wp].
  destruct wp; try apply pure_ret;
    (apply pure_bind; [apply pure_getitem | intros inp']);
    (apply pure_bind; [apply pure_getitem | intros wp']);
    (apply pure_bind; [apply pure_iterate | intros items]);
    (apply pure_bind; [apply pure_map_each; intros x; apply pure_getitem | intros req]);
    (apply pure_bind; [apply pure_getitem | intros inp'']);
    (apply pure_bind; [apply pure_getitem | intros wp'']);
    (apply pure_bind; [apply pure_getfirst | intros first]);
    (apply pure_bind; [apply pure_getitem | intros iv]);
    apply pure_ret.
Qed.

(** ** What the last two steps write *)

Lemma check_and_set_weather_effect (prefix : string) (input weather_data : val)
    (required : list val) (interval : val) (h h' : heap) :
  check_and_set_weather prefix input weather_data required interval h = (Ok tt, h') ->
  exists l d, input = VRef l /\ nth_error h l = Some (ODict d)
              /\ h' = replace_nth l (ODict (dict_set "weatherData" weather_data d)) h.
Proof.
  unfold check_and_set_weather. intros Hrun.
  apply bind_pure_ok in Hrun;
    [| apply pure_all_of; intros code;
       apply pure_bind; [apply pure_getitem | intros w; apply pure_contains]].
  destruct Hrun as [ok [_ Hrun]].
  apply bind_pure_ok in Hrun.
  2:{ destruct ok; [apply pure_ret |].
      apply pure_bind; [apply pure_getitem | intros w].
      apply pure_bind; [apply pure_iterate | intros have].
      apply pure_bind; [apply pure_lift | intros missing]. apply pure_raise. }
  destruct Hrun as [[] [_ Hrun]].
  apply bind_pure_ok in Hrun; [| apply pure_getitem].
  destruct Hrun as [wi [_ Hrun]].
  apply bind_pure_ok in Hrun; [| apply pure_lift].
  destruct Hrun as [same [_ Hrun]].
  apply bind_pure_ok in Hrun; [| destruct same; [apply pure_ret | apply pure_raise]].
  destruct Hrun as [[] [_ Hrun]].
  exact (setitem_inv _ _ _ _ _ Hrun).
Qed.

Lemma add_weather_effect (model schema input weather_data : val)
    (required : list val) (interval : val) (h h' : heap) :
  add_weather model schema input weather_data required interval h = (Ok tt, h') ->
  h' = h
  \/ exists l d, input = VRef l /\ nth_error h l = Some (ODict d)
                 /\ h' = replace_nth l (ODict (dict_set "weatherData" weather_data d)) h.
Proof.
  unfold add_weather. intros Hrun.
  apply bind_pure_ok in Hrun; [| apply pure_contains].
  destruct Hrun as [present [_ Hrun]].
  destruct present.
  - destruct weather_data;
      try (right; exact (check_and_set_weather_effect _ _ _ _ _ _ _ Hrun)).
    apply bind_pure_ok in Hrun; [| apply pure_getitem].
    destruct Hrun as [id [_ Hrun]].
    apply bind_pure_ok in Hrun; [| apply pure_add_str].
    destruct Hrun as [msg [_ Hrun]]. discriminate.
  - destruct weather_data;
      try (apply bind_pure_ok in Hrun; [| apply pure_getitem];
           destruct Hrun as [props [_ Hrun]];
           apply bind_pure_ok in Hrun; [| apply pure_contains];
           destruct Hrun as [declared [_ Hrun]];
           destruct declared;
           [right; exact (check_and_set_weather_effect _ _ _ _ _ _ _ Hrun)
           | left; unfold ret in Hrun; now injection Hrun as <-]).
    left. unfold ret in Hrun. now injection Hrun as <-.
Qed.

Lemma add_fieldob_effect (model input cfg : val) (p : string) (pvalue : val)
    (h h' : heap) :
  add_fieldob model input cfg p pvalue h = (Ok tt, h') ->
  h' = h
  \/ exists l d, field h input "configParameters" = Some (VRef l)
                 /\ nth_error h l = Some (ODict d)
                 /\ h' = replace_nth l (ODict (dict_set p pvalue d)) h.
Proof.
  unfold add_fieldob. intros Hrun.
  assert (Hset : forall h1,
             (cp <- getitem input "configParameters" ;; setitem cp p pvalue)%py h = (Ok tt, h1) ->
             exists l d, field h input "configParameters" = Some (VRef l)
                         /\ nth_error h l = Some (ODict d)
                         /\ h1 = replace_nth l (ODict (dict_set p pvalue d)) h).
  { intros h1 Hw. apply bind_ok in Hw. destruct Hw as [cp [ha [Hg Hw]]].
    destruct (getitem_inv _ _ _ _ _ Hg) as [-> Hf]. specialize (Hf cp eq_refl).
    destruct (setitem_inv _ _ _ _ _ Hw) as [l [d [-> [Hl ->]]]].
    now exists l, d. }
  apply bind_pure_ok in Hrun; [| apply pure_getitem].
  destruct Hrun as [cp [_ Hrun]].
  apply bind_pure_ok in Hrun; [| apply pure_contains].
  destruct Hrun as [present [_ Hrun]].
  destruct present.
  - apply bind_pure_ok in Hrun.
    2:{ destruct pvalue; try apply pure_ret.
        apply pure_bind; [apply pure_getitem | intros id].
        apply pure_bind; [apply pure_add_str | intros msg]. apply pure_raise. }
    destruct Hrun as [[] [_ Hrun]]. right. now apply Hset.
  - destruct pvalue;
      try (apply bind_pure_ok in Hrun; [| apply pure_getitem];
           destruct Hrun as [cprops [_ Hrun]];
           apply bind_pure_ok in Hrun; [| apply pure_contains];
           destruct Hrun as [declared [_ Hrun]];
           destruct declared;
           [right; now apply Hset
           | left; unfold ret in Hrun; now injection Hrun as <-]).
    left. unfold ret in Hrun. now injection Hrun as <-.
Qed.

(** ** Overrides, defaults, generated values *)

Lemma field_app_below (h ext : heap) (v : val) (a : string) :
  val_below (List.length h) v = true -> field (h ++ ext)%list v a = field h v a.
Proof.
  intros Hv. unfold field, lookup. destruct v; try reflexivity.
  simpl in Hv. apply Nat.ltb_lt in Hv. now rewrite nth_error_app1.
Qed.

Lemma existsb_keys (k : string) (d : list (string * val)) (v : val) :
  assoc k d = Some v -> existsb (String.eqb k) (map fst d) = true.
Proof.
  induction d as [| [k' v'] d IH]; simpl; [discriminate |].
  destruct (String.eqb k k'); [reflexivity | exact IH].
Qed.

Lemma below_ne (B lcp : nat) (v : val) :
  val_below B v = true -> (B <= lcp)%nat -> v <> VRef lcp.
Proof.
  intros Hv Hle ->. simpl in Hv. apply Nat.ltb_lt in Hv. lia.
Qed.

(** Lines 860-870 on a generated document whose [configParameters] is the
    dict at [lcp], a new object, while the caller's parameters and the
    schema are objects below [B]. *)
Lemma fill_config_effect (h2 h3 : heap) (B li lcp : nat) (cfg parameters : val)
    (dcp : list (string * val)) :
  (B <= lcp)%nat -> (lcp < li)%nat -> (li < List.length h2)%nat ->
  val_below B parameters = true ->
  val_below B cfg = true ->
  (forall v a x, val_below B v = true -> field h2 v a = Some x -> val_below B x = true) ->
  field h2 (VRef li) "configParameters" = Some (VRef lcp) ->
  nth_error h2 lcp = Some (ODict dcp) ->
  fill_config (VRef li) cfg parameters h2 = (Ok tt, h3) ->
  field h3 (VRef li) "configParameters" = Some (VRef lcp)
  /\ exists d3,
       nth_error h3 lcp = Some (ODict d3)
       /\ forall k v, assoc k dcp = Some v ->
            assoc k d3 = Some (match config_choice h2 parameters cfg k with
                               | Some x => x
                               | None => v
                               end).
Proof.
  intros HB Hlt Hli Hpar Hcfg Hcl Hcp Hd Hrun. unfold fill_config in Hrun.
  apply bind_ok in Hrun. destruct Hrun as [par [hs [Hp Hrun]]].
  assert (Hs : exists extp, hs = (h2 ++ extp)%list /\ par <> VRef lcp
                            /\ forall k, field hs par k = field h2 parameters k).
  { destruct parameters;
      try (unfold ret in Hp; injection Hp as <- <-; exists []; rewrite app_nil_r;
           split; [reflexivity | split; [| reflexivity]];
           first [discriminate | now apply (below_ne B)]).
    unfold alloc in Hp. injection Hp as <- <-. exists [ODict []].
    split; [reflexivity |]. split; [intros [= E]; lia |].
    intros k. unfold field, lookup.
    rewrite nth_error_app2 by lia. now rewrite Nat.sub_diag. }
  destruct Hs as [extp [-> [Hparne Hparf]]].
  assert (Hlen : (B <= List.length h2)%nat) by lia.
  assert (Hcp' : field (h2 ++ extp)%list (VRef li) "configParameters" = Some (VRef lcp)).
  { rewrite field_app_below; [exact Hcp | simpl; now apply Nat.ltb_lt]. }
  assert (Hd' : nth_error (h2 ++ extp)%list lcp = Some (ODict dcp)).
  { rewrite nth_error_app1 by lia. exact Hd. }
  destruct (field_lookup _ _ _ _ Hcp') as [di [Hldi Hadi]].
  rewrite (run_bind _ _ _ _ _ (contains_key _ _ "configParameters" _ Hldi)) in Hrun.
  unfold has_key in Hrun. rewrite Hadi in Hrun.
  rewrite (run_bind _ _ _ _ _ (getitem_field _ _ _ _ Hcp')) in Hrun.
  assert (Hit : iterate_keys (VRef lcp) (h2 ++ extp)%list
                = (Ok (map fst dcp), (h2 ++ extp)%list)).
  { unfold iterate_keys, bind, deref, ret. now rewrite Hd'. }
  rewrite (run_bind _ _ _ _ _ Hit) in Hrun.
  assert (Hbelow : forall v, val_below B v = true ->
                             val_below (List.length h2) v = true).
  { intros v Hv. now apply (val_below_mono B). }
  assert (Hcprops : forall cprops,
             field (h2 ++ extp)%list cfg "properties" = Some cprops ->
             val_below B cprops = true).
  { intros cprops Hf. rewrite field_app_below in Hf by now apply Hbelow.
    exact (Hcl _ _ _ Hcfg Hf). }
  assert (Hdecl : forall cprops q decl,
             field (h2 ++ extp)%list cfg "properties" = Some cprops ->
             field (h2 ++ extp)%list cprops q = Some decl ->
             val_below B decl = true).
  { intros cprops q decl Hf Hq. pose proof (Hcprops _ Hf) as Hb.
    rewrite field_app_below in Hq by now apply Hbelow.
    exact (Hcl _ _ _ Hb Hq). }
  destruct (fill_loop_effect (h2 ++ extp)%list lcp (VRef li) cfg par
              Hparne ltac:(intros [= E]; lia) (below_ne B lcp cfg Hcfg HB)
              (fun cprops Hf => below_ne B lcp cprops (Hcprops cprops Hf) HB)
              (fun cprops q decl Hf Hq =>
                 below_ne B lcp decl (Hdecl cprops q decl Hf Hq) HB)
              Hcp' (map fst dcp) (h2 ++ extp)%list h3 dcp
              (fun l' _ => eq_refl) Hd' Hrun)
    as [Ha [d3 [Hd3 Hk]]].
  split.
  - rewrite (field_agree lcp h3 (h2 ++ extp)%list (VRef li) _ Ha); [exact Hcp' |].
    intros [= E]. lia.
  - exists d3. split; [exact Hd3 |].
    intros k v Hkv. rewrite (Hk k v Hkv). rewrite (existsb_keys k dcp v Hkv).
    assert (Hch : config_choice (h2 ++ extp)%list par cfg k
                  = config_choice h2 parameters cfg k).
    { unfold config_choice, declared_default. rewrite Hparf.
      rewrite (field_app_below h2 extp cfg) by now apply Hbelow.
      destruct (field h2 cfg "properties") as [cprops |] eqn:E1; [| reflexivity].
      pose proof (Hcl _ _ _ Hcfg E1) as Hb1.
      rewrite (field_app_below h2 extp cprops) by now apply Hbelow.
      destruct (field h2 cprops k) as [decl |] eqn:E2; [| reflexivity].
      pose proof (Hcl _ _ _ Hb1 E2) as Hb2.
      rewrite (field_app_below h2 extp decl) by now apply Hbelow.
      reflexivity. }
    now rewrite Hch.
Qed.

(** The generated document is a new object whose parts are new objects
    older than itself. *)
Lemma generate_fresh (jsf : json -> res json) (schema input : val) (h1 h2 : heap) :
  generate jsf schema h1 = (Ok input, h2) ->
  exists ext, h2 = (h1 ++ ext)%list /\ fresh_ext h1 ext /\ allocated h1 h2 input.
Proof.
  unfold generate. intros Hrun.
  apply bind_ok in Hrun. destruct Hrun as [doc [ha [Hs Hrun]]].
  assert (ha = h1).
  { unfold snapshot in Hs. destruct (reify (S (List.length h1)) h1 schema);
      now injection Hs as _ <-. }
  subst ha.
  apply bind_pure_ok in Hrun; [| apply pure_lift].
  destruct Hrun as [fake [_ Hrun]].
  unfold new_json in Hrun. destruct (alloc_json fake h1) as [v h'] eqn:E.
  injection Hrun as <- <-. now apply alloc_json_fresh with fake.
Qed.

Lemma fresh_field (h1 ext : heap) (li : nat) (a : string) (x : val) :
  fresh_ext h1 ext ->
  (List.length h1 <= li)%nat ->
  field (h1 ++ ext)%list (VRef li) a = Some x ->
  val_from (List.length h1) x = true /\ val_below li x = true.
Proof.
  intros F Hle Hf. destruct (field_ref _ _ _ _ Hf) as [l [d [[= <-] [Hl Ha]]]].
  rewrite nth_error_app2 in Hl by exact Hle.
  destruct (F _ _ Hl) as [H1 H2].
  replace (List.length h1 + (li - List.length h1))%nat with li in H2 by lia.
  split; [exact (obj_from_assoc _ d a x H1 Ha) | exact (obj_below_assoc _ d a x H2 Ha)].
Qed.

Lemma config_slot_add_weather (model schema weather_data : val)
    (required : list val) (interval : val) (h h' : heap)
    (li lcp : nat) (k : string) (x : val) :
  li <> lcp ->
  config_slot h (VRef li) lcp k x ->
  add_weather model schema (VRef li) weather_data required interval h = (Ok tt, h') ->
  config_slot h' (VRef li) lcp k x.
Proof.
  intros Hne [Hcp [d [Hd Hk]]] Hrun.
  destruct (add_weather_effect _ _ _ _ _ _ _ _ Hrun) as [-> | [l [di [[= <-] [Hl ->]]]]].
  - split; [exact Hcp | now exists d].
  - split.
    + unfold field, lookup in *. rewrite Hl in Hcp.
      rewrite nth_error_replace_nth_eq by (apply nth_error_Some; congruence).
      rewrite assoc_dict_set_neq by discriminate. exact Hcp.
    + exists d. split; [| exact Hk].
      now rewrite nth_error_replace_nth_neq.
Qed.

Lemma config_slot_add_fieldob (model cfg pvalue : val) (p : string) (h h' : heap)
    (li lcp : nat) (k : string) (x : val) :
  li <> lcp -> k <> p ->
  config_slot h (VRef li) lcp k x ->
  add_fieldob model (VRef li) cfg p pvalue h = (Ok tt, h') ->
  config_slot h' (VRef li) lcp k x.
Proof.
  intros Hne Hkp [Hcp [d [Hd Hk]]] Hrun.
  destruct (add_fieldob_effect _ _ _ _ _ _ _ Hrun) as [-> | [l [d' [Hf [Hl ->]]]]].
  - split; [exact Hcp | now exists d].
  - assert (l = lcp) by congruence. subst l.
    assert (d' = d) by congruence. subst d'.
    split.
    + unfold field, lookup in *.
      rewrite nth_error_replace_nth_neq by congruence. exact Hcp.
    + exists (dict_set p pvalue d). split.
      * apply nth_error_replace_nth_eq. apply nth_error_Some. congruence.
      * now rewrite assoc_dict_set_neq.
Qed.

(** C4, as the code has it: for a key of the generated [configParameters]
    other than the two field-observation properties, a call that returns,
    made from a closed store with the caller's parameters in it, leaves
    under the key the caller's parameter if the parameters hold the key,
    else the default the schema declares for the key if it declares one,
    else the generated value; in particular the caller's parameter wins
    over a declared default. *)
Theorem config_parameter_priority
    (jsf : json -> res json) (h0 h1 h2 hf : heap)
    (model parameters weather_data fo foq schema cfg input r cp : val)
    (k : string) (fake : val) :
  closed h0 = true ->
  val_below (List.length h0) parameters = true ->
  prepare_schema model h0 = (Ok (schema, cfg), h1) ->
  generate jsf schema h1 = (Ok input, h2) ->
  field h2 input "configParameters" = Some cp ->
  field h2 cp k = Some fake ->
  ~ In k fieldobs ->
  model_input jsf model parameters weather_data fo foq h0 = (Ok r, hf) ->
  r = input
  /\ field hf cp k =
       Some (match field h2 parameters k with
             | Some x => x
             | None =>
                 match declared_default h2 cfg k with
                 | Some d => d
                 | None => fake
                 end
             end)
  /\ forall x, field h2 parameters k = Some x -> field hf cp k = Some x.
Proof.
  intros Hc Hpar H1 H2 Hcp Hk Hnf Hrun.
  destruct (prepare_schema_grows _ _ _ _ _ H1) as [Hlen Hcl]. specialize (Hcl Hc).
  destruct (prepare_schema_effect _ _ _ _ _ H1)
    as [ex [orig [props [cprops [_ [_ [_ [_ [_ [Hcfgf _]]]]]]]]]].
  pose proof (closed_field _ _ _ _ Hcl Hcfgf) as Hcfg.
  destruct (generate_fresh _ _ _ _ _ H2) as [ext [-> [F [Hfrom Hbel]]]].
  destruct (field_ref _ _ _ _ Hcp) as [li [di [-> [Hli Hadi]]]].
  simpl in Hfrom, Hbel. apply Nat.leb_le in Hfrom. apply Nat.ltb_lt in Hbel.
  destruct (fresh_field _ _ _ _ _ F Hfrom Hcp) as [Hcpfrom Hcpbel].
  destruct (field_ref _ _ _ _ Hk) as [lcp [dcp [-> [Hlcp Hadcp]]]].
  simpl in Hcpfrom, Hcpbel. apply Nat.leb_le in Hcpfrom. apply Nat.ltb_lt in Hcpbel.
  assert (Hclb : forall v a x,
             val_below (List.length h1) v = true ->
             field (h1 ++ ext)%list v a = Some x ->
             val_below (List.length h1) x = true).
  { intros v a x Hv Hf. rewrite field_app_below in Hf by exact Hv.
    exact (closed_field _ _ _ _ Hcl Hf). }
  unfold model_input in Hrun.
  rewrite (run_bind _ _ _ _ _ H1) in Hrun. cbv beta iota in Hrun.
  rewrite (run_bind _ _ _ _ _ H2) in Hrun.
  apply bind_ok in Hrun. destruct Hrun as [[] [h3 [H3 Hrun]]].
  destruct (fill_config_effect _ _ (List.length h1) li lcp cfg parameters dcp
              Hcpfrom Hcpbel Hbel
              (val_below_mono _ _ _ Hlen Hpar) Hcfg Hclb Hcp Hlcp H3)
    as [Hcp3 [d3 [Hd3 Hk3]]].
  apply bind_pure_ok in Hrun; [| apply weather_requirements_pure].
  destruct Hrun as [[required interval] [_ Hrun]].
  apply bind_ok in Hrun. destruct Hrun as [[] [h4 [H4 Hrun]]].
  apply bind_ok in Hrun. destruct Hrun as [[] [h5 [H5 Hrun]]].
  unfold ret in Hrun. injection Hrun as <- <-.
  unfold add_fieldobs, fieldobs in H5. cbn [combine for_each] in H5.
  apply bind_ok in H5. destruct H5 as [[] [h4a [Hfo H5]]].
  apply bind_ok in H5. destruct H5 as [[] [h4b [Hfoq H5]]].
  unfold ret in H5. injection H5 as <-.
  assert (Hne : li <> lcp) by lia.
  assert (Hslot : config_slot h4b (VRef li) lcp k
                    (match config_choice (h1 ++ ext)%list parameters cfg k with
                     | Some x => x
                     | None => fake
                     end)).
  { apply (config_slot_add_fieldob model cfg foq "fieldObservationQuantifications"
             h4a h4b li lcp k _ Hne).
    { intros ->. apply Hnf. unfold fieldobs. simpl. tauto. }
    2: exact Hfoq.
    apply (config_slot_add_fieldob model cfg fo "fieldObservations"
             h4 h4a li lcp k _ Hne).
    { intros ->. apply Hnf. unfold fieldobs. simpl. tauto. }
    2: exact Hfo.
    apply (config_slot_add_weather model (VRef (List.length h0)) weather_data
             required interval h3 h4 li lcp k _ Hne).
    2:{ destruct (prepare_schema_effect _ _ _ _ _ H1)
          as [_ [_ [_ [_ [_ [_ [_ [Es _]]]]]]]].
        rewrite <- Es. exact H4. }
    split; [exact Hcp3 |]. exists d3. split; [exact Hd3 | now apply Hk3]. }
  destruct Hslot as [_ [d [Hd Hkd]]].
  assert (Hres : field h4b (VRef lcp) k =
                 Some (match config_choice (h1 ++ ext)%list parameters cfg k with
                       | Some x => x
                       | None => fake
                       end)).
  { unfold field, lookup. now rewrite Hd. }
  split; [reflexivity |]. split.
  - rewrite Hres. unfold config_choice.
    destruct (field (h1 ++ ext)%list parameters k); [reflexivity |].
    destruct (declared_default (h1 ++ ext)%list cfg k); reflexivity.
  - intros x Hx. rewrite Hres. unfold config_choice. now rewrite Hx.
Qed.

Lemma config_parameter_priority_witness :
  exists hf r cp,
    model_input full_fake (example_arg 0) (example_arg 1) (example_arg 2)
      (example_arg 3) (example_arg 4) (snd example_args_store) = (Ok r, hf)
    /\ field hf r "configParameters" = Some cp
    /\ field hf cp "timeZone" = Some (VStr "Europe/Paris").
Proof.
  eexists. eexists. eexists.
  split; [vm_compute; reflexivity |].
  split; [vm_compute; reflexivity |].
  unshelve eapply (proj2 (proj2
             (config_parameter_priority full_fake (snd example_args_store) _ _ _
                (example_arg 0) (example_arg 1) (example_arg 2)
                (example_arg 3) (example_arg 4) _ _ _ _ _ "timeZone" _
                _ _ _ _ _ _ _ _)) _ _);
    try solve [vm_compute; reflexivity].
  intros [H | [H | []]]; discriminate.
Defined.

(** With [fieldObservations] both among the caller's parameters and given
    as field observations, the composed value under that key is the field
    observations, not the caller's parameter. *)
Lemma config_parameter_priority_counterexample :
  (s <- full_fake JNull ;; jpath s ["configParameters"; "fieldObservations"])%res
  = Ok (JStr "{fieldObservations}")
  /\ (r <- fst (call_model_input full_fake example_model
                  (Some (JDict [("fieldObservations", JStr "from parameters")]))
                  (Some (example_weather 3600)) (Some (JList [])) (Some (JList []))) ;;
      jpath r ["configParameters"; "fieldObservations"])%res
     = Ok (JList [])
  /\ JList [] <> JStr "from parameters".
Proof.
  split; [vm_compute; reflexivity |].
  split; [vm_compute; reflexivity | discriminate].
Qed.

(** * Further properties of the builders *)

(** ** What a builder returns, read backwards *)

Lemma rbind_ok {A B : Type} (c : res A) (k : A -> res B) (b : B) :
  rbind c k = Ok b -> exists a, c = Ok a /\ k a = Ok b.
Proof. destruct c as [a | e]; simpl; [eauto | discriminate]. Qed.

(** The observation builder returns only the dict of its resolved parts. *)
Lemma observation_params_inv (E : environ) (source : json) (kw : kwargs)
    (params : list (string * json)) :
  weatheradapter_observation_params E source kw = Ok params ->
  exists iv codes ts te w sid,
    resolve_interval source (kwarg kw "interval" JNull) = Ok iv
    /\ resolve_codes source (kwarg kw "parameters" JNull) = Ok codes
    /\ observation_window E source (kwarg kw "timeStart" JNull) (kwarg kw "timeEnd" JNull)
       = Ok (ts, te)
    /\ (if is_none (kwarg kw "weatherStationId" JNull)
        then default_station_id source
        else Ok (kwarg kw "weatherStationId" JNull)) = Ok w
    /\ jget source "id" = Ok sid
    /\ params =
         ([("interval", iv); ("parameters", JStr codes); ("timeStart", ts);
           ("timeEnd", te); ("weatherStationId", w)]
          ++ if jeq_str sid "fi.fmi.observation.station"
             then [("ignoreErrors", kwarg kw "ignoreErrors" (JBool true))]
             else [])%list.
Proof.
  intros H. unfold weatheradapter_observation_params in H.
  apply rbind_ok in H. destruct H as [iv [Hi H]].
  apply rbind_ok in H. destruct H as [codes [Hc H]].
  apply rbind_ok in H. destruct H as [[ts te] [Hw H]].
  apply rbind_ok in H. destruct H as [w [Hs H]].
  apply rbind_ok in H. destruct H as [sid [Hid H]].
  exists iv, codes, ts, te, w, sid.
  repeat (split; [assumption |]).
  rewrite kwarg_rest_kwargs in H by reflexivity.
  destruct (jeq_str sid "fi.fmi.observation.station"); injection H as <-; reflexivity.
Qed.

(** X1: when [interval], [parameters], [timeStart], [timeEnd] and
    [weatherStationId] are all given, the observation builder reads nothing
    of the source but its ['id'], and nothing of the clock or the time
    zone: two calls on sources with the same id have the same outcome. What
    is given is returned as it is, the codes joined by commas: no timestamp
    is parsed and no station id is converted to an integer. *)
Theorem observation_overrides_verbatim
    (E E' : environ) (source source' : json) (kw : kwargs) :
  is_none (kwarg kw "interval" JNull) = false ->
  is_none (kwarg kw "parameters" JNull) = false ->
  is_none (kwarg kw "timeStart" JNull) = false ->
  is_none (kwarg kw "timeEnd" JNull) = false ->
  is_none (kwarg kw "weatherStationId" JNull) = false ->
  jget source "id" = jget source' "id" ->
  weatheradapter_observation_params E source kw
  = weatheradapter_observation_params E' source' kw
  /\ forall codes sid,
       join_codes (kwarg kw "parameters" JNull) = Ok codes ->
       jget source "id" = Ok sid ->
       weatheradapter_observation_params E source kw =
         Ok ([("interval", kwarg kw "interval" JNull);
              ("parameters", JStr codes);
              ("timeStart", kwarg kw "timeStart" JNull);
              ("timeEnd", kwarg kw "timeEnd" JNull);
              ("weatherStationId", kwarg kw "weatherStationId" JNull)]
             ++ if jeq_str sid "fi.fmi.observation.station"
                then [("ignoreErrors", kwarg kw "ignoreErrors" (JBool true))]
                else [])%list.
Proof.
  intros Hi Hp Hs He Hw Hid.
  assert (Hrun : forall E0 src,
             weatheradapter_observation_params E0 src kw =
               (codes <- join_codes (kwarg kw "parameters" JNull) ;;
                id <- jget src "id" ;;
                Ok ([("interval", kwarg kw "interval" JNull);
                     ("parameters", JStr codes);
                     ("timeStart", kwarg kw "timeStart" JNull);
                     ("timeEnd", kwarg kw "timeEnd" JNull);
                     ("weatherStationId", kwarg kw "weatherStationId" JNull)]
                    ++ if jeq_str id "fi.fmi.observation.station"
                       then [("ignoreErrors", kwarg kw "ignoreErrors" (JBool true))]
                       else [])%list)%res).
  { intros E0 src.
    unfold weatheradapter_observation_params, resolve_interval, resolve_codes,
      observation_window.
    rewrite Hi, Hp, Hs, He, Hw. cbn [rbind].
    destruct (join_codes (kwarg kw "parameters" JNull)) as [codes | e]; [| reflexivity].
    cbn [rbind].
    destruct (jget src "id") as [sid | e]; [| reflexivity].
    cbn [rbind]. rewrite kwarg_rest_kwargs by reflexivity.
    destruct (jeq_str sid "fi.fmi.observation.station"); reflexivity. }
  split.
  - rewrite (Hrun E source), (Hrun E' source'), Hid. reflexivity.
  - intros codes sid Hc Hsid. rewrite (Hrun E source), Hc, Hsid. reflexivity.
Qed.

Lemma observation_overrides_verbatim_witness :
  weatheradapter_observation_params eet_env (JDict [("id", JStr "se.smhi")]) example_overrides
  = Ok [("interval", JInt 600);
        ("parameters", JStr "1002,RR");
        ("timeStart", JStr "yesterday");
        ("timeEnd", JStr "2020-06-12T00:00:00+03:00");
        ("weatherStationId", JStr "101004")].
Proof.
  exact (proj2 (observation_overrides_verbatim eet_env utc_env
                  (JDict [("id", JStr "se.smhi")]) (JDict [("id", JStr "se.smhi")])
                  example_overrides eq_refl eq_refl eq_refl eq_refl eq_refl eq_refl)
           "1002,RR" (JStr "se.smhi") eq_refl eq_refl).
Defined.

(** X2: a call that gives [timeEnd] and leaves [timeStart] to its default
    returns, when the day after the source's historic start converts to
    local time: [timeStart] is the local-time ISO form of that day, and
    [timeEnd] is the value given, as it is; it is neither parsed nor
    compared with the start. *)
Theorem observation_timeEnd_alone
    (E : environ) (source : json) (kw : kwargs) (iv : json) (codes : string)
    (t hist hs : json) (d start a : datetime) (w sid : json) :
  resolve_interval source (kwarg kw "interval" JNull) = Ok iv ->
  resolve_codes source (kwarg kw "parameters" JNull) = Ok codes ->
  is_none (kwarg kw "timeStart" JNull) = true ->
  is_none (kwarg kw "timeEnd" JNull) = false ->
  jget source "temporal" = Ok t ->
  jget t "historic" = Ok hist ->
  jget hist "start" = Ok hs ->
  fromisoformat hs = Ok d ->
  add_days d 1 = Ok start ->
  astimezone E start = Ok a ->
  (if is_none (kwarg kw "weatherStationId" JNull)
   then default_station_id source
   else Ok (kwarg kw "weatherStationId" JNull)) = Ok w ->
  jget source "id" = Ok sid ->
  weatheradapter_observation_params E source kw =
    Ok ([("interval", iv); ("parameters", JStr codes);
         ("timeStart", JStr (isoformat a));
         ("timeEnd", kwarg kw "timeEnd" JNull);
         ("weatherStationId", w)]
        ++ if jeq_str sid "fi.fmi.observation.station"
           then [("ignoreErrors", kwarg kw "ignoreErrors" (JBool true))]
           else [])%list.
Proof.
  intros Hi Hc Hs He Ht Hh Hst Hd Hadd Ha Hw Hid.
  apply (observation_params_resolved E source kw iv codes
           (JStr (isoformat a)) (kwarg kw "timeEnd" JNull) w sid Hi Hc); try assumption.
  unfold observation_window. rewrite Hs, He, Ht. cbn [rbind].
  rewrite Hh. cbn [rbind]. rewrite Hst. cbn [rbind]. rewrite Hd. cbn [rbind].
  rewrite Hadd. cbn [rbind]. rewrite Ha. reflexivity.
Qed.

Lemma observation_timeEnd_alone_witness :
  weatheradapter_observation_params eet_env example_station_source_full
    [("timeEnd", JStr "1999-12-31T00:00:00+00:00")]
  = Ok [("interval", JInt 3600);
        ("parameters", JStr "TM");
        ("timeStart", JStr "2020-01-02T02:00:00+02:00");
        ("timeEnd", JStr "1999-12-31T00:00:00+00:00");
        ("weatherStationId", JInt 101004);
        ("ignoreErrors", JBool true)].
Proof.
  eapply eq_trans.
  - eapply (observation_timeEnd_alone eet_env example_station_source_full
              [("timeEnd", JStr "1999-12-31T00:00:00+00:00")]);
      solve [vm_compute; reflexivity].
  - vm_compute. reflexivity.
Defined.

Lemma mapM_py_str_strings (ss : list string) : mapM py_str (map JStr ss) = Ok ss.
Proof.
  induction ss as [| s ss IH]; simpl; [reflexivity |]. rewrite IH. reflexivity.
Qed.

Lemma join_codes_string (s : string) :
  join_codes (JStr s) = Ok (String.concat "," (chars s)).
Proof.
  unfold join_codes. cbn [py_iter rbind]. rewrite mapM_py_str_strings. reflexivity.
Qed.

Lemma forecast_params_inv (E : environ) (source : json) (kw : kwargs)
    (params : list (string * json)) :
  weatheradapter_forecast_params E source kw = Ok params ->
  exists iv codes sid,
    resolve_interval source (kwarg kw "interval" JNull) = Ok iv
    /\ resolve_codes source (kwarg kw "parameters" JNull) = Ok codes
    /\ jget source "id" = Ok sid
    /\ exists window,
         params =
           ([("latitude", kwarg kw "latitude" (JFloat 67.2828));
             ("longitude", kwarg kw "longitude" (JFloat 14.3711))]
            ++ (if jeq_str sid "fi.fmi.forecast.location" then []
                else [("altitude", kwarg kw "altitude" (JInt 0))])
            ++ [("interval", iv); ("parameters", JStr codes)]
            ++ window)%list
         /\ if jeq_str sid "dk.dmi.pointweather" || jeq_str sid "se.slu.lantmet"
            then has_key "timeStart" kw = false
                 /\ has_key "timeEnd" kw = false
                 /\ exists a_start end_ a_end,
                      astimezone E (today E) = Ok a_start
                      /\ add_days (today E) 1 = Ok end_
                      /\ astimezone E end_ = Ok a_end
                      /\ window = [("timeStart", JStr (isoformat a_start));
                                   ("timeEnd", JStr (isoformat a_end))]
            else window = [].
Proof.
  intros H. unfold weatheradapter_forecast_params in H.
  apply rbind_ok in H. destruct H as [iv [Hi H]].
  apply rbind_ok in H. destruct H as [codes [Hc H]].
  apply rbind_ok in H. destruct H as [sid [Hid H]].
  apply rbind_ok in H. destruct H as [ps [Hps H]].
  apply rbind_ok in H. destruct H as [sid' [Hid' H]].
  assert (sid' = sid) by congruence. subst sid'.
  exists iv, codes, sid. repeat (split; [assumption |]).
  rewrite !has_key_rest_kwargs in H by reflexivity.
  assert (Eps : ps = ([("latitude", kwarg kw "latitude" (JFloat 67.2828));
                       ("longitude", kwarg kw "longitude" (JFloat 14.3711))]
                      ++ (if jeq_str sid "fi.fmi.forecast.location" then []
                          else [("altitude", kwarg kw "altitude" (JInt 0))])
                      ++ [("interval", iv); ("parameters", JStr codes)])%list).
  { destruct (jeq_str sid "fi.fmi.forecast.location"); injection Hps as <-; reflexivity. }
  destruct (jeq_str sid "dk.dmi.pointweather" || jeq_str sid "se.slu.lantmet") eqn:Hw.
  - assert (Hf : jeq_str sid "fi.fmi.forecast.location" = false).
    { apply orb_true_iff in Hw. destruct Hw as [Hw | Hw];
        apply jeq_str_true in Hw; subst sid; reflexivity. }
    rewrite Hf in Eps. cbn [app] in Eps.
    destruct (has_key "timeStart" kw); [discriminate |].
    apply rbind_ok in H. destruct H as [start [[= <-] H]].
    apply rbind_ok in H. destruct H as [a_start [Ha H]].
    destruct (has_key "timeEnd" kw); [discriminate |].
    apply rbind_ok in H. destruct H as [end_ [Hd H]].
    apply rbind_ok in H. destruct H as [a_end [Hae H]].
    exists [("timeStart", JStr (isoformat a_start)); ("timeEnd", JStr (isoformat a_end))].
    rewrite Hf. split.
    + subst ps. injection H as <-. reflexivity.
    + split; [reflexivity |]. split; [reflexivity |].
      exists a_start, end_, a_end. repeat split; assumption.
  - exists []. injection H as <-. split; [| reflexivity].
    rewrite Eps. rewrite !app_nil_r. reflexivity.
Qed.

(** X3: [parameters] given as one string is taken character by
    character: either builder, when it returns, returns under [parameters]
    the characters of the string joined by commas (['TM'] becomes
    ['T,M']). *)
Theorem parameters_string_is_split
    (E : environ) (source : json) (kw : kwargs) (s : string)
    (params : list (string * json)) :
  kwarg kw "parameters" JNull = JStr s ->
  weatheradapter_observation_params E source kw = Ok params
  \/ weatheradapter_forecast_params E source kw = Ok params ->
  assoc "parameters" params = Some (JStr (String.concat "," (chars s))).
Proof.
  intros Hp [H | H].
  - destruct (observation_params_inv E source kw params H)
      as [iv [codes [ts [te [w [sid [_ [Hc [_ [_ [_ ->]]]]]]]]]]].
    unfold resolve_codes in Hc. rewrite Hp in Hc. cbn [is_none rbind] in Hc.
    rewrite join_codes_string in Hc. injection Hc as <-. reflexivity.
  - destruct (forecast_params_inv E source kw params H)
      as [iv [codes [sid [_ [Hc [_ [window [-> _]]]]]]]].
    unfold resolve_codes in Hc. rewrite Hp in Hc. cbn [is_none rbind] in Hc.
    rewrite join_codes_string in Hc. injection Hc as <-.
    destruct (jeq_str sid "fi.fmi.forecast.location"); reflexivity.
Qed.

Lemma parameters_string_is_split_witness :
  exists params,
    weatheradapter_forecast_params utc_env example_plain_location_source
      [("parameters", JStr "TM")] = Ok params
    /\ assoc "parameters" params = Some (JStr "T,M").
Proof.
  eexists. split; [vm_compute; reflexivity |].
  apply (parameters_string_is_split utc_env example_plain_location_source
           [("parameters", JStr "TM")] "TM"); [reflexivity |].
  right. vm_compute. reflexivity.
Defined.

Lemma default_station_id_int (source w : json) :
  default_station_id source = Ok w -> exists n, w = JInt n.
Proof.
  unfold default_station_id. intros H.
  apply rbind_ok in H. destruct H as [id [_ H]].
  destruct (jeq_str id "info.fruitweb"); [injection H as <-; eauto |].
  apply rbind_ok in H. destruct H as [id' [_ H]].
  destruct (jeq_str id' "net.ipmdecisions.metos"); [injection H as <-; eauto |].
  apply rbind_ok in H. destruct H as [sp [_ H]].
  apply rbind_ok in H. destruct H as [g [_ H]].
  apply rbind_ok in H. destruct H as [features [_ H]].
  apply rbind_ok in H. destruct H as [f0 [_ H]].
  apply rbind_ok in H. destruct H as [top [_ H]].
  destruct top.
  - apply rbind_ok in H. destruct H as [f0' [_ H]].
    apply rbind_ok in H. destruct H as [i [_ H]].
    apply rbind_ok in H. destruct H as [n [_ H]].
    injection H as <-. eauto.
  - apply rbind_ok in H. destruct H as [f0' [_ H]].
    apply rbind_ok in H. destruct H as [pr [_ H]].
    apply rbind_ok in H. destruct H as [i [_ H]].
    apply rbind_ok in H. destruct H as [n [_ H]].
    injection H as <-. eauto.
Qed.

(** X4: whatever the observation builder returns has the keys
    [interval], [parameters], [timeStart], [timeEnd], [weatherStationId],
    in this order, followed by [ignoreErrors] exactly for the source
    ['fi.fmi.observation.station']; [parameters] is a string, and a station
    id that was not given is an integer. *)
Theorem observation_params_shape
    (E : environ) (source : json) (kw : kwargs) (params : list (string * json)) :
  weatheradapter_observation_params E source kw = Ok params ->
  exists sid codes,
    jget source "id" = Ok sid
    /\ map fst params =
         (["interval"; "parameters"; "timeStart"; "timeEnd"; "weatherStationId"]
          ++ if jeq_str sid "fi.fmi.observation.station" then ["ignoreErrors"] else [])%list
    /\ assoc "parameters" params = Some (JStr codes)
    /\ (is_none (kwarg kw "weatherStationId" JNull) = true ->
        exists n, assoc "weatherStationId" params = Some (JInt n)).
Proof.
  intros H.
  destruct (observation_params_inv E source kw params H)
    as [iv [codes [ts [te [w [sid [Hi [_ [_ [Hw [Hid ->]]]]]]]]]]].
  exists sid, codes. split; [exact Hid |].
  split; [destruct (jeq_str sid "fi.fmi.observation.station"); reflexivity |].
  split; [reflexivity |].
  intros Hn. rewrite Hn in Hw. destruct (default_station_id_int source w Hw) as [n ->].
  exists n. reflexivity.
Qed.

Lemma observation_params_shape_witness :
  exists sid codes,
    jget example_station_source_full "id" = Ok sid
    /\ map fst example_station_params =
         (["interval"; "parameters"; "timeStart"; "timeEnd"; "weatherStationId"]
          ++ if jeq_str sid "fi.fmi.observation.station" then ["ignoreErrors"] else [])%list
    /\ assoc "parameters" example_station_params = Some (JStr codes)
    /\ (is_none (kwarg [] "weatherStationId" JNull) = true ->
        exists n, assoc "weatherStationId" example_station_params = Some (JInt n)).
Proof.
  apply (observation_params_shape utc_env example_station_source_full []).
  vm_compute. reflexivity.
Defined.

(** X5: whenever the forecast builder returns parameters with a time
    window, the window is the default one: [timeStart] is the local-time
    ISO form of the clock's reading, [timeEnd] that of the same reading one
    day later, and the call gave neither a [timeStart] nor a [timeEnd]
    option. *)
Theorem forecast_window_is_default
    (E : environ) (source : json) (kw : kwargs) (params : list (string * json)) :
  weatheradapter_forecast_params E source kw = Ok params ->
  (has_key "timeStart" params = true \/ has_key "timeEnd" params = true) ->
  exists a_start tomorrow a_end,
    astimezone E (today E) = Ok a_start
    /\ add_days (today E) 1 = Ok tomorrow
    /\ astimezone E tomorrow = Ok a_end
    /\ assoc "timeStart" params = Some (JStr (isoformat a_start))
    /\ assoc "timeEnd" params = Some (JStr (isoformat a_end))
    /\ has_key "timeStart" kw = false
    /\ has_key "timeEnd" kw = false.
Proof.
  intros H Hk.
  destruct (forecast_params_inv E source kw params H)
    as [iv [codes [sid [_ [_ [_ [window [-> Hw]]]]]]]].
  destruct (jeq_str sid "dk.dmi.pointweather" || jeq_str sid "se.slu.lantmet") eqn:Ew.
  - destruct Hw as [Hs [He [a_start [end_ [a_end [Ha [Hd [Hae ->]]]]]]]].
    assert (Hf : jeq_str sid "fi.fmi.forecast.location" = false).
    { apply orb_true_iff in Ew. destruct Ew as [Ew | Ew];
        apply jeq_str_true in Ew; subst sid; reflexivity. }
    rewrite Hf.
    exists a_start, end_, a_end. repeat split; assumption || reflexivity.
  - subst window. exfalso.
    destruct (jeq_str sid "fi.fmi.forecast.location"); destruct Hk; discriminate.
Qed.

Lemma forecast_window_is_default_witness :
  exists a_start tomorrow a_end,
    astimezone utc_env (today utc_env) = Ok a_start
    /\ add_days (today utc_env) 1 = Ok tomorrow
    /\ astimezone utc_env tomorrow = Ok a_end
    /\ assoc "timeStart" example_forecast_params = Some (JStr (isoformat a_start))
    /\ assoc "timeEnd" example_forecast_params = Some (JStr (isoformat a_end))
    /\ has_key "timeStart" [("latitude", JInt 60)] = false
    /\ has_key "timeEnd" [("latitude", JInt 60)] = false.
Proof.
  apply (forecast_window_is_default utc_env example_location_source
           [("latitude", JInt 60)] example_forecast_params).
  - vm_compute. reflexivity.
  - left. reflexivity.
Defined.

(** X6: for the two sources that take a time window, a call that passes
    a [timeEnd] option and no [timeStart] raises [ValueError] once the
    start is set: line 214 parses the literal ['timeEnd'], not the option's
    value. *)
Theorem forecast_timeEnd_option_raises
    (E : environ) (source : json) (kw : kwargs) (iv : json) (codes : string) (sid : json)
    (a_start : datetime) :
  resolve_interval source (kwarg kw "interval" JNull) = Ok iv ->
  resolve_codes source (kwarg kw "parameters" JNull) = Ok codes ->
  jget source "id" = Ok sid ->
  jeq_str sid "dk.dmi.pointweather" || jeq_str sid "se.slu.lantmet" = true ->
  has_key "timeStart" kw = false ->
  has_key "timeEnd" kw = true ->
  astimezone E (today E) = Ok a_start ->
  weatheradapter_forecast_params E source kw
  = Raise (ValueError "Invalid isoformat string: 'timeEnd'").
Proof.
  intros Hi Hc Hid Hs Hk He Ha.
  assert (Hf : jeq_str sid "fi.fmi.forecast.location" = false).
  { apply orb_true_iff in Hs. destruct Hs as [Hs | Hs];
      apply jeq_str_true in Hs; subst sid; reflexivity. }
  unfold weatheradapter_forecast_params.
  rewrite Hi. cbn [rbind]. rewrite Hc. cbn [rbind]. rewrite Hid. cbn [rbind].
  rewrite Hf. cbn [rbind]. rewrite Hs.
  rewrite !has_key_rest_kwargs by reflexivity. rewrite Hk, He.
  cbn [rbind]. rewrite Ha. reflexivity.
Qed.

Lemma forecast_timeEnd_option_raises_witness :
  weatheradapter_forecast_params utc_env example_location_source
    [("timeEnd", JStr "2020-07-03T00:00:00+03:00")]
  = Raise (ValueError "Invalid isoformat string: 'timeEnd'").
Proof.
  eapply (forecast_timeEnd_option_raises utc_env example_location_source);
    solve [vm_compute; reflexivity].
Defined.

(** X7: for a source other than ['dk.dmi.pointweather'] and
    ['se.slu.lantmet'], the forecast builder looks at its five named
    arguments only: calls that agree on them have the same outcome,
    whatever other options they pass (a [timeStart], say) and whatever the
    clock and the time zone are. *)
Theorem forecast_options_ignored
    (E E' : environ) (source : json) (kw kw' : kwargs) (sid : json) :
  jget source "id" = Ok sid ->
  jeq_str sid "dk.dmi.pointweather" || jeq_str sid "se.slu.lantmet" = false ->
  (forall k, In k ["latitude"; "longitude"; "altitude"; "interval"; "parameters"] ->
     assoc k kw = assoc k kw') ->
  weatheradapter_forecast_params E source kw = weatheradapter_forecast_params E' source kw'.
Proof.
  intros Hid Hw Hk.
  assert (Hkw : forall k d,
             In k ["latitude"; "longitude"; "altitude"; "interval"; "parameters"] ->
             kwarg kw k d = kwarg kw' k d).
  { intros k d Hin. unfold kwarg. now rewrite (Hk k Hin). }
  unfold weatheradapter_forecast_params.
  rewrite !(Hkw "latitude"), !(Hkw "longitude"), !(Hkw "altitude"),
    !(Hkw "interval"), !(Hkw "parameters") by (simpl; tauto).
  destruct (resolve_interval source (kwarg kw' "interval" JNull)); [| reflexivity].
  cbn [rbind].
  destruct (resolve_codes source (kwarg kw' "parameters" JNull)); [| reflexivity].
  cbn [rbind]. rewrite Hid. cbn [rbind].
  destruct (jeq_str sid "fi.fmi.forecast.location"); cbn [rbind dict_pop];
    rewrite ?Hw; reflexivity.
Qed.

Lemma forecast_options_ignored_witness :
  weatheradapter_forecast_params eet_env example_plain_location_source
    [("timeStart", JStr "2020-06-12T00:00:00+03:00"); ("altitude", JInt 12)]
  = weatheradapter_forecast_params utc_env example_plain_location_source
      [("altitude", JInt 12)].
Proof.
  apply (forecast_options_ignored eet_env utc_env example_plain_location_source
           [("timeStart", JStr "2020-06-12T00:00:00+03:00"); ("altitude", JInt 12)]
           [("altitude", JInt 12)] (JStr "fi.fmi.forecast.location")).
  - reflexivity.
  - reflexivity.
  - intros k [<- | [<- | [<- | [<- | [<- | []]]]]]; reflexivity.
Defined.

(** X8: for a source of either access type whose [temporal.intervals] is
    the empty list, resolving with no [interval] given raises [IndexError],
    whatever else the source and the call hold. *)
Theorem empty_intervals_raise
    (E : environ) (source : json) (kw : kwargs) (a : string) (t : json) :
  jget source "access_type" = Ok (JStr a) ->
  a = "stations" \/ a = "location" ->
  is_none (kwarg kw "interval" JNull) = true ->
  jget source "temporal" = Ok t ->
  jget t "intervals" = Ok (JList []) ->
  weatheradapter_params E source kw = Raise IndexError.
Proof.
  intros Hat Ha Hn Ht Hi.
  assert (Hr : resolve_interval source (kwarg kw "interval" JNull) = Raise IndexError).
  { unfold resolve_interval. rewrite Hn, Ht. cbn [rbind]. rewrite Hi. reflexivity. }
  unfold weatheradapter_params. rewrite Hat.
  destruct Ha as [-> | ->]; cbn [rbind jeq_str String.eqb Ascii.eqb Bool.eqb].
  - unfold weatheradapter_observation_params. rewrite Hr. reflexivity.
  - unfold weatheradapter_forecast_params. rewrite Hr. reflexivity.
Qed.

Lemma empty_intervals_raise_witness :
  weatheradapter_params eet_env example_no_interval_source [] = Raise IndexError.
Proof.
  apply (empty_intervals_raise eet_env example_no_interval_source [] "location"
           (JDict [("intervals", JList [])]));
    solve [reflexivity | right; reflexivity].
Defined.

(** X9: an empty [parameters.common] is not an error: with no
    [parameters] given, the forecast builder of a source that takes no time
    window returns its parameters, with the empty string under
    [parameters]. *)
Theorem empty_common_gives_empty_parameters
    (E : environ) (source : json) (kw : kwargs) (iv p sid : json) :
  resolve_interval source (kwarg kw "interval" JNull) = Ok iv ->
  is_none (kwarg kw "parameters" JNull) = true ->
  jget source "parameters" = Ok p ->
  jget p "common" = Ok (JList []) ->
  jget source "id" = Ok sid ->
  jeq_str sid "dk.dmi.pointweather" || jeq_str sid "se.slu.lantmet" = false ->
  weatheradapter_forecast_params E source kw =
    Ok ([("latitude", kwarg kw "latitude" (JFloat 67.2828));
         ("longitude", kwarg kw "longitude" (JFloat 14.3711))]
        ++ (if jeq_str sid "fi.fmi.forecast.location" then []
            else [("altitude", kwarg kw "altitude" (JInt 0))])
        ++ [("interval", iv); ("parameters", JStr "")])%list.
Proof.
  intros Hi Hn Hp Hc Hid Hw.
  unfold weatheradapter_forecast_params, resolve_codes.
  rewrite Hi, Hn, Hp. cbn [rbind]. rewrite Hc. cbn [rbind join_codes py_iter mapM].
  rewrite Hid. cbn [rbind].
  destruct (jeq_str sid "fi.fmi.forecast.location"); cbn [rbind dict_pop];
    rewrite ?Hw; reflexivity.
Qed.

Lemma empty_common_gives_empty_parameters_witness :
  weatheradapter_forecast_params utc_env example_plain_location_source [] =
    Ok [("latitude", JFloat 67.2828); ("longitude", JFloat 14.3711);
        ("interval", JInt 3600); ("parameters", JStr "")].
Proof.
  exact (empty_common_gives_empty_parameters utc_env example_plain_location_source []
           (JInt 3600) (JDict [("common", JList [])]) (JStr "fi.fmi.forecast.location")
           eq_refl eq_refl eq_refl eq_refl eq_refl eq_refl).
Defined.

(** * The calls to the platform *)

(** ** The index of weather data sources *)

Lemma key_eqb_str_r (a : json) (s : string) : key_eqb a (JStr s) = true -> a = JStr s.
Proof.
  destruct a; simpl; try discriminate. intros H. apply String.eqb_eq in H. now subst.
Qed.

Lemma key_eqb_str_l (s : string) (b : json) : key_eqb (JStr s) b = true -> b = JStr s.
Proof.
  destruct b; simpl; try discriminate. intros H. apply String.eqb_eq in H. now subst.
Qed.

Lemma key_eqb_str_ne (s : string) (k : json) : k <> JStr s -> key_eqb (JStr s) k = false.
Proof.
  intros Hne. destruct (key_eqb (JStr s) k) eqn:E; [| reflexivity].
  apply key_eqb_str_l in E. contradiction.
Qed.

Lemma key_eqb_refl (k : json) : hash_check k = Ok tt -> key_eqb k k = true.
Proof.
  destruct k; simpl; try discriminate; intros _.
  - reflexivity.
  - apply Bool.eqb_reflx.
  - apply Z.eqb_refl.
  - apply String.eqb_refl.
Qed.

Lemma pydict_get_set_same (s : string) (v : json) (d : pydict) :
  pydict_get (JStr s) (pydict_set (JStr s) v d) = Some v.
Proof.
  induction d as [| [k' v'] d IH]; cbn [pydict_get pydict_set].
  - simpl. now rewrite String.eqb_refl.
  - destruct (key_eqb (JStr s) k') eqn:E; cbn [pydict_get]; rewrite E;
      [reflexivity | exact IH].
Qed.

Lemma pydict_get_set_other (s : string) (k v : json) (d : pydict) :
  k <> JStr s -> pydict_get (JStr s) (pydict_set k v d) = pydict_get (JStr s) d.
Proof.
  intros Hne. induction d as [| [k' v'] d IH]; cbn [pydict_get pydict_set].
  - now rewrite key_eqb_str_ne.
  - destruct (key_eqb k k') eqn:E; cbn [pydict_get].
    + destruct (key_eqb (JStr s) k') eqn:E'; [| reflexivity].
      apply key_eqb_str_l in E'. subst k'. apply key_eqb_str_r in E. contradiction.
    + destruct (key_eqb (JStr s) k'); [reflexivity | exact IH].
Qed.

Lemma pydict_set_new (k v : json) (d : pydict) :
  pydict_get k d = None -> pydict_set k v d = (d ++ [(k, v)])%list.
Proof.
  induction d as [| [k' v'] d IH]; cbn [pydict_get pydict_set app]; [reflexivity |].
  destruct (key_eqb k k'); [discriminate |]. intros H. now rewrite IH.
Qed.

Lemma pydict_get_app (k : json) (d d' : pydict) :
  pydict_get k d = None -> pydict_get k (d ++ d')%list = pydict_get k d'.
Proof.
  induction d as [| [k' v'] d IH]; cbn [pydict_get app]; [reflexivity |].
  destruct (key_eqb k k'); [discriminate | exact IH].
Qed.

Lemma pydict_get_in (k v : json) (d : pydict) :
  pydict_get k d = Some v -> exists k', In (k', v) d /\ key_eqb k k' = true.
Proof.
  induction d as [| [k' v'] d IH]; cbn [pydict_get]; [discriminate |].
  destruct (key_eqb k k') eqn:E.
  - intros [= <-]. exists k'. split; [now left | exact E].
  - intros H. destruct (IH H) as [k2 [Hin Hk]]. exists k2. split; [now right | exact Hk].
Qed.

Lemma mapM_app {A B : Type} (f : A -> res B) (xs ys : list A) :
  mapM f (xs ++ ys)%list =
    (a <- mapM f xs ;; b <- mapM f ys ;; Ok (a ++ b)%list)%res.
Proof.
  induction xs as [| x xs IH]; simpl.
  - destruct (mapM f ys); reflexivity.
  - destruct (f x) as [y | e]; simpl; [| reflexivity].
    rewrite IH. destruct (mapM f xs) as [a | e]; simpl; [| reflexivity].
    destruct (mapM f ys); reflexivity.
Qed.

Lemma mapM_in {A B : Type} (f : A -> res B) (xs : list A) (ys : list B) (y : B) :
  mapM f xs = Ok ys -> In y ys -> exists x, In x xs /\ f x = Ok y.
Proof.
  revert ys. induction xs as [| x xs IH]; intros ys H Hin; simpl in H.
  - injection H as <-. destruct Hin.
  - apply rbind_ok in H. destruct H as [y0 [Hy H]].
    apply rbind_ok in H. destruct H as [ys0 [Hys H]].
    injection H as <-. destruct Hin as [<- | Hin].
    + exists x. split; [now left | exact Hy].
    + destruct (IH ys0 Hys Hin) as [x' [Hx Hf]]. exists x'. split; [now right | exact Hf].
Qed.

(** Sources that all have an id that can be a key are all indexed. *)
Lemma index_by_id_total (items : list json) :
  Forall (fun x => exists k, jget x "id" = Ok k /\ hash_check k = Ok tt) items ->
  forall acc, exists d, index_by_id items acc = Ok d.
Proof.
  induction 1 as [| x items [k [Hk Hh]] _ IH]; intros acc; simpl.
  - now exists acc.
  - rewrite Hk. cbn [rbind]. rewrite Hh. cbn [rbind]. apply IH.
Qed.

Lemma index_by_id_app (xs ys : list json) (acc : pydict) :
  index_by_id (xs ++ ys)%list acc = (d <- index_by_id xs acc ;; index_by_id ys d)%res.
Proof.
  revert acc. induction xs as [| x xs IH]; intros acc; simpl; [reflexivity |].
  destruct (jget x "id") as [k | e]; simpl; [| reflexivity].
  destruct (hash_check k) as [[] | e]; simpl; [| reflexivity].
  apply IH.
Qed.

(** Sources with other ids leave the entry of [s] as it is. *)
Lemma index_by_id_keeps (s : string) (items : list json) :
  Forall (fun x => exists k, jget x "id" = Ok k /\ hash_check k = Ok tt /\ k <> JStr s)
    items ->
  forall acc, exists d,
    index_by_id items acc = Ok d /\ pydict_get (JStr s) d = pydict_get (JStr s) acc.
Proof.
  induction 1 as [| x items [k [Hk [Hh Hne]]] _ IH]; intros acc; simpl.
  - now exists acc.
  - rewrite Hk. cbn [rbind]. rewrite Hh. cbn [rbind].
    destruct (IH (pydict_set k x acc)) as [d [Hd Hg]].
    exists d. split; [exact Hd |]. rewrite Hg. now apply pydict_get_set_other.
Qed.

(** Sources whose ids are different strings are indexed in their order. *)
Lemma index_by_id_distinct (items : list json) (ids : list string) :
  Forall2 (fun x i => jget x "id" = Ok (JStr i)) items ids ->
  NoDup ids ->
  forall acc, (forall i, In i ids -> pydict_get (JStr i) acc = None) ->
    index_by_id items acc = Ok (acc ++ combine (map JStr ids) items)%list.
Proof.
  induction 1 as [| x i items ids Hx _ IH]; intros Hnd acc Hacc; simpl.
  - now rewrite app_nil_r.
  - rewrite Hx. cbn [rbind hash_check].
    inversion Hnd as [| i' ids' Hni Hnd']; subst.
    rewrite pydict_set_new by (apply Hacc; now left).
    rewrite IH; [now rewrite <- app_assoc | exact Hnd' |].
    intros j Hj. rewrite pydict_get_app by (apply Hacc; now right).
    cbn [pydict_get]. rewrite key_eqb_str_ne; [reflexivity |].
    intros [= ->]. contradiction.
Qed.

Lemma pydict_get_combine_none (s : string) (ids : list string) (items : list json) :
  ~ In s ids -> pydict_get (JStr s) (combine (map JStr ids) items) = None.
Proof.
  revert items. induction ids as [| i ids IH]; intros items Hn; simpl; [reflexivity |].
  destruct items as [| x items]; [reflexivity |]. simpl.
  destruct (String.eqb_spec s i) as [-> | Hne]; [exfalso; apply Hn; now left |].
  apply IH. intros Hin. apply Hn. now right.
Qed.

Lemma join_keys_combine (ids : list string) (items : list json) :
  List.length items = List.length ids ->
  join_keys (combine (map JStr ids) items) = Ok (String.concat "," ids).
Proof.
  intros Hlen. unfold join_keys.
  assert (H : mapM (fun kv : json * json =>
                      match fst kv with JStr s => Ok s | _ => Raise TypeError end)
                (combine (map JStr ids) items) = Ok ids).
  { revert items Hlen. induction ids as [| i ids IH]; intros [| x items] Hlen;
      simpl in *; try discriminate; [reflexivity |].
    rewrite IH by lia. reflexivity. }
  rewrite H. reflexivity.
Qed.

Lemma select_filter (attr wanted : string) (d : pydict) :
  Forall (fun kv => exists v, jget (snd kv) attr = Ok v) d ->
  select attr wanted d = Ok (filter (fun kv => attr_is attr wanted (snd kv)) d).
Proof.
  induction 1 as [| [k x] d [v Hv] _ IH]; simpl; [reflexivity |].
  simpl in Hv. rewrite Hv. cbn [rbind]. rewrite IH. cbn [rbind].
  unfold attr_is. rewrite Hv. reflexivity.
Qed.

Lemma select_sound (attr wanted : string) (d d' : pydict) :
  select attr wanted d = Ok d' ->
  forall kv, In kv d' -> In kv d /\ attr_is attr wanted (snd kv) = true.
Proof.
  revert d'. induction d as [| [k x] d IH]; intros d' H kv Hin; simpl in H.
  - injection H as <-. destruct Hin.
  - apply rbind_ok in H. destruct H as [a [Ha H]].
    apply rbind_ok in H. destruct H as [kept [Hk H]].
    injection H as <-.
    destruct (jeq_str a wanted) eqn:Ej.
    + destruct Hin as [<- | Hin].
      * split; [now left |]. unfold attr_is. simpl. now rewrite Ha.
      * destruct (IH kept Hk kv Hin) as [H1 H2]. split; [now right | exact H2].
    + destruct (IH kept Hk kv Hin) as [H1 H2]. split; [now right | exact H2].
Qed.

Lemma filter_filter {A : Type} (p q : A -> bool) (xs : list A) :
  filter q (filter p xs) = filter (fun x => p x && q x) xs.
Proof.
  induction xs as [| x xs IH]; simpl; [reflexivity |].
  destruct (p x); simpl; [destruct (q x); now rewrite IH | exact IH].
Qed.

(** Every entry of the index holds a source under a key equal to its id. *)
Lemma index_by_id_own_id (items : list json) :
  forall acc d,
    (forall k v, In (k, v) acc -> exists i, jget v "id" = Ok i /\ key_eqb i k = true) ->
    index_by_id items acc = Ok d ->
    forall k v, In (k, v) d ->
      (exists i, jget v "id" = Ok i /\ key_eqb i k = true)
      /\ (In v items \/ In (k, v) acc).
Proof.
  induction items as [| x items IH]; intros acc d Hacc H k v Hin; simpl in H.
  - injection H as <-. split; [now apply Hacc | now right].
  - apply rbind_ok in H. destruct H as [kx [Hkx H]].
    apply rbind_ok in H. destruct H as [[] [Hh H]].
    assert (Hset : forall k0 v0, In (k0, v0) (pydict_set kx x acc) ->
                     (exists i, jget v0 "id" = Ok i /\ key_eqb i k0 = true)
                     /\ (v0 = x \/ In (k0, v0) acc)).
    { clear - Hacc Hkx Hh. induction acc as [| [k' v'] acc IHa]; simpl.
      - intros k0 v0 [[= <- <-] | []]. split; [| now left].
        exists kx. split; [exact Hkx | now apply key_eqb_refl].
      - intros k0 v0. destruct (key_eqb kx k') eqn:E; simpl.
        + intros [[= <- <-] | Hin].
          * split; [| now left]. exists kx. split; [exact Hkx | exact E].
          * split; [apply Hacc; now right | right; now right].
        + intros [[= <- <-] | Hin].
          * split; [apply Hacc; now left | right; now left].
          * destruct (IHa (fun k v H => Hacc k v (or_intror H)) k0 v0 Hin) as [H1 H2].
            split; [exact H1 |]. destruct H2; [now left | right; now right]. }
    destruct (IH (pydict_set kx x acc) d (fun k0 v0 H0 => proj1 (Hset k0 v0 H0)) H k v Hin)
      as [H1 H2].
    split; [exact H1 |].
    destruct H2 as [H2 | H2]; [left; now right |].
    destruct (proj2 (Hset k v H2)) as [-> | H3]; [left; now left | now right].
Qed.

(** Where a query by id ends up once the response is indexed. *)
Lemma query_by_id
    (callback : json) (get_headers : string -> json)
    (http_get : request -> res json) (json_loads : string -> res json)
    (response : json) (items items' : list json) (sources : pydict)
    (s : string) (a b : option string) :
  http_get (weatherdatasource_request callback get_headers) = Ok response ->
  py_iter response = Ok items ->
  mapM (parse_geojson json_loads) items = Ok items' ->
  index_by_id items' [] = Ok sources ->
  get_weatherdatasource callback get_headers http_get json_loads (Some s) a b =
    match pydict_get (JStr s) sources with
    | Some source => Ok (OneSource source)
    | None =>
        (keys <- join_keys sources ;;
         Raise (ValueError
                  ("datasource error: source_id is not referencing a valid datasource: "
                   ++ keys)))%res
    end.
Proof.
  intros H1 H2 H3 H4. unfold get_weatherdatasource.
  rewrite H1. cbn [rbind]. rewrite H2. cbn [rbind]. rewrite H3. cbn [rbind].
  rewrite H4. reflexivity.
Qed.

(** X10: when the response lists several sources under the id asked for,
    [get_weatherdatasource] returns the last of them, as it is once its
    GeoJSON text is parsed; the two filters play no part in a lookup by
    id. *)
Theorem lookup_returns_last_source_with_id
    (callback : json) (get_headers : string -> json)
    (http_get : request -> res json) (json_loads : string -> res json)
    (response : json) (items pre post : list json) (source : json)
    (s : string) (a b : option string) :
  http_get (weatherdatasource_request callback get_headers) = Ok response ->
  py_iter response = Ok items ->
  mapM (parse_geojson json_loads) items = Ok (pre ++ source :: post)%list ->
  Forall (fun x => exists k, jget x "id" = Ok k /\ hash_check k = Ok tt) pre ->
  jget source "id" = Ok (JStr s) ->
  Forall (fun x => exists k, jget x "id" = Ok k /\ hash_check k = Ok tt /\ k <> JStr s)
    post ->
  get_weatherdatasource callback get_headers http_get json_loads (Some s) a b = Ok (OneSource source).
Proof.
  intros H1 H2 H3 Hpre Hs Hpost.
  destruct (index_by_id_total pre Hpre []) as [d1 Hd1].
  destruct (index_by_id_keeps s post Hpost (pydict_set (JStr s) source d1)) as [d [Hd Hg]].
  assert (Hidx : index_by_id (pre ++ source :: post)%list [] = Ok d).
  { rewrite index_by_id_app, Hd1. cbn [rbind index_by_id]. rewrite Hs.
    cbn [rbind hash_check]. exact Hd. }
  rewrite (query_by_id callback get_headers http_get json_loads response items _ d s a b H1 H2 H3 Hidx).
  rewrite Hg, pydict_get_set_same. reflexivity.
Qed.

Lemma lookup_returns_last_source_with_id_witness :
  get_weatherdatasource JNull example_headers (answer_with example_repeating_response)
    example_json_loads (Some "no.met.locationforecast") (Some "stations") None
  = Ok (OneSource example_met_source_again).
Proof.
  apply (lookup_returns_last_source_with_id JNull example_headers
           (answer_with example_repeating_response) example_json_loads
           example_repeating_response
           [example_met_source; example_met_source_again; example_metos_source]
           [example_met_source] [example_metos_source] example_met_source_again
           "no.met.locationforecast" (Some "stations") None).
  - reflexivity.
  - reflexivity.
  - vm_compute. reflexivity.
  - repeat constructor. exists (JStr "no.met.locationforecast"). split; reflexivity.
  - reflexivity.
  - repeat constructor. exists (JStr "net.ipmdecisions.metos").
    split; [reflexivity |]. split; [reflexivity | discriminate].
Defined.

(** X11: a lookup by an id that no source of the response has raises
    [ValueError], and the message ends with the ids of the response, in its
    order, joined by commas (the ids being strings, no two the same). *)
Theorem lookup_of_unknown_id_lists_the_ids
    (callback : json) (get_headers : string -> json)
    (http_get : request -> res json) (json_loads : string -> res json)
    (response : json) (items items' : list json) (ids : list string)
    (s : string) (a b : option string) :
  http_get (weatherdatasource_request callback get_headers) = Ok response ->
  py_iter response = Ok items ->
  mapM (parse_geojson json_loads) items = Ok items' ->
  Forall2 (fun x i => jget x "id" = Ok (JStr i)) items' ids ->
  NoDup ids ->
  ~ In s ids ->
  get_weatherdatasource callback get_headers http_get json_loads (Some s) a b =
    Raise (ValueError
             ("datasource error: source_id is not referencing a valid datasource: "
              ++ String.concat "," ids)).
Proof.
  intros H1 H2 H3 Hids Hnd Hs.
  pose proof (index_by_id_distinct items' ids Hids Hnd [] (fun _ _ => eq_refl)) as Hidx.
  cbn [app] in Hidx.
  rewrite (query_by_id callback get_headers http_get json_loads response items items' _ s a b H1 H2 H3 Hidx).
  rewrite pydict_get_combine_none by exact Hs.
  rewrite join_keys_combine by (now apply Forall2_length in Hids).
  reflexivity.
Qed.

Lemma lookup_of_unknown_id_lists_the_ids_witness :
  get_weatherdatasource JNull example_headers (answer_with example_sources_response)
    example_json_loads (Some "com.example") None None
  = Raise (ValueError
             ("datasource error: source_id is not referencing a valid datasource: "
              ++ "no.met.locationforecast,fi.fmi.observation.station,net.ipmdecisions.metos")).
Proof.
  apply (lookup_of_unknown_id_lists_the_ids JNull example_headers
           (answer_with example_sources_response) example_json_loads
           example_sources_response
           [example_met_source; example_fmi_source; example_metos_source]
           [example_met_source; example_fmi_source_parsed; example_metos_source]
           ["no.met.locationforecast"; "fi.fmi.observation.station";
            "net.ipmdecisions.metos"]
           "com.example" None None).
  - reflexivity.
  - reflexivity.
  - vm_compute. reflexivity.
  - repeat constructor.
  - repeat constructor; simpl; intuition discriminate.
  - simpl. intuition discriminate.
Defined.

(** X12: with no id asked for and both filters given, the result holds,
    under their ids and in the order of the response, exactly the sources
    whose [access_type] and [authentication_type] are the ones asked for
    (the ids being strings, no two the same). A source needs an
    [authentication_type] only if its [access_type] is the one asked for:
    the second filter runs on what the first kept. *)
Theorem filters_select_matching_sources
    (callback : json) (get_headers : string -> json)
    (http_get : request -> res json) (json_loads : string -> res json)
    (response : json) (items items' : list json) (ids : list string) (a b : string) :
  http_get (weatherdatasource_request callback get_headers) = Ok response ->
  py_iter response = Ok items ->
  mapM (parse_geojson json_loads) items = Ok items' ->
  Forall2 (fun x i => jget x "id" = Ok (JStr i)) items' ids ->
  NoDup ids ->
  Forall (fun x => exists v, jget x "access_type" = Ok v) items' ->
  Forall (fun x => attr_is "access_type" a x = true ->
                   exists v, jget x "authentication_type" = Ok v) items' ->
  get_weatherdatasource callback get_headers http_get json_loads None (Some a) (Some b) =
    Ok (AllSources
          (filter (fun kv => attr_is "access_type" a (snd kv)
                             && attr_is "authentication_type" b (snd kv))
             (combine (map JStr ids) items'))).
Proof.
  intros H1 H2 H3 Hids Hnd Ha Hb.
  pose proof (index_by_id_distinct items' ids Hids Hnd [] (fun _ _ => eq_refl)) as Hidx.
  cbn [app] in Hidx.
  unfold get_weatherdatasource.
  rewrite H1. cbn [rbind]. rewrite H2. cbn [rbind]. rewrite H3. cbn [rbind].
  rewrite Hidx. cbn [rbind].
  assert (Hin : forall kv, In kv (combine (map JStr ids) items') -> In (snd kv) items').
  { intros [k v] Hkv. simpl. now apply in_combine_r in Hkv. }
  rewrite select_filter.
  2:{ apply Forall_forall. intros kv Hkv.
      rewrite Forall_forall in Ha. apply Ha. now apply Hin. }
  cbn [rbind]. rewrite select_filter.
  2:{ apply Forall_forall. intros kv Hkv. apply filter_In in Hkv. destruct Hkv as [Hkv Hp].
      rewrite Forall_forall in Hb. apply Hb; [now apply Hin | exact Hp]. }
  cbn [rbind]. rewrite filter_filter. reflexivity.
Qed.

Lemma filters_select_matching_sources_witness :
  get_weatherdatasource JNull example_headers (answer_with example_sources_response)
    example_json_loads None (Some "stations") (Some "NONE")
  = Ok (AllSources [(JStr "fi.fmi.observation.station", example_fmi_source_parsed)]).
Proof.
  apply (filters_select_matching_sources JNull example_headers
           (answer_with example_sources_response) example_json_loads
           example_sources_response
           [example_met_source; example_fmi_source; example_metos_source]
           [example_met_source; example_fmi_source_parsed; example_metos_source]
           ["no.met.locationforecast"; "fi.fmi.observation.station";
            "net.ipmdecisions.metos"]
           "stations" "NONE").
  - reflexivity.
  - reflexivity.
  - vm_compute. reflexivity.
  - repeat constructor.
  - repeat constructor; simpl; intuition discriminate.
  - repeat constructor; eexists; reflexivity.
  - repeat constructor; intros _; eexists; reflexivity.
Defined.

(** X13: whatever [get_weatherdatasource] returns agrees with the query:
    a dict is returned only when no id is asked for, each source in it is
    filed under a key equal to its own ['id'] and passes every filter that
    was given; a single source is returned only for an id that was asked
    for, and that id is its ['id']. *)
Theorem returned_sources_match_the_query
    (callback : json) (get_headers : string -> json)
    (http_get : request -> res json) (json_loads : string -> res json)
    (sid a b : option string) (r : datasources) :
  get_weatherdatasource callback get_headers http_get json_loads sid a b = Ok r ->
  match r with
  | AllSources d =>
      sid = None
      /\ forall k v, In (k, v) d ->
           (exists i, jget v "id" = Ok i /\ key_eqb i k = true)
           /\ (forall x, a = Some x -> attr_is "access_type" x v = true)
           /\ (forall x, b = Some x -> attr_is "authentication_type" x v = true)
  | OneSource v => exists s, sid = Some s /\ jget v "id" = Ok (JStr s)
  end.
Proof.
  intros H. unfold get_weatherdatasource in H.
  apply rbind_ok in H. destruct H as [response [_ H]].
  apply rbind_ok in H. destruct H as [items [_ H]].
  apply rbind_ok in H. destruct H as [items' [_ H]].
  apply rbind_ok in H. destruct H as [sources [Hidx H]].
  pose proof (index_by_id_own_id items' [] sources
                (fun k v (F : In (k, v) []) => match F with end) Hidx) as Hown.
  destruct sid as [s |].
  - destruct (pydict_get (JStr s) sources) as [v |] eqn:Eg.
    + injection H as <-. exists s. split; [reflexivity |].
      destruct (pydict_get_in _ _ _ Eg) as [k [Hin Hk]].
      apply key_eqb_str_l in Hk. subst k.
      destruct (proj1 (Hown _ _ Hin)) as [i [Hi Hik]].
      apply key_eqb_str_r in Hik. now subst i.
    + destruct (join_keys sources); discriminate.
  - apply rbind_ok in H. destruct H as [d1 [Ha H]].
    apply rbind_ok in H. destruct H as [d2 [Hb H]].
    injection H as <-. split; [reflexivity |].
    intros k v Hin.
    assert (Hin1 : In (k, v) d1
                   /\ forall x, b = Some x -> attr_is "authentication_type" x v = true).
    { destruct b as [x |].
      - destruct (select_sound _ _ _ _ Hb (k, v) Hin) as [H1 H2].
        split; [exact H1 |]. intros x' [= <-]. exact H2.
      - injection Hb as <-. split; [exact Hin | discriminate]. }
    destruct Hin1 as [Hin1 Hb'].
    assert (Hin0 : In (k, v) sources
                   /\ forall x, a = Some x -> attr_is "access_type" x v = true).
    { destruct a as [x |].
      - destruct (select_sound _ _ _ _ Ha (k, v) Hin1) as [H1 H2].
        split; [exact H1 |]. intros x' [= <-]. exact H2.
      - injection Ha as <-. split; [exact Hin1 | discriminate]. }
    destruct Hin0 as [Hin0 Ha'].
    split; [exact (proj1 (Hown _ _ Hin0)) |]. split; assumption.
Qed.

Lemma returned_sources_match_the_query_witness :
  @None string = None
  /\ forall k v,
       In (k, v) [(JStr "fi.fmi.observation.station", example_fmi_source_parsed)] ->
       (exists i, jget v "id" = Ok i /\ key_eqb i k = true)
       /\ (forall x, Some "stations" = Some x -> attr_is "access_type" x v = true)
       /\ (forall x, Some "NONE" = Some x -> attr_is "authentication_type" x v = true).
Proof.
  apply (returned_sources_match_the_query JNull example_headers
           (answer_with example_sources_response) example_json_loads
           None (Some "stations") (Some "NONE")
           (AllSources [(JStr "fi.fmi.observation.station", example_fmi_source_parsed)])).
  vm_compute. reflexivity.
Defined.

(** X14: one source without a ['spatial'] entry in the response makes
    every query raise [KeyError], also the lookup of another source: the
    loop of lines 380-383 reads [r['spatial']] of each source before
    anything is looked up. *)
Theorem source_without_spatial_fails_every_query
    (callback : json) (get_headers : string -> json)
    (http_get : request -> res json) (json_loads : string -> res json)
    (response : json) (pre post pre' : list json) (d : list (string * json))
    (sid a b : option string) :
  http_get (weatherdatasource_request callback get_headers) = Ok response ->
  py_iter response = Ok (pre ++ JDict d :: post)%list ->
  mapM (parse_geojson json_loads) pre = Ok pre' ->
  has_key "spatial" d = false ->
  get_weatherdatasource callback get_headers http_get json_loads sid a b = Raise (KeyError (JStr "spatial")).
Proof.
  intros H1 H2 H3 Hk. unfold get_weatherdatasource.
  rewrite H1. cbn [rbind]. rewrite H2. cbn [rbind].
  rewrite mapM_app, H3. cbn [rbind mapM].
  unfold parse_geojson at 1. unfold jget at 1. unfold has_key in Hk.
  destruct (assoc "spatial" d); [discriminate |]. reflexivity.
Qed.

Lemma source_without_spatial_fails_every_query_witness :
  get_weatherdatasource JNull example_headers (answer_with example_broken_response)
    example_json_loads (Some "fi.fmi.observation.station") None None
  = Raise (KeyError (JStr "spatial")).
Proof.
  apply (source_without_spatial_fails_every_query JNull example_headers
           (answer_with example_broken_response) example_json_loads
           example_broken_response [example_met_source] [example_fmi_source]
           [example_met_source] [("id", JStr "com.example")]);
    reflexivity.
Defined.

(** ** Texts the platform sends in place of JSON *)

Lemma jget_jset_same (j : json) (k : string) (x j' : json) :
  jset j k x = Ok j' -> jget j' k = Ok x.
Proof.
  destruct j; try discriminate. intros [= <-]. simpl. now rewrite assoc_dict_set_eq.
Qed.

Lemma jget_jset_other (j : json) (k k' : string) (x j' : json) :
  jset j k x = Ok j' -> k' <> k -> jget j' k' = jget j k'.
Proof.
  destruct j; try discriminate. intros [= <-] Hne. simpl.
  now rewrite assoc_dict_set_neq.
Qed.

(** What lines 381-383 make of one source. *)
Lemma parse_geojson_inv (json_loads : string -> res json) (r v : json) :
  parse_geojson json_loads r = Ok v ->
  (forall k, k <> "spatial" -> jget v k = jget r k)
  /\ exists sp,
       jget r "spatial" = Ok sp
       /\ ((jhas "geoJSON" sp = Ok false /\ v = r)
           \/ (jget sp "geoJSON" = Ok JNull /\ v = r)
           \/ exists g parsed,
                jget sp "geoJSON" = Ok g
                /\ loads json_loads g = Ok parsed
                /\ jpath v ["spatial"; "geoJSON"] = Ok parsed
                /\ forall k, k <> "geoJSON" ->
                     jpath v ["spatial"; k] = jpath r ["spatial"; k]).
Proof.
  intros H. unfold parse_geojson in H.
  apply rbind_ok in H. destruct H as [sp [Hsp H]].
  apply rbind_ok in H. destruct H as [present [Hp H]].
  destruct present.
  - apply rbind_ok in H. destruct H as [sp' [Hsp' H]].
    assert (sp' = sp) by congruence. subst sp'. clear Hsp'.
    apply rbind_ok in H. destruct H as [g [Hg H]].
    destruct (is_none g) eqn:En.
    + injection H as <-. split; [reflexivity |]. exists sp. split; [exact Hsp |].
      right. left. destruct g; try discriminate. now split.
    + apply rbind_ok in H. destruct H as [sp' [Hsp' H]].
      assert (sp' = sp) by congruence. subst sp'. clear Hsp'.
      apply rbind_ok in H. destruct H as [g' [Hg' H]].
      assert (g' = g) by congruence. subst g'. clear Hg'.
      apply rbind_ok in H. destruct H as [parsed [Hl H]].
      apply rbind_ok in H. destruct H as [sp' [Hsp' H]].
      assert (sp' = sp) by congruence. subst sp'. clear Hsp'.
      apply rbind_ok in H. destruct H as [sp2 [Hset H]].
      split.
      * intros k Hk. exact (jget_jset_other _ _ _ _ _ H Hk).
      * exists sp. split; [exact Hsp |]. right. right.
        exists g, parsed. split; [exact Hg |]. split; [exact Hl |].
        unfold jpath. cbn [fold_left rbind].
        rewrite (jget_jset_same _ _ _ _ H), Hsp. cbn [rbind].
        split; [exact (jget_jset_same _ _ _ _ Hset) |].
        intros k Hk. exact (jget_jset_other _ _ _ _ _ Hset Hk).
  - injection H as <-. split; [reflexivity |]. exists sp. split; [exact Hsp |].
    left. now split.
Qed.

(** X15: a source returned by a lookup is one of the sources of the
    response, with the same entries under every key but ['spatial'] and the
    same entries of ['spatial'] under every key but ['geoJSON']; it is the
    source of the response itself when that has no [geoJSON] or has [None]
    there, and otherwise its [geoJSON] is what [json.loads] makes of the
    text that was there. *)
Theorem returned_source_has_parsed_geojson
    (callback : json) (get_headers : string -> json)
    (http_get : request -> res json) (json_loads : string -> res json)
    (s : string) (a b : option string) (v : json) :
  get_weatherdatasource callback get_headers http_get json_loads (Some s) a b
  = Ok (OneSource v) ->
  exists response items r,
    http_get (weatherdatasource_request callback get_headers) = Ok response
    /\ py_iter response = Ok items
    /\ In r items
    /\ (forall k, k <> "spatial" -> jget v k = jget r k)
    /\ exists sp,
         jget r "spatial" = Ok sp
         /\ ((jhas "geoJSON" sp = Ok false /\ v = r)
             \/ (jget sp "geoJSON" = Ok JNull /\ v = r)
             \/ exists text parsed,
                  jget sp "geoJSON" = Ok (JStr text)
                  /\ json_loads text = Ok parsed
                  /\ jpath v ["spatial"; "geoJSON"] = Ok parsed
                  /\ forall k, k <> "geoJSON" ->
                       jpath v ["spatial"; k] = jpath r ["spatial"; k]).
Proof.
  intros H. unfold get_weatherdatasource in H.
  apply rbind_ok in H. destruct H as [response [H1 H]].
  apply rbind_ok in H. destruct H as [items [H2 H]].
  apply rbind_ok in H. destruct H as [items' [H3 H]].
  apply rbind_ok in H. destruct H as [sources [Hidx H]].
  destruct (pydict_get (JStr s) sources) as [v' |] eqn:Eg;
    [| destruct (join_keys sources); discriminate].
  injection H as ->.
  destruct (pydict_get_in _ _ _ Eg) as [k [Hin _]].
  destruct (proj2 (index_by_id_own_id items' [] sources
                     (fun k v (F : In (k, v) []) => match F with end) Hidx k v Hin))
    as [Hv | []].
  destruct (mapM_in _ _ _ _ H3 Hv) as [r [Hr Hp]].
  destruct (parse_geojson_inv json_loads r v Hp) as [Hframe [sp [Hsp Hcases]]].
  exists response, items, r. repeat (split; [assumption |]).
  exists sp. split; [exact Hsp |].
  destruct Hcases as [Hc | [Hc | [g [parsed [Hg [Hl [Hpa Hfr]]]]]]];
    [now left | right; now left |].
  right. right. destruct g; try discriminate.
  exists s0, parsed. repeat split; assumption.
Qed.

Lemma returned_source_has_parsed_geojson_witness :
  exists response items r,
    answer_with example_sources_response
      (weatherdatasource_request JNull example_headers) = Ok response
    /\ py_iter response = Ok items
    /\ In r items
    /\ (forall k, k <> "spatial" -> jget example_fmi_source_parsed k = jget r k)
    /\ exists sp,
         jget r "spatial" = Ok sp
         /\ ((jhas "geoJSON" sp = Ok false /\ example_fmi_source_parsed = r)
             \/ (jget sp "geoJSON" = Ok JNull /\ example_fmi_source_parsed = r)
             \/ exists text parsed,
                  jget sp "geoJSON" = Ok (JStr text)
                  /\ example_json_loads text = Ok parsed
                  /\ jpath example_fmi_source_parsed ["spatial"; "geoJSON"] = Ok parsed
                  /\ forall k, k <> "geoJSON" ->
                       jpath example_fmi_source_parsed ["spatial"; k]
                       = jpath r ["spatial"; k]).
Proof.
  apply (returned_source_has_parsed_geojson JNull example_headers
           (answer_with example_sources_response) example_json_loads
           "fi.fmi.observation.station" None None example_fmi_source_parsed).
  vm_compute. reflexivity.
Defined.

(** ** The model the platform describes *)

(** X16: when the platform answers with a dict whose ['execution'] is a
    dict with a text under ['input_schema'], [get_model] returns that
    answer with the text replaced by what [json.loads] makes of it; every
    other entry of the answer and of its ['execution'] is as the platform
    sent it. *)
Theorem get_model_parses_the_input_schema
    (http_get : request -> res json) (json_loads : string -> res json)
    (DSSId ModelId : string) (d ex : list (string * json)) (text : string) (schema : json) :
  http_get (model_request DSSId ModelId) = Ok (JDict d) ->
  assoc "execution" d = Some (JDict ex) ->
  assoc "input_schema" ex = Some (JStr text) ->
  json_loads text = Ok schema ->
  exists model,
    get_model http_get json_loads DSSId ModelId = Ok model
    /\ jpath model ["execution"; "input_schema"] = Ok schema
    /\ (forall k, k <> "execution" -> jget model k = jget (JDict d) k)
    /\ (forall k, k <> "input_schema" ->
          jpath model ["execution"; k] = jget (JDict ex) k).
Proof.
  intros H1 He Hs Hl.
  exists (JDict (dict_set "execution" (JDict (dict_set "input_schema" schema ex)) d)).
  split.
  - unfold get_model. rewrite H1. cbn [rbind jhas jget]. unfold has_key.
    rewrite He. cbn [rbind jhas jget]. unfold has_key. rewrite Hs.
    cbn [rbind loads]. rewrite Hl. reflexivity.
  - unfold jpath. cbn [fold_left rbind jget].
    rewrite assoc_dict_set_eq. cbn [rbind jget]. rewrite assoc_dict_set_eq.
    split; [reflexivity |]. split.
    + intros k Hk. now rewrite assoc_dict_set_neq.
    + intros k Hk. now rewrite assoc_dict_set_neq.
Qed.

Lemma get_model_parses_the_input_schema_witness :
  exists model,
    get_model (answer_with example_model_response) example_json_loads
      "no.nibio.vips" "EXAMPLE" = Ok model
    /\ jpath model ["execution"; "input_schema"] = Ok (JDict [])
    /\ (forall k, k <> "execution" -> jget model k = jget example_model_response k)
    /\ (forall k, k <> "input_schema" ->
          jpath model ["execution"; k]
          = jget (JDict [("endpoint", JStr "https://example.org/models/EXAMPLE/run");
                         ("input_schema", JStr "{}")]) k).
Proof.
  apply (get_model_parses_the_input_schema (answer_with example_model_response)
           example_json_loads "no.nibio.vips" "EXAMPLE" _ _ "{}" (JDict []));
    reflexivity.
Defined.

(** ** Requests that carry the caller's objects *)

Lemma pure_read_value (v : val) : pure (read_value v).
Proof.
  intros h r h'. unfold read_value.
  destruct (reify (S (List.length h)) h v); now intros [= _ <-].
Qed.

Lemma pure_dumps (json_dumps : json -> string) (v : val) : pure (dumps json_dumps v).
Proof.
  intros h r h'. unfold dumps.
  destruct (reify (S (List.length h)) h v); now intros [= _ <-].
Qed.

Lemma pure_snd {A : Type} (c : M A) (h : heap) : pure c -> snd (c h) = h.
Proof. intros Hp. destruct (c h) as [r h'] eqn:E. simpl. exact (Hp _ _ _ E). Qed.

(** X17: given a [model_input], [run_model] composes nothing: the outcome
    does not depend on [parameters], [weather_data] and the field
    observations, so no check of the weather data is made; the store is
    left as it was, so the model's schema is not rewritten; and what is
    posted to the model's endpoint is [json.dumps] of the given
    document. *)
Theorem run_model_sends_a_given_input_as_it_is
    (http_post : request -> res json) (json_dumps : json -> string)
    (jsf jsf' : json -> res json)
    (model p w fo foq p' w' fo' foq' given : val) (h : heap) :
  given <> VNone ->
  run_model http_post json_dumps jsf model p w fo foq given h
  = run_model http_post json_dumps jsf' model p' w' fo' foq' given h
  /\ snd (run_model http_post json_dumps jsf model p w fo foq given h) = h
  /\ forall ex endpoint url doc,
       field h model "execution" = Some ex ->
       field h ex "endpoint" = Some endpoint ->
       reify (S (List.length h)) h endpoint = Some url ->
       reify (S (List.length h)) h given = Some doc ->
       fst (run_model http_post json_dumps jsf model p w fo foq given h)
       = http_post (mkRequest url
                      (Some (JDict [("Content-Type", JStr "application/json")]))
                      None (Some (JStr (json_dumps doc)))).
Proof.
  intros Hg.
  assert (Hrun : forall jsf0 p0 w0 fo0 foq0,
             run_model http_post json_dumps jsf0 model p0 w0 fo0 foq0 given =
               (ex <- getitem model "execution" ;;
                endpoint <- getitem ex "endpoint" ;;
                body <- dumps json_dumps given ;;
                url <- read_value endpoint ;;
                lift (http_post (mkRequest url
                                   (Some (JDict [("Content-Type", JStr "application/json")]))
                                   None (Some (JStr body)))))%py).
  { intros. unfold run_model. destruct given; try reflexivity. contradiction. }
  split; [now rewrite !Hrun |]. split.
  - rewrite Hrun. apply pure_snd.
    apply pure_bind; [apply pure_getitem | intros ex].
    apply pure_bind; [apply pure_getitem | intros endpoint].
    apply pure_bind; [apply pure_dumps | intros body].
    apply pure_bind; [apply pure_read_value | intros url].
    apply pure_lift.
  - intros ex endpoint url doc Hex Hen Hurl Hdoc. rewrite Hrun.
    rewrite (run_bind _ _ _ _ _ (getitem_field _ _ _ _ Hex)).
    rewrite (run_bind _ _ _ _ _ (getitem_field _ _ _ _ Hen)).
    unfold bind, dumps, read_value, lift. rewrite Hdoc, Hurl. reflexivity.
Qed.

Lemma run_model_sends_a_given_input_as_it_is_witness :
  snd (run_model echo_request example_json_dumps full_fake
         example_given_model VNone VNone VNone VNone example_given_input
         example_given_heap)
  = example_given_heap.
Proof.
  apply (run_model_sends_a_given_input_as_it_is echo_request example_json_dumps
           full_fake full_fake example_given_model VNone VNone VNone VNone
           VNone VNone VNone VNone example_given_input example_given_heap).
  vm_compute. discriminate.
Defined.

(** ** The weather adapter *)

Lemma string_app_nil_r (s : string) : s ++ "" = s.
Proof. induction s as [| c s IH]; simpl; [reflexivity | now rewrite IH]. Qed.

Lemma string_app_assoc (a b c : string) : (a ++ b) ++ c = a ++ (b ++ c).
Proof. induction a as [| x a IH]; simpl; [reflexivity | now rewrite IH]. Qed.

Lemma fmt_run_text (arg value : string) (s out : string) :
  has_char "{"%char s = false ->
  has_char "}"%char s = false ->
  fmt_run arg value FmtText s out = Ok (out ++ s).
Proof.
  revert out. induction s as [| c s IH]; intros out Ho Hc; cbn [fmt_run fmt_step].
  - now rewrite string_app_nil_r.
  - cbn [has_char] in Ho, Hc. apply orb_false_iff in Ho. apply orb_false_iff in Hc.
    destruct Ho as [Ho Ho']. destruct Hc as [Hc Hc'].
    rewrite Ascii.eqb_sym in Ho. rewrite Ascii.eqb_sym in Hc.
    rewrite Ho, Hc. cbn [rbind]. rewrite IH by assumption.
    rewrite string_app_assoc. reflexivity.
Qed.

(** The endpoint of a source whose template starts with the one field the
    client fills in. *)
Lemma format_endpoint (base_url rest : string) :
  has_char "{"%char rest = false ->
  has_char "}"%char rest = false ->
  py_format (JStr ("{WEATHER_API_URL}" ++ rest)) "WEATHER_API_URL" (base_url ++ "/api/wx")
  = Ok (base_url ++ "/api/wx" ++ rest).
Proof.
  intros Ho Hc. unfold py_format.
  change (fmt_run "WEATHER_API_URL" (base_url ++ "/api/wx") FmtText
            ("{WEATHER_API_URL}" ++ rest) "")
    with (fmt_run "WEATHER_API_URL" (base_url ++ "/api/wx") FmtText rest
            ("" ++ (base_url ++ "/api/wx"))).
  rewrite fmt_run_text by assumption. simpl. now rewrite string_app_assoc.
Qed.

(** X18: for a source that asks for credentials, [get_weatheradapter]
    writes them into the [params] dict the caller passed: after the call,
    whatever the platform answered, that dict holds
    [json.dumps(credentials)] under ['credentials'], and nothing else in the
    store has changed. *)
Theorem credentials_are_left_in_the_callers_params
    (E : environ) (base_url : string) (http_get http_post : request -> res json)
    (json_dumps : json -> string)
    (source : json) (l : loc) (d : list (string * val)) (credentials template : json)
    (endpoint : string) (h : heap) :
  nth_error h l = Some (ODict d) ->
  jget source "endpoint" = Ok template ->
  py_format template "WEATHER_API_URL" (base_url ++ "/api/wx") = Ok endpoint ->
  jget source "authentication_type" = Ok (JStr "CREDENTIALS") ->
  snd (get_weatheradapter E base_url http_get http_post json_dumps
         source (VRef l) credentials h)
  = replace_nth l (ODict (dict_set "credentials" (VStr (json_dumps credentials)) d)) h.
Proof.
  intros Hl Ht Hf Ha. unfold get_weatheradapter.
  unfold bind at 1. unfold ret at 1.
  unfold bind at 1. unfold lift at 1. rewrite Ht. cbn [rbind]. rewrite Hf.
  unfold bind at 1. unfold lift at 1. rewrite Ha.
  cbn [jeq_str String.eqb Ascii.eqb Bool.eqb negb].
  rewrite (run_bind _ _ _ _ _ (setitem_dict h (VRef l) l "credentials" _ d eq_refl Hl)).
  apply pure_snd.
  apply pure_bind; [apply pure_read_value | intros sent]. apply pure_lift.
Qed.

Lemma credentials_are_left_in_the_callers_params_witness :
  field (snd (get_weatheradapter utc_env example_base_url echo_request echo_request
                example_json_dumps example_metos_source example_adapter_ref
                example_credentials example_adapter_store))
    example_adapter_ref "credentials"
  = Some (VStr (example_json_dumps example_credentials)).
Proof.
  change example_adapter_ref with (VRef 0%nat).
  rewrite (credentials_are_left_in_the_callers_params utc_env example_base_url
             echo_request echo_request example_json_dumps example_metos_source 0%nat
             [("weatherStationId", VInt 732); ("interval", VInt 3600)]
             example_credentials
             (JStr "{WEATHER_API_URL}/rest/weatheradapter/metos/")
             "https://ipmdecisions.nibio.no/api/wx/rest/weatheradapter/metos/"
             example_adapter_store);
    vm_compute; reflexivity.
Defined.
(** X19: for a source that asks for no credentials and whose endpoint is
    ['{WEATHER_API_URL}'] followed by a text without braces,
    [get_weatheradapter] called with [params] makes one GET request, to the
    client's url followed by ['/api/wx'] and that text, with the caller's
    [params]; the credentials are not used and the store is left as it
    was. *)
Theorem adapter_request_of_an_open_source
    (E : environ) (base_url : string) (http_get http_post : request -> res json)
    (json_dumps : json -> string)
    (source : json) (params : val) (credentials auth sent : json) (rest : string)
    (h : heap) :
  params <> VNone ->
  reify (S (List.length h)) h params = Some sent ->
  jget source "endpoint" = Ok (JStr ("{WEATHER_API_URL}" ++ rest)) ->
  has_char "{"%char rest = false ->
  has_char "}"%char rest = false ->
  jget source "authentication_type" = Ok auth ->
  jeq_str auth "CREDENTIALS" = false ->
  get_weatheradapter E base_url http_get http_post json_dumps source params credentials h
  = (http_get (mkRequest (JStr (base_url ++ "/api/wx" ++ rest)) None (Some sent) None), h).
Proof.
  intros Hp Hs Ht Ho Hc Ha Hj. unfold get_weatheradapter.
  assert (Hfirst : (match params with
                    | VNone =>
                        (ps <- lift (weatheradapter_params E source []) ;;
                         new_json (JDict ps))%py
                    | _ => ret params
                    end) h = (Ok params, h)).
  { destruct params; try reflexivity. contradiction. }
  rewrite (run_bind _ _ _ _ _ Hfirst).
  unfold bind at 1. unfold lift at 1. rewrite Ht. cbn [rbind].
  rewrite (format_endpoint base_url rest Ho Hc).
  unfold bind at 1. unfold lift at 1. rewrite Ha. rewrite Hj. cbn [negb].
  unfold bind, read_value, lift. rewrite Hs. reflexivity.
Qed.

Lemma adapter_request_of_an_open_source_witness :
  get_weatheradapter utc_env example_base_url echo_request (answer_with JNull)
    example_json_dumps example_fmi_source example_adapter_ref example_credentials
    example_adapter_store
  = (Ok (JDict [("url",
                 JStr "https://ipmdecisions.nibio.no/api/wx/rest/weatheradapter/fmi/");
                ("params", example_adapter_params);
                ("data", JNull)]),
     example_adapter_store).
Proof.
  apply (adapter_request_of_an_open_source utc_env example_base_url echo_request
           (answer_with JNull) example_json_dumps example_fmi_source example_adapter_ref
           example_credentials (JStr "NONE") example_adapter_params
           "/rest/weatheradapter/fmi/" example_adapter_store);
    solve [vm_compute; reflexivity | vm_compute; discriminate].
Defined.

(** * Further properties of [model_input] *)

(** ** Models and documents [model_input] cannot work with *)

Lemma getitem_missing (h : heap) (v : val) (k : string) (d : list (string * val)) :
  lookup h v = Some (ODict d) -> has_key k d = false ->
  getitem v k h = (Raise (KeyError (JStr k)), h).
Proof.
  unfold lookup, getitem, bind, deref, has_key.
  destruct v; try discriminate. intros ->.
  destruct (assoc k d); [discriminate | reflexivity].
Qed.

Lemma lookup_app (h ext : heap) (v : val) (o : obj) :
  lookup h v = Some o -> lookup (h ++ ext)%list v = Some o.
Proof.
  unfold lookup. destruct v; try discriminate. intros H.
  rewrite nth_error_app1; [exact H | apply nth_error_Some; congruence].
Qed.

(** X20: a model whose input schema has ['properties'] without
    ['configParameters'] is refused with [KeyError], whatever the other
    arguments are; all the call has done by then is to copy the schema. *)
Theorem schema_without_configParameters_is_refused
    (jsf : json -> res json) (h0 : heap) (model p w fo foq ex orig props : val)
    (d dp : list (string * val)) :
  field h0 model "execution" = Some ex ->
  field h0 ex "input_schema" = Some orig ->
  lookup h0 orig = Some (ODict d) ->
  assoc "properties" d = Some props ->
  lookup h0 props = Some (ODict dp) ->
  has_key "configParameters" dp = false ->
  model_input jsf model p w fo foq h0
  = (Raise (KeyError (JStr "configParameters")), (h0 ++ [ODict d])%list).
Proof.
  intros Hex Hor Hd Hp Hdp Hk. unfold model_input.
  apply run_bind_raise. unfold prepare_schema.
  rewrite (run_bind _ _ _ _ _ (getitem_field _ _ _ _ Hex)).
  rewrite (run_bind _ _ _ _ _ (getitem_field _ _ _ _ Hor)).
  assert (Hcopy : copy orig h0 = (Ok (VRef (List.length h0)), (h0 ++ [ODict d])%list)).
  { unfold lookup in Hd. destruct orig; try discriminate.
    unfold copy, bind, deref, alloc. rewrite Hd. reflexivity. }
  rewrite (run_bind _ _ _ _ _ Hcopy).
  assert (Hprops : field (h0 ++ [ODict d])%list (VRef (List.length h0)) "properties"
                   = Some props).
  { unfold field, lookup. rewrite nth_error_app2 by lia. rewrite Nat.sub_diag. exact Hp. }
  rewrite (run_bind _ _ _ _ _ (getitem_field _ _ _ _ Hprops)).
  apply run_bind_raise.
  apply (getitem_missing _ _ _ dp); [now apply lookup_app | exact Hk].
Qed.

Lemma schema_without_configParameters_is_refused_witness :
  exists h,
    model_input full_fake (ref_of example_bare_model) VNone VNone VNone VNone
      (store_of example_bare_model)
    = (Raise (KeyError (JStr "configParameters")), h).
Proof.
  eexists.
  eapply (schema_without_configParameters_is_refused full_fake
            (store_of example_bare_model) (ref_of example_bare_model));
    solve [vm_compute; reflexivity].
Defined.

(** X21: a model whose [input.weather_parameters] is the empty list makes
    [model_input] raise [IndexError] once the document is generated and
    filled in, with or without weather data: line 877 reads the interval of
    the first declared parameter. *)
Theorem empty_weather_parameters_raise
    (jsf : json -> res json) (h0 h1 h2 h3 : heap)
    (model p w fo foq schema cfg input inp wp : val) :
  prepare_schema model h0 = (Ok (schema, cfg), h1) ->
  generate jsf schema h1 = (Ok input, h2) ->
  fill_config input cfg p h2 = (Ok tt, h3) ->
  field h3 model "input" = Some inp ->
  field h3 inp "weather_parameters" = Some wp ->
  lookup h3 wp = Some (OList []) ->
  model_input jsf model p w fo foq h0 = (Raise IndexError, h3).
Proof.
  intros H1 H2 H3 Hin Hwp Hl. unfold model_input.
  rewrite (run_bind _ _ _ _ _ H1). cbv beta iota.
  rewrite (run_bind _ _ _ _ _ H2).
  rewrite (run_bind _ _ _ _ _ H3).
  apply run_bind_raise. unfold weather_requirements.
  rewrite (run_bind _ _ _ _ _ (getitem_field _ _ _ _ Hin)).
  rewrite (run_bind _ _ _ _ _ (getitem_field _ _ _ _ Hwp)).
  unfold lookup in Hl. destruct wp as [| | | | | l]; try discriminate.
  rewrite (run_bind _ _ _ _ _ (getitem_field _ _ _ _ Hin)).
  rewrite (run_bind _ _ _ _ _ (getitem_field _ _ _ _ Hwp)).
  assert (Hit : iterate (VRef l) h3 = (Ok [], h3)).
  { unfold iterate, bind, deref, ret. now rewrite Hl. }
  rewrite (run_bind _ _ _ _ _ Hit). cbn [map_each].
  unfold bind at 1. unfold ret at 1.
  rewrite (run_bind _ _ _ _ _ (getitem_field _ _ _ _ Hin)).
  rewrite (run_bind _ _ _ _ _ (getitem_field _ _ _ _ Hwp)).
  apply run_bind_raise. unfold getfirst, bind, deref, raise. now rewrite Hl.
Qed.

Lemma empty_weather_parameters_raise_witness :
  exists h,
    model_input full_fake
      (ref_of (example_model_with_input (JDict [("weather_parameters", JList [])])))
      VNone VNone VNone VNone
      (store_of (example_model_with_input (JDict [("weather_parameters", JList [])])))
    = (Raise IndexError, h).
Proof.
  eexists.
  eapply (empty_weather_parameters_raise full_fake
            (store_of (example_model_with_input (JDict [("weather_parameters", JList [])]))));
    solve [vm_compute; reflexivity].
Defined.

Lemma fill_config_without_configParameters (input cfg p : val) (h2 h3 : heap)
    (di : list (string * val)) :
  lookup h2 input = Some (ODict di) ->
  has_key "configParameters" di = false ->
  fill_config input cfg p h2 = (Ok tt, h3) ->
  lookup h3 input = Some (ODict di).
Proof.
  intros Hl Hk Hrun. unfold fill_config in Hrun.
  apply bind_ok in Hrun. destruct Hrun as [par [hs [Hp Hrun]]].
  assert (Hs : lookup hs input = Some (ODict di)).
  { destruct p; try (unfold ret in Hp; injection Hp as _ <-; exact Hl).
    unfold alloc in Hp. injection Hp as _ <-. now apply lookup_app. }
  rewrite (run_bind _ _ _ _ _ (contains_key _ _ "configParameters" _ Hs)) in Hrun.
  rewrite Hk in Hrun. unfold ret in Hrun. now injection Hrun as <-.
Qed.

(** X22: when the generated document has no ['configParameters'], the
    call raises [KeyError] at line 891 once the weather data is dealt with:
    lines 863-870 allow for its absence, the loop over the field
    observations does not. *)
Theorem document_without_configParameters_raises
    (jsf : json -> res json) (h0 h1 h2 h3 h4 h5 : heap)
    (model p w fo foq schema cfg input : val) (di : list (string * val))
    (required : list val) (interval : val) :
  prepare_schema model h0 = (Ok (schema, cfg), h1) ->
  generate jsf schema h1 = (Ok input, h2) ->
  lookup h2 input = Some (ODict di) ->
  has_key "configParameters" di = false ->
  fill_config input cfg p h2 = (Ok tt, h3) ->
  weather_requirements model h3 = (Ok (required, interval), h4) ->
  add_weather model schema input w required interval h4 = (Ok tt, h5) ->
  model_input jsf model p w fo foq h0
  = (Raise (KeyError (JStr "configParameters")), h5).
Proof.
  intros H1 H2 Hl Hk H3 H4 H5.
  rewrite (model_input_after_skeleton jsf h0 h1 h2 h3 h4 model p w fo foq schema cfg
             input required interval H1 H2 H3 H4).
  rewrite (run_bind _ _ _ _ _ H5).
  apply run_bind_raise. unfold add_fieldob. apply run_bind_raise.
  pose proof (fill_config_without_configParameters _ _ _ _ _ _ Hl Hk H3) as Hl3.
  pose proof (weather_requirements_pure model _ _ _ H4) as ->.
  destruct (add_weather_effect _ _ _ _ _ _ _ _ H5) as [-> | [l [d [-> [Hd ->]]]]].
  - now apply (getitem_missing _ _ _ di).
  - unfold lookup in Hl3. rewrite Hd in Hl3. injection Hl3 as ->.
    apply (getitem_missing _ _ _ (dict_set "weatherData" w di)).
    + unfold lookup. apply nth_error_replace_nth_eq. apply nth_error_Some. congruence.
    + unfold has_key in *. rewrite assoc_dict_set_neq by discriminate. exact Hk.
Qed.

Lemma document_without_configParameters_raises_witness :
  exists h,
    model_input empty_fake example_model_ref VNone VNone VNone VNone example_store
    = (Raise (KeyError (JStr "configParameters")), h).
Proof.
  eexists.
  eapply (document_without_configParameters_raises empty_fake example_store);
    solve [vm_compute; reflexivity].
Defined.

(** ** What the composed document shares with the caller *)

Lemma field_set_other_key (h : heap) (l : loc) (d : list (string * val))
    (k a : string) (y : val) (v : val) :
  nth_error h l = Some (ODict d) -> a <> k ->
  field (replace_nth l (ODict (dict_set k y d)) h) v a = field h v a.
Proof.
  intros Hl Hne. unfold field, lookup. destruct v as [| | | | | l']; try reflexivity.
  destruct (Nat.eq_dec l l') as [<- | Hll].
  - rewrite nth_error_replace_nth_eq by (apply nth_error_Some; congruence).
    rewrite Hl. now apply assoc_dict_set_neq.
  - now rewrite nth_error_replace_nth_neq.
Qed.

Lemma add_fieldob_keeps (model input cfg pvalue v : val) (p a : string) (h h' : heap) :
  a <> p ->
  add_fieldob model input cfg p pvalue h = (Ok tt, h') ->
  field h' v a = field h v a.
Proof.
  intros Hne Hrun.
  destruct (add_fieldob_effect _ _ _ _ _ _ _ Hrun) as [-> | [l [d [_ [Hl ->]]]]];
    [reflexivity |].
  now apply field_set_other_key.
Qed.

(** X23: when a call that is given weather data, for a document or a
    schema that has [weatherData], returns, what it returns is the
    generated document, and under ['weatherData'] it holds the caller's
    weather-data object itself, not a copy of it. *)
Theorem composed_input_holds_the_callers_weather_data
    (jsf : json -> res json) (h0 h1 h2 h3 h4 hf : heap)
    (model p w fo foq schema cfg input r : val)
    (required : list val) (interval : val) (di dw : list (string * val)) :
  prepare_schema model h0 = (Ok (schema, cfg), h1) ->
  generate jsf schema h1 = (Ok input, h2) ->
  fill_config input cfg p h2 = (Ok tt, h3) ->
  weather_requirements model h3 = (Ok (required, interval), h4) ->
  lookup h4 input = Some (ODict di) ->
  lookup h4 w = Some (ODict dw) ->
  (has_key "weatherData" di = true
   \/ exists props dp,
        field h4 schema "properties" = Some props
        /\ lookup h4 props = Some (ODict dp)
        /\ has_key "weatherData" dp = true) ->
  model_input jsf model p w fo foq h0 = (Ok r, hf) ->
  r = input /\ field hf r "weatherData" = Some w.
Proof.
  intros H1 H2 H3 H4 Hin Hwd Hc Hrun.
  rewrite (model_input_after_skeleton jsf h0 h1 h2 h3 h4 model p w fo foq schema cfg
             input required interval H1 H2 H3 H4) in Hrun.
  apply bind_ok in Hrun. destruct Hrun as [[] [h5 [Hw Hrun]]].
  apply bind_ok in Hrun. destruct Hrun as [[] [h6 [Hfo Hrun]]].
  apply bind_ok in Hrun. destruct Hrun as [[] [h7 [Hfoq Hrun]]].
  unfold ret in Hrun. injection Hrun as <- <-.
  split; [reflexivity |].
  rewrite (add_weather_supplied h4 input w dw Hwd model schema di required interval Hin Hc)
    in Hw.
  destruct (check_and_set_weather_effect _ _ _ _ _ _ _ Hw) as [l [d [-> [Hl ->]]]].
  rewrite (add_fieldob_keeps model (VRef l) cfg foq (VRef l)
             "fieldObservationQuantifications" "weatherData" h6 h7
             ltac:(discriminate) Hfoq).
  rewrite (add_fieldob_keeps model (VRef l) cfg fo (VRef l)
             "fieldObservations" "weatherData" _ h6 ltac:(discriminate) Hfo).
  unfold field, lookup.
  rewrite nth_error_replace_nth_eq by (apply nth_error_Some; congruence).
  apply assoc_dict_set_eq.
Qed.

Lemma composed_input_holds_the_callers_weather_data_witness :
  exists r hf,
    model_input full_fake (example_arg 0) (example_arg 1) (example_arg 2)
      (example_arg 3) (example_arg 4) (snd example_args_store) = (Ok r, hf)
    /\ field hf r "weatherData" = Some (example_arg 2).
Proof.
  eexists. eexists.
  split; [vm_compute; reflexivity |].
  unshelve eapply (proj2
             (composed_input_holds_the_callers_weather_data full_fake
                (snd example_args_store) _ _ _ _ _
                (example_arg 0) (example_arg 1) (example_arg 2)
                (example_arg 3) (example_arg 4) _ _ _ _ _ _ _ _ _ _ _ _ _ _ _ _));
    try solve [vm_compute; reflexivity].
  left. vm_compute. reflexivity.
Defined.

(** ** Parameters the generated document has no place for *)

Lemma assoc_none_not_in {A : Type} (k : string) (d : list (string * A)) :
  assoc k d = None -> ~ In k (map fst d).
Proof.
  induction d as [| [k' v'] d IH]; simpl; [tauto |].
  destruct (String.eqb_spec k k') as [-> | Hne]; [discriminate |].
  intros H [E | Hin]; [congruence | now apply IH].
Qed.

Lemma fill_loop_other_keys (hs : heap) (lcp : loc) (input cfg par : val) :
  par <> VRef lcp -> input <> VRef lcp -> cfg <> VRef lcp ->
  (forall cprops, field hs cfg "properties" = Some cprops -> cprops <> VRef lcp) ->
  (forall cprops q decl,
     field hs cfg "properties" = Some cprops -> field hs cprops q = Some decl ->
     decl <> VRef lcp) ->
  field hs input "configParameters" = Some (VRef lcp) ->
  forall (keys : list string) (h h' : heap) (d : list (string * val)),
    agree_except lcp h hs ->
    nth_error h lcp = Some (ODict d) ->
    for_each keys (fill_one input cfg par) h = (Ok tt, h') ->
    agree_except lcp h' hs
    /\ exists d', nth_error h' lcp = Some (ODict d')
                  /\ forall k, ~ In k keys -> assoc k d' = assoc k d.
Proof.
  intros Hpar Hinput Hcfg Hcprops Hdecl Hcp.
  induction keys as [| p keys IH]; intros h h' d Ha Hd Hrun; simpl in Hrun.
  - unfold ret in Hrun. injection Hrun as <-. split; [exact Ha |].
    exists d. split; [exact Hd | reflexivity].
  - apply bind_ok in Hrun. destruct Hrun as [[] [h1 [H1 Hrun]]].
    destruct (fill_one_effect hs lcp input cfg par Hpar Hinput Hcfg Hcprops Hdecl Hcp
                p h h1 d Ha Hd H1) as [Ha1 Hd1].
    destruct (IH h1 h' _ Ha1 Hd1 Hrun) as [Ha' [d' [Hd' Hk']]].
    split; [exact Ha' |]. exists d'. split; [exact Hd' |].
    intros k Hk. rewrite Hk' by (intros Hin; apply Hk; now right).
    destruct (config_choice hs par cfg p); [| reflexivity].
    apply assoc_dict_set_neq. intros ->. apply Hk. now left.
Qed.

(** Lines 860-870 give the generated [configParameters] no new key. *)
Lemma fill_config_other_keys (h2 h3 : heap) (B li lcp : nat) (cfg parameters : val)
    (dcp : list (string * val)) :
  (B <= lcp)%nat -> (lcp < li)%nat -> (li < List.length h2)%nat ->
  val_below B parameters = true ->
  val_below B cfg = true ->
  (forall v a x, val_below B v = true -> field h2 v a = Some x -> val_below B x = true) ->
  field h2 (VRef li) "configParameters" = Some (VRef lcp) ->
  nth_error h2 lcp = Some (ODict dcp) ->
  fill_config (VRef li) cfg parameters h2 = (Ok tt, h3) ->
  field h3 (VRef li) "configParameters" = Some (VRef lcp)
  /\ exists d3,
       nth_error h3 lcp = Some (ODict d3)
       /\ forall k, assoc k dcp = None -> assoc k d3 = None.
Proof.
  intros HB Hlt Hli Hpar Hcfg Hcl Hcp Hd Hrun. unfold fill_config in Hrun.
  apply bind_ok in Hrun. destruct Hrun as [par [hs [Hp Hrun]]].
  assert (Hs : exists extp, hs = (h2 ++ extp)%list /\ par <> VRef lcp).
  { destruct parameters;
      try (unfold ret in Hp; injection Hp as <- <-; exists []; rewrite app_nil_r;
           split; [reflexivity |]; first [discriminate | now apply (below_ne B)]).
    unfold alloc in Hp. injection Hp as <- <-. exists [ODict []].
    split; [reflexivity |]. intros [= E]. lia. }
  destruct Hs as [extp [-> Hparne]].
  assert (Hlen : (B <= List.length h2)%nat) by lia.
  assert (Hcp' : field (h2 ++ extp)%list (VRef li) "configParameters" = Some (VRef lcp)).
  { rewrite field_app_below; [exact Hcp | simpl; now apply Nat.ltb_lt]. }
  assert (Hd' : nth_error (h2 ++ extp)%list lcp = Some (ODict dcp)).
  { rewrite nth_error_app1 by lia. exact Hd. }
  destruct (field_lookup _ _ _ _ Hcp') as [di [Hldi Hadi]].
  rewrite (run_bind _ _ _ _ _ (contains_key _ _ "configParameters" _ Hldi)) in Hrun.
  unfold has_key in Hrun. rewrite Hadi in Hrun.
  rewrite (run_bind _ _ _ _ _ (getitem_field _ _ _ _ Hcp')) in Hrun.
  assert (Hit : iterate_keys (VRef lcp) (h2 ++ extp)%list
                = (Ok (map fst dcp), (h2 ++ extp)%list)).
  { unfold iterate_keys, bind, deref, ret. now rewrite Hd'. }
  rewrite (run_bind _ _ _ _ _ Hit) in Hrun.
  assert (Hbelow : forall v, val_below B v = true ->
                             val_below (List.length h2) v = true).
  { intros v Hv. now apply (val_below_mono B). }
  assert (Hcprops : forall cprops,
             field (h2 ++ extp)%list cfg "properties" = Some cprops ->
             val_below B cprops = true).
  { intros cprops Hf. rewrite field_app_below in Hf by now apply Hbelow.
    exact (Hcl _ _ _ Hcfg Hf). }
  assert (Hdecl : forall cprops q decl,
             field (h2 ++ extp)%list cfg "properties" = Some cprops ->
             field (h2 ++ extp)%list cprops q = Some decl ->
             val_below B decl = true).
  { intros cprops q decl Hf Hq. pose proof (Hcprops _ Hf) as Hb.
    rewrite field_app_below in Hq by now apply Hbelow.
    exact (Hcl _ _ _ Hb Hq). }
  destruct (fill_loop_other_keys (h2 ++ extp)%list lcp (VRef li) cfg par
              Hparne ltac:(intros [= E]; lia) (below_ne B lcp cfg Hcfg HB)
              (fun cprops Hf => below_ne B lcp cprops (Hcprops cprops Hf) HB)
              (fun cprops q decl Hf Hq =>
                 below_ne B lcp decl (Hdecl cprops q decl Hf Hq) HB)
              Hcp' (map fst dcp) (h2 ++ extp)%list h3 dcp
              (fun l' _ => eq_refl) Hd' Hrun)
    as [Ha [d3 [Hd3 Hk]]].
  split.
  - rewrite (field_agree lcp h3 (h2 ++ extp)%list (VRef li) _ Ha); [exact Hcp' |].
    intros [= E]. lia.
  - exists d3. split; [exact Hd3 |].
    intros k Hk0. rewrite Hk by now apply assoc_none_not_in. exact Hk0.
Qed.

Lemma config_dict_add_weather (model schema weather_data : val)
    (required : list val) (interval : val) (h h' : heap)
    (li lcp : nat) (d : list (string * val)) :
  li <> lcp ->
  field h (VRef li) "configParameters" = Some (VRef lcp) ->
  nth_error h lcp = Some (ODict d) ->
  add_weather model schema (VRef li) weather_data required interval h = (Ok tt, h') ->
  field h' (VRef li) "configParameters" = Some (VRef lcp)
  /\ nth_error h' lcp = Some (ODict d).
Proof.
  intros Hne Hcp Hd Hrun.
  destruct (add_weather_effect _ _ _ _ _ _ _ _ Hrun) as [-> | [l [di [[= <-] [Hl ->]]]]].
  - now split.
  - split.
    + rewrite field_set_other_key; [exact Hcp | exact Hl | discriminate].
    + now rewrite nth_error_replace_nth_neq.
Qed.

Lemma config_dict_add_fieldob (model cfg pvalue : val) (p : string) (h h' : heap)
    (li lcp : nat) (d : list (string * val)) :
  li <> lcp ->
  field h (VRef li) "configParameters" = Some (VRef lcp) ->
  nth_error h lcp = Some (ODict d) ->
  add_fieldob model (VRef li) cfg p pvalue h = (Ok tt, h') ->
  field h' (VRef li) "configParameters" = Some (VRef lcp)
  /\ exists d', nth_error h' lcp = Some (ODict d')
                /\ forall k, k <> p -> assoc k d' = assoc k d.
Proof.
  intros Hne Hcp Hd Hrun.
  destruct (add_fieldob_effect _ _ _ _ _ _ _ Hrun) as [-> | [l [d' [Hf [Hl ->]]]]].
  - split; [exact Hcp |]. exists d. now split.
  - assert (l = lcp) by congruence. subst l.
    assert (d' = d) by congruence. subst d'.
    split.
    + unfold field, lookup in *.
      rewrite nth_error_replace_nth_neq by congruence. exact Hcp.
    + exists (dict_set p pvalue d). split.
      * apply nth_error_replace_nth_eq. apply nth_error_Some. congruence.
      * intros k Hk. now apply assoc_dict_set_neq.
Qed.

(** X24: a key the generated [configParameters] do not hold is not added
    to them, unless it is one of the two field-observation properties:
    after a call that returns, made from a closed store with the caller's
    parameters in it, the composed [configParameters] have no entry for the
    key, also when the caller's [parameters] give one. *)
Theorem parameters_for_absent_keys_are_dropped
    (jsf : json -> res json) (h0 h1 h2 hf : heap)
    (model parameters w fo foq schema cfg input r cp : val)
    (dcp : list (string * val)) (k : string) :
  closed h0 = true ->
  val_below (List.length h0) parameters = true ->
  prepare_schema model h0 = (Ok (schema, cfg), h1) ->
  generate jsf schema h1 = (Ok input, h2) ->
  field h2 input "configParameters" = Some cp ->
  lookup h2 cp = Some (ODict dcp) ->
  has_key k dcp = false ->
  ~ In k fieldobs ->
  model_input jsf model parameters w fo foq h0 = (Ok r, hf) ->
  r = input
  /\ field hf r "configParameters" = Some cp
  /\ field hf cp k = None.
Proof.
  intros Hc Hpar H1 H2 Hcp Hdcp Hk Hnf Hrun.
  destruct (prepare_schema_grows _ _ _ _ _ H1) as [Hlen Hcl]. specialize (Hcl Hc).
  destruct (prepare_schema_effect _ _ _ _ _ H1)
    as [ex [orig [props [cprops [_ [_ [_ [Es [_ [Hcfgf _]]]]]]]]]].
  pose proof (closed_field _ _ _ _ Hcl Hcfgf) as Hcfg.
  destruct (generate_fresh _ _ _ _ _ H2) as [ext [-> [F [Hfrom Hbel]]]].
  destruct (field_ref _ _ _ _ Hcp) as [li [di [-> [Hli Hadi]]]].
  simpl in Hfrom, Hbel. apply Nat.leb_le in Hfrom. apply Nat.ltb_lt in Hbel.
  destruct (fresh_field _ _ _ _ _ F Hfrom Hcp) as [Hcpfrom Hcpbel].
  unfold lookup in Hdcp. destruct cp as [| | | | | lcp]; try discriminate.
  simpl in Hcpfrom, Hcpbel. apply Nat.leb_le in Hcpfrom. apply Nat.ltb_lt in Hcpbel.
  assert (Hclb : forall v a x,
             val_below (List.length h1) v = true ->
             field (h1 ++ ext)%list v a = Some x ->
             val_below (List.length h1) x = true).
  { intros v a x Hv Hf. rewrite field_app_below in Hf by exact Hv.
    exact (closed_field _ _ _ _ Hcl Hf). }
  unfold model_input in Hrun.
  rewrite (run_bind _ _ _ _ _ H1) in Hrun. cbv beta iota in Hrun.
  rewrite (run_bind _ _ _ _ _ H2) in Hrun.
  apply bind_ok in Hrun. destruct Hrun as [[] [h3 [H3 Hrun]]].
  destruct (fill_config_other_keys _ _ (List.length h1) li lcp cfg parameters dcp
              Hcpfrom Hcpbel Hbel
              (val_below_mono _ _ _ Hlen Hpar) Hcfg Hclb Hcp Hdcp H3)
    as [Hcp3 [d3 [Hd3 Hk3]]].
  apply bind_pure_ok in Hrun; [| apply weather_requirements_pure].
  destruct Hrun as [[required interval] [_ Hrun]].
  apply bind_ok in Hrun. destruct Hrun as [[] [h4 [H4 Hrun]]].
  apply bind_ok in Hrun. destruct Hrun as [[] [h5 [H5 Hrun]]].
  unfold ret in Hrun. injection Hrun as <- <-.
  unfold add_fieldobs, fieldobs in H5. cbn [combine for_each] in H5.
  apply bind_ok in H5. destruct H5 as [[] [h4a [Hfo H5]]].
  apply bind_ok in H5. destruct H5 as [[] [h4b [Hfoq H5]]].
  unfold ret in H5. injection H5 as <-.
  assert (Hne : li <> lcp) by lia.
  rewrite Es in H4.
  destruct (config_dict_add_weather _ _ _ _ _ _ _ li lcp d3 Hne Hcp3 Hd3 H4)
    as [Hcp4 Hd4].
  destruct (config_dict_add_fieldob _ _ _ _ _ _ li lcp d3 Hne Hcp4 Hd4 Hfo)
    as [Hcp4a [d4a [Hd4a Hk4a]]].
  destruct (config_dict_add_fieldob _ _ _ _ _ _ li lcp d4a Hne Hcp4a Hd4a Hfoq)
    as [Hcp4b [d4b [Hd4b Hk4b]]].
  split; [reflexivity |]. split; [exact Hcp4b |].
  unfold field, lookup. rewrite Hd4b.
  rewrite Hk4b by (intros ->; apply Hnf; unfold fieldobs; simpl; tauto).
  rewrite Hk4a by (intros ->; apply Hnf; unfold fieldobs; simpl; tauto).
  apply Hk3. unfold has_key in Hk. destruct (assoc k dcp); [discriminate | reflexivity].
Qed.

Lemma parameters_for_absent_keys_are_dropped_witness :
  exists r hf cp,
    model_input full_fake (example_extra_arg 0) (example_extra_arg 1)
      (example_extra_arg 2) (example_extra_arg 3) (example_extra_arg 4)
      (snd example_extra_args_store) = (Ok r, hf)
    /\ field (snd example_extra_args_store) (example_extra_arg 1) "startDate"
       = Some (VStr "2020-03-01")
    /\ field hf r "configParameters" = Some cp
    /\ field hf cp "startDate" = None.
Proof.
  eexists. eexists. eexists.
  split; [vm_compute; reflexivity |].
  split; [vm_compute; reflexivity |].
  unshelve eapply (proj2
             (parameters_for_absent_keys_are_dropped full_fake
                (snd example_extra_args_store) _ _ _
                (example_extra_arg 0) (example_extra_arg 1) (example_extra_arg 2)
                (example_extra_arg 3) (example_extra_arg 4) _ _ _ _ _ _ "startDate"
                _ _ _ _ _ _ _ _ _));
    try solve [vm_compute; reflexivity].
  intros [H | [H | []]]; discriminate.
Defined.

(** ** The copy of the schema *)

Lemma assoc_dict_remove_same {A : Type} (k : string) (d : list (string * A)) :
  NoDup (map fst d) -> assoc k (dict_remove k d) = None.
Proof.
  induction d as [| [k' v'] d IH]; simpl; [reflexivity |].
  intros Hnd. inversion Hnd as [| x xs Hni Hnd']; subst.
  destruct (String.eqb_spec k k') as [-> | Hne]; simpl.
  - destruct (assoc k' d) eqn:E; [| reflexivity].
    exfalso. apply Hni. clear - E. induction d as [| [k2 v2] d IH]; simpl in *.
    + discriminate.
    + destruct (String.eqb_spec k' k2) as [-> | Hne]; [now left | right; now apply IH].
  - destruct (String.eqb_spec k k'); [contradiction | now apply IH].
Qed.

(** What putting a placeholder in place does to the store. *)
Lemma replace_declared_form (owner tgt : val) (attr k tok : string) (declared : bool)
    (h h' : heap) :
  field h owner attr = Some tgt ->
  val_below (List.length h) tgt = true ->
  (if declared then
     d <- alloc (placeholder_schema tok) ;;
     t <- getitem owner attr ;;
     setitem t k d
   else ret tt)%py h = (Ok tt, h') ->
  h' = h
  \/ exists lt dt,
       tgt = VRef lt /\ nth_error h lt = Some (ODict dt)
       /\ h' = replace_nth lt (ODict (dict_set k (VRef (List.length h)) dt))
                 (h ++ [placeholder_schema tok])%list.
Proof.
  intros Hf Hb Hrun. destruct declared.
  - right.
    apply bind_ok in Hrun. destruct Hrun as [d [ha [Ha Hrun]]].
    unfold alloc in Ha. injection Ha as <- <-.
    assert (Hf' : field (h ++ [placeholder_schema tok])%list owner attr = Some tgt).
    { destruct (field_ref _ _ _ _ Hf) as [lo [dd [-> [Hlo Hao]]]].
      unfold field, lookup. rewrite nth_error_app1 by (apply nth_error_Some; congruence).
      now rewrite Hlo. }
    rewrite (run_bind _ _ _ _ _ (getitem_field _ _ _ _ Hf')) in Hrun.
    apply setitem_inv in Hrun. destruct Hrun as [lt [dt [-> [Hlt ->]]]].
    simpl in Hb. apply Nat.ltb_lt in Hb.
    rewrite nth_error_app1 in Hlt by exact Hb.
    now exists lt, dt.
  - left. unfold ret in Hrun. now injection Hrun as <-.
Qed.

(** A placeholder put under one of [keys] in an object older than [n]
    leaves the object at [n], and what older objects hold under other
    keys, as they were. *)
Lemma placeholder_step (n : nat) (keys : list string) (h0 h h' : heap) (o : obj)
    (tgt : val) (k tok : string) :
  (n < List.length h)%nat ->
  nth_error h n = Some o ->
  (forall v a, ~ In a keys -> val_below n v = true -> field h v a = field h0 v a) ->
  In k keys ->
  val_below n tgt = true ->
  (h' = h
   \/ exists lt dt,
        tgt = VRef lt /\ nth_error h lt = Some (ODict dt)
        /\ h' = replace_nth lt (ODict (dict_set k (VRef (List.length h)) dt))
                  (h ++ [placeholder_schema tok])%list) ->
  (n < List.length h')%nat
  /\ nth_error h' n = Some o
  /\ (forall v a, ~ In a keys -> val_below n v = true -> field h' v a = field h0 v a).
Proof.
  intros Hn Ho Hinv Hk Hb [-> | [lt [dt [-> [Hlt ->]]]]]; [now repeat split |].
  simpl in Hb. apply Nat.ltb_lt in Hb.
  assert (Hlt' : nth_error (h ++ [placeholder_schema tok])%list lt = Some (ODict dt)).
  { rewrite nth_error_app1; [exact Hlt | apply nth_error_Some; congruence]. }
  split; [rewrite length_replace_nth, length_app; lia |]. split.
  - rewrite nth_error_replace_nth_neq by lia. now rewrite nth_error_app1.
  - intros v a Ha Hv.
    rewrite field_set_other_key; [| exact Hlt' | intros ->; contradiction].
    rewrite field_app_below; [now apply Hinv |].
    apply (val_below_mono n); [lia | exact Hv].
Qed.

(** X25: when the schema preparation goes through, from a closed store
    and for an input schema that holds each key once, the working schema
    has no ['definitions'], the model's own input schema has the
    ['definitions'] it had, and under every other key the working schema
    holds the very value the model's schema held before the call: the copy
    is one level deep. *)
Theorem definitions_are_dropped_from_the_copy_only
    (h0 h1 : heap) (model schema cfg ex orig : val) (d : list (string * val)) :
  closed h0 = true ->
  field h0 model "execution" = Some ex ->
  field h0 ex "input_schema" = Some orig ->
  lookup h0 orig = Some (ODict d) ->
  NoDup (map fst d) ->
  prepare_schema model h0 = (Ok (schema, cfg), h1) ->
  field h1 schema "definitions" = None
  /\ (forall k, k <> "definitions" -> field h1 schema k = field h0 orig k)
  /\ field h1 orig "definitions" = field h0 orig "definitions".
Proof.
  intros Hc Hex Hor Hd Hnd Hrun.
  set (keys := ["weatherData"; "fieldObservations"; "fieldObservationQuantifications"]).
  set (n := List.length h0).
  unfold prepare_schema in Hrun.
  rewrite (run_bind _ _ _ _ _ (getitem_field _ _ _ _ Hex)) in Hrun.
  rewrite (run_bind _ _ _ _ _ (getitem_field _ _ _ _ Hor)) in Hrun.
  assert (Hob : val_below n orig = true).
  { unfold lookup in Hd. destruct orig; try discriminate. simpl.
    apply Nat.ltb_lt. apply nth_error_Some. congruence. }
  assert (Hcopy : copy orig h0 = (Ok (VRef n), (h0 ++ [ODict d])%list)).
  { unfold lookup in Hd. destruct orig; try discriminate.
    unfold copy, bind, deref, alloc. rewrite Hd. reflexivity. }
  rewrite (run_bind _ _ _ _ _ Hcopy) in Hrun.
  assert (I0 : (n < List.length (h0 ++ [ODict d])%list)%nat
               /\ nth_error (h0 ++ [ODict d])%list n = Some (ODict d)
               /\ (forall v a, ~ In a keys -> val_below n v = true ->
                     field (h0 ++ [ODict d])%list v a = field h0 v a)).
  { split; [rewrite length_app; simpl; lia |]. split.
    - rewrite nth_error_app2 by (unfold n; lia). unfold n. now rewrite Nat.sub_diag.
    - intros v a _ Hv. now apply field_app_below. }
  assert (Hbelow0 : forall v a x, val_below n v = true -> field h0 v a = Some x ->
                                  val_below n x = true).
  { intros v a x _ Hf. exact (closed_field _ _ _ _ Hc Hf). }
  (* properties and configParameters *)
  apply bind_ok in Hrun. destruct Hrun as [props [ha [Hg Hrun]]].
  destruct (getitem_inv _ _ _ _ _ Hg) as [-> Hprops]. specialize (Hprops props eq_refl).
  clear Hg.
  assert (Hpd : assoc "properties" d = Some props).
  { unfold field, lookup in Hprops. rewrite (proj1 (proj2 I0)) in Hprops. exact Hprops. }
  assert (Hpb : val_below n props = true).
  { apply (Hbelow0 orig "properties"); [exact Hob |]. unfold field. now rewrite Hd. }
  apply bind_ok in Hrun. destruct Hrun as [cfg' [ha [Hg Hrun]]].
  destruct (getitem_inv _ _ _ _ _ Hg) as [-> Hcfg]. specialize (Hcfg cfg' eq_refl).
  clear Hg.
  rewrite (proj2 (proj2 I0)) in Hcfg by (try exact Hpb; simpl; intuition discriminate).
  assert (Hcb : val_below n cfg' = true) by exact (Hbelow0 _ _ _ Hpb Hcfg).
  rewrite (run_bind _ _ _ _ _ (getitem_field _ _ _ _ Hprops)) in Hrun.
  (* weatherData *)
  apply bind_ok in Hrun. destruct Hrun as [declared [ha [Hcw Hrun]]].
  pose proof (contains_inv _ _ _ _ _ Hcw) as ->. clear Hcw.
  apply bind_ok in Hrun. destruct Hrun as [[] [hc [Hw Hrun]]].
  assert (Iw : (n < List.length hc)%nat
               /\ nth_error hc n = Some (ODict d)
               /\ (forall v a, ~ In a keys -> val_below n v = true ->
                     field hc v a = field h0 v a)).
  { destruct I0 as [L0 [N0 F0]].
    apply (placeholder_step n keys h0 (h0 ++ [ODict d])%list hc (ODict d) props
             "weatherData" "{WEATHER_DATA}" L0 N0 F0);
      [simpl; tauto | exact Hpb |].
    apply (replace_declared_form (VRef n) props "properties" "weatherData" _ declared);
      [exact Hprops | apply (val_below_mono n); [lia | exact Hpb] | exact Hw]. }
  clear Hw I0.
  (* the two field-observation properties *)
  assert (Hstep : forall p h h',
             In p fieldobs ->
             (n < List.length h)%nat
             /\ nth_error h n = Some (ODict d)
             /\ (forall v a, ~ In a keys -> val_below n v = true ->
                   field h v a = field h0 v a) ->
             (cprops <- getitem cfg' "properties" ;;
              declared <- contains (VStr p) cprops ;;
              if declared then
                d <- alloc (placeholder_schema ("{" ++ p ++ "}")) ;;
                cprops <- getitem cfg' "properties" ;;
                setitem cprops p d
              else ret tt)%py h = (Ok tt, h') ->
             (n < List.length h')%nat
             /\ nth_error h' n = Some (ODict d)
             /\ (forall v a, ~ In a keys -> val_below n v = true ->
                   field h' v a = field h0 v a)).
  { intros p h h' Hp [L [N F]] Hs.
    apply bind_ok in Hs. destruct Hs as [cprops [ha [Hg Hs]]].
    destruct (getitem_inv _ _ _ _ _ Hg) as [-> Hcp]. specialize (Hcp cprops eq_refl).
    clear Hg.
    apply bind_ok in Hs. destruct Hs as [decl [ha [Hcn Hs]]].
    pose proof (contains_inv _ _ _ _ _ Hcn) as ->. clear Hcn.
    assert (Hcpb : val_below n cprops = true).
    { apply (Hbelow0 cfg' "properties"); [exact Hcb |].
      rewrite <- (F cfg' "properties") by (try exact Hcb; simpl; intuition discriminate).
      exact Hcp. }
    apply (placeholder_step n keys h0 h h' (ODict d) cprops p ("{" ++ p ++ "}") L N F);
      [destruct Hp as [<- | [<- | []]]; simpl; tauto | exact Hcpb |].
    apply (replace_declared_form cfg' cprops "properties" p _ decl);
      [exact Hcp | apply (val_below_mono n); [lia | exact Hcpb] | exact Hs]. }
  apply bind_ok in Hrun. destruct Hrun as [[] [hd [Hloop Hrun]]].
  unfold fieldobs in Hloop. cbn [for_each] in Hloop.
  apply bind_ok in Hloop. destruct Hloop as [[] [hd1 [Hfo Hloop]]].
  apply bind_ok in Hloop. destruct Hloop as [[] [hd2 [Hfoq Hloop]]].
  unfold ret in Hloop. injection Hloop as <-.
  assert (I1 := Hstep "fieldObservations" hc hd1 (or_introl eq_refl) Iw Hfo).
  destruct (Hstep "fieldObservationQuantifications" hd1 hd2
              (or_intror (or_introl eq_refl)) I1 Hfoq) as [L2 [N2 F2]].
  clear Hstep Hfo Hfoq I1 Iw.
  (* definitions *)
  assert (Hsl : lookup hd2 (VRef n) = Some (ODict d)) by exact N2.
  rewrite (run_bind _ _ _ _ _ (contains_key _ _ "definitions" _ Hsl)) in Hrun.
  assert (Hod : field hd2 orig "definitions" = field h0 orig "definitions").
  { apply F2; [simpl; intuition discriminate | exact Hob]. }
  assert (Hok : forall k, field h0 orig k = assoc k d).
  { intros k. unfold field. now rewrite Hd. }
  destruct (has_key "definitions" d) eqn:Hk.
  - apply bind_ok in Hrun. destruct Hrun as [[] [he [Hpop Hrun]]].
    unfold ret in Hrun. injection Hrun as <- <- <-.
    destruct (pop_inv _ _ _ _ Hpop) as [l [d' [[= <-] [Hl [_ ->]]]]].
    assert (d' = d) by congruence. subst d'.
    assert (Hs : forall k, field (replace_nth n (ODict (dict_remove "definitions" d)) hd2)
                             (VRef n) k = assoc k (dict_remove "definitions" d)).
    { intros k. unfold field, lookup. now rewrite nth_error_replace_nth_eq. }
    split; [rewrite Hs; now apply assoc_dict_remove_same |]. split.
    + intros k Hne. rewrite Hs, Hok. now apply assoc_dict_remove_neq.
    + rewrite <- Hod. unfold field, lookup. destruct orig as [| | | | | lo]; try reflexivity.
      simpl in Hob. apply Nat.ltb_lt in Hob.
      rewrite nth_error_replace_nth_neq by (unfold n in *; lia). reflexivity.
  - unfold bind at 1 in Hrun. unfold ret in Hrun. injection Hrun as <- <- <-.
    assert (Hs : forall k, field hd2 (VRef n) k = assoc k d).
    { intros k. unfold field, lookup. now rewrite N2. }
    split.
    + rewrite Hs. unfold has_key in Hk. destruct (assoc "definitions" d);
        [discriminate | reflexivity].
    + split; [intros k _; now rewrite Hs, Hok | exact Hod].
Qed.

Lemma definitions_are_dropped_from_the_copy_only_witness :
  exists ex orig,
    field example_store example_model_ref "execution" = Some ex
    /\ field example_store ex "input_schema" = Some orig
    /\ field example_prepared_store example_schema_ref "definitions" = None
    /\ (forall k, k <> "definitions" ->
          field example_prepared_store example_schema_ref k = field example_store orig k)
    /\ field example_prepared_store orig "definitions"
       = field example_store orig "definitions".
Proof.
  eexists. eexists.
  split; [vm_compute; reflexivity |].
  split; [vm_compute; reflexivity |].
  unshelve eapply (definitions_are_dropped_from_the_copy_only example_store
                     example_prepared_store example_model_ref example_schema_ref
                     example_cfg_ref _ _ _ _ _ _ _ _ _);
    try solve [vm_compute; reflexivity].
  repeat constructor; simpl; intuition discriminate.
Defined.

(** ** Generated keys the schema does not declare *)

(** X26: when the first key of the generated [configParameters] is one
    the schema's [configParameters] do not declare, a call with no
    [parameters] raises [KeyError] for that key at line 867; the store then
    holds the generated document and the empty [parameters] dict of line
    862. *)
Theorem undeclared_generated_key_raises
    (jsf : json -> res json) (h0 h1 h2 : heap)
    (model w fo foq schema cfg input cp cprops : val)
    (k : string) (x : val) (rest dprops : list (string * val)) :
  prepare_schema model h0 = (Ok (schema, cfg), h1) ->
  generate jsf schema h1 = (Ok input, h2) ->
  field h2 input "configParameters" = Some cp ->
  lookup h2 cp = Some (ODict ((k, x) :: rest)) ->
  field h2 cfg "properties" = Some cprops ->
  lookup h2 cprops = Some (ODict dprops) ->
  has_key k dprops = false ->
  model_input jsf model VNone w fo foq h0
  = (Raise (KeyError (JStr k)), (h2 ++ [ODict []])%list).
Proof.
  intros H1 H2 Hcp Hl Hpr Hdp Hk. unfold model_input.
  rewrite (run_bind _ _ _ _ _ H1). cbv beta iota.
  rewrite (run_bind _ _ _ _ _ H2).
  apply run_bind_raise. unfold fill_config.
  assert (Ha : alloc (ODict []) h2 = (Ok (VRef (List.length h2)), (h2 ++ [ODict []])%list))
    by reflexivity.
  rewrite (run_bind _ _ _ _ _ Ha).
  set (h := (h2 ++ [ODict []])%list).
  assert (Hfield : forall v a y, field h2 v a = Some y -> field h v a = Some y).
  { intros v a y Hf. destruct (field_lookup _ _ _ _ Hf) as [d [Hd Hy]].
    apply (field_of_lookup _ _ _ d); [now apply lookup_app | exact Hy]. }
  destruct (field_lookup _ _ _ _ Hcp) as [di [Hdi Hai]].
  rewrite (run_bind _ _ _ _ _
             (contains_key h input "configParameters" di (lookup_app _ _ _ _ Hdi))).
  unfold has_key. rewrite Hai.
  rewrite (run_bind _ _ _ _ _ (getitem_field _ _ _ _ (Hfield _ _ _ Hcp))).
  assert (Hit : iterate_keys cp h = (Ok (k :: map fst rest), h)).
  { pose proof (lookup_app _ [ODict []] _ _ Hl) as Hl'. fold h in Hl'.
    unfold lookup in Hl'. destruct cp; try discriminate.
    unfold iterate_keys, bind, deref, ret. now rewrite Hl'. }
  rewrite (run_bind _ _ _ _ _ Hit). cbn [for_each].
  apply run_bind_raise. unfold fill_one.
  assert (Hpar : contains (VStr k) (VRef (List.length h2)) h = (Ok false, h)).
  { unfold contains, bind, deref, ret. unfold h.
    rewrite nth_error_app2 by lia. rewrite Nat.sub_diag. reflexivity. }
  rewrite (run_bind _ _ _ _ _ Hpar).
  rewrite (run_bind _ _ _ _ _ (getitem_field _ _ _ _ (Hfield _ _ _ Hpr))).
  apply run_bind_raise.
  apply (getitem_missing _ _ _ dprops); [now apply lookup_app | exact Hk].
Qed.

Lemma undeclared_generated_key_raises_witness :
  exists h,
    model_input surprising_fake example_model_ref VNone VNone VNone VNone example_store
    = (Raise (KeyError (JStr "season")), h).
Proof.
  eexists.
  eapply (undeclared_generated_key_raises surprising_fake example_store);
    solve [vm_compute; reflexivity].
Defined.

(** ** What [model_input] writes to *)

Lemma placeholder_step_frame (n : nat) (h h' : heap) (tgt : val) (k tok : string) :
  (n <= List.length h)%nat ->
  (h' = h
   \/ exists lt dt,
        tgt = VRef lt /\ nth_error h lt = Some (ODict dt)
        /\ h' = replace_nth lt (ODict (dict_set k (VRef (List.length h)) dt))
                  (h ++ [placeholder_schema tok])%list) ->
  forall l, (l < n)%nat -> VRef l <> tgt -> nth_error h' l = nth_error h l.
Proof.
  intros Hn [-> | [lt [dt [-> [Hlt ->]]]]] l Hl Hne; [reflexivity |].
  rewrite nth_error_replace_nth_neq by congruence.
  apply nth_error_app1. lia.
Qed.

(** Lines 841-855 change no object of the caller's but the two dicts of
    declared properties. *)
Lemma prepare_schema_frame (h0 h1 : heap)
    (model schema cfg ex orig props cfg0 cprops : val) :
  closed h0 = true ->
  field h0 model "execution" = Some ex ->
  field h0 ex "input_schema" = Some orig ->
  field h0 orig "properties" = Some props ->
  field h0 props "configParameters" = Some cfg0 ->
  field h0 cfg0 "properties" = Some cprops ->
  prepare_schema model h0 = (Ok (schema, cfg), h1) ->
  (List.length h0 <= List.length h1)%nat
  /\ forall l, (l < List.length h0)%nat -> VRef l <> props -> VRef l <> cprops ->
       nth_error h1 l = nth_error h0 l.
Proof.
  intros Hc Hex Hor Hp0 Hcfg0 Hcp0 Hrun.
  set (keys := ["weatherData"; "fieldObservations"; "fieldObservationQuantifications"]).
  set (n := List.length h0).
  destruct (field_lookup _ _ _ _ Hp0) as [d [Hd Hpd]].
  unfold prepare_schema in Hrun.
  rewrite (run_bind _ _ _ _ _ (getitem_field _ _ _ _ Hex)) in Hrun.
  rewrite (run_bind _ _ _ _ _ (getitem_field _ _ _ _ Hor)) in Hrun.
  assert (Hcopy : copy orig h0 = (Ok (VRef n), (h0 ++ [ODict d])%list)).
  { unfold lookup in Hd. destruct orig; try discriminate.
    unfold copy, bind, deref, alloc. rewrite Hd. reflexivity. }
  rewrite (run_bind _ _ _ _ _ Hcopy) in Hrun.
  assert (Hprops : field (h0 ++ [ODict d])%list (VRef n) "properties" = Some props).
  { unfold field, lookup. rewrite nth_error_app2 by (unfold n; lia).
    unfold n. rewrite Nat.sub_diag. exact Hpd. }
  assert (Hpb : val_below n props = true) by exact (closed_field _ _ _ _ Hc Hp0).
  assert (Hcb : val_below n cfg0 = true) by exact (closed_field _ _ _ _ Hc Hcfg0).
  assert (Hcpb : val_below n cprops = true) by exact (closed_field _ _ _ _ Hc Hcp0).
  rewrite (run_bind _ _ _ _ _ (getitem_field _ _ _ _ Hprops)) in Hrun.
  assert (Hcfg1 : field (h0 ++ [ODict d])%list props "configParameters" = Some cfg0).
  { rewrite field_app_below; [exact Hcfg0 | exact Hpb]. }
  rewrite (run_bind _ _ _ _ _ (getitem_field _ _ _ _ Hcfg1)) in Hrun.
  rewrite (run_bind _ _ _ _ _ (getitem_field _ _ _ _ Hprops)) in Hrun.
  (* weatherData *)
  apply bind_ok in Hrun. destruct Hrun as [declared [ha [Hcw Hrun]]].
  pose proof (contains_inv _ _ _ _ _ Hcw) as ->. clear Hcw.
  apply bind_ok in Hrun. destruct Hrun as [[] [hc [Hw Hrun]]].
  assert (I0 : (n < List.length (h0 ++ [ODict d])%list)%nat
               /\ nth_error (h0 ++ [ODict d])%list n = Some (ODict d)
               /\ (forall v a, ~ In a keys -> val_below n v = true ->
                     field (h0 ++ [ODict d])%list v a = field h0 v a)).
  { split; [rewrite length_app; simpl; lia |]. split.
    - rewrite nth_error_app2 by (unfold n; lia). unfold n. now rewrite Nat.sub_diag.
    - intros v a _ Hv. now apply field_app_below. }
  assert (G0 : forall l, (l < n)%nat -> VRef l <> props -> VRef l <> cprops ->
                 nth_error (h0 ++ [ODict d])%list l = nth_error h0 l).
  { intros l Hl _ _. now apply nth_error_app1. }
  assert (Hlen_a : (n <= List.length (h0 ++ [ODict d])%list)%nat)
    by (rewrite length_app; unfold n; lia).
  assert (Fw := replace_declared_form (VRef n) props "properties" "weatherData" _ declared
                  _ hc Hprops (val_below_mono n _ props Hlen_a Hpb) Hw).
  assert (Iw : (n < List.length hc)%nat
               /\ nth_error hc n = Some (ODict d)
               /\ (forall v a, ~ In a keys -> val_below n v = true ->
                     field hc v a = field h0 v a)).
  { destruct I0 as [L0 [N0 F0]].
    apply (placeholder_step n keys h0 (h0 ++ [ODict d])%list hc (ODict d) props
             "weatherData" "{WEATHER_DATA}" L0 N0 F0);
      [simpl; tauto | exact Hpb | exact Fw]. }
  assert (Gw : forall l, (l < n)%nat -> VRef l <> props -> VRef l <> cprops ->
                 nth_error hc l = nth_error h0 l).
  { intros l Hl H1 H2.
    rewrite (placeholder_step_frame n _ hc props "weatherData" "{WEATHER_DATA}"
               Hlen_a Fw l Hl H1).
    now apply G0. }
  clear Hw I0 G0 Fw.
  (* the two field-observation properties *)
  assert (Hstep : forall p h h',
             In p fieldobs ->
             ((n < List.length h)%nat
              /\ nth_error h n = Some (ODict d)
              /\ (forall v a, ~ In a keys -> val_below n v = true ->
                    field h v a = field h0 v a))
             /\ (forall l, (l < n)%nat -> VRef l <> props -> VRef l <> cprops ->
                   nth_error h l = nth_error h0 l) ->
             (cprops <- getitem cfg0 "properties" ;;
              declared <- contains (VStr p) cprops ;;
              if declared then
                d <- alloc (placeholder_schema ("{" ++ p ++ "}")) ;;
                cprops <- getitem cfg0 "properties" ;;
                setitem cprops p d
              else ret tt)%py h = (Ok tt, h') ->
             ((n < List.length h')%nat
              /\ nth_error h' n = Some (ODict d)
              /\ (forall v a, ~ In a keys -> val_below n v = true ->
                    field h' v a = field h0 v a))
             /\ (forall l, (l < n)%nat -> VRef l <> props -> VRef l <> cprops ->
                   nth_error h' l = nth_error h0 l)).
  { intros p h h' Hp [[L [N F]] G] Hs.
    assert (Hcp : field h cfg0 "properties" = Some cprops).
    { rewrite F; [exact Hcp0 | simpl; intuition discriminate | exact Hcb]. }
    rewrite (run_bind _ _ _ _ _ (getitem_field _ _ _ _ Hcp)) in Hs.
    apply bind_ok in Hs. destruct Hs as [decl [ha [Hcn Hs]]].
    pose proof (contains_inv _ _ _ _ _ Hcn) as ->. clear Hcn.
    assert (Hlen : (n <= List.length h)%nat) by lia.
    assert (Fs := replace_declared_form cfg0 cprops "properties" p _ decl _ h' Hcp
                    (val_below_mono n _ cprops Hlen Hcpb) Hs).
    split.
    - apply (placeholder_step n keys h0 h h' (ODict d) cprops p ("{" ++ p ++ "}") L N F);
        [destruct Hp as [<- | [<- | []]]; simpl; tauto | exact Hcpb | exact Fs].
    - intros l Hl H1 H2.
      rewrite (placeholder_step_frame n h h' cprops p ("{" ++ p ++ "}")
                 Hlen Fs l Hl H2).
      now apply G. }
  apply bind_ok in Hrun. destruct Hrun as [[] [hd [Hloop Hrun]]].
  unfold fieldobs in Hloop. cbn [for_each] in Hloop.
  apply bind_ok in Hloop. destruct Hloop as [[] [hd1 [Hfo Hloop]]].
  apply bind_ok in Hloop. destruct Hloop as [[] [hd2 [Hfoq Hloop]]].
  unfold ret in Hloop. injection Hloop as <-.
  assert (I1 := Hstep "fieldObservations" hc hd1 (or_introl eq_refl) (conj Iw Gw) Hfo).
  destruct (Hstep "fieldObservationQuantifications" hd1 hd2
              (or_intror (or_introl eq_refl)) I1 Hfoq) as [[L2 [N2 F2]] G2].
  clear Hstep Hfo Hfoq I1 Iw Gw.
  (* definitions *)
  assert (Hsl : lookup hd2 (VRef n) = Some (ODict d)) by exact N2.
  rewrite (run_bind _ _ _ _ _ (contains_key _ _ "definitions" _ Hsl)) in Hrun.
  destruct (has_key "definitions" d) eqn:Hk.
  - apply bind_ok in Hrun. destruct Hrun as [[] [he [Hpop Hrun]]].
    unfold ret in Hrun. injection Hrun as <- <- <-.
    destruct (pop_inv _ _ _ _ Hpop) as [l [d' [[= <-] [Hl [_ ->]]]]].
    split; [rewrite length_replace_nth; unfold n in L2; lia |].
    intros l Hl' H1 H2. rewrite nth_error_replace_nth_neq by (unfold n in *; lia).
    now apply G2.
  - unfold bind at 1 in Hrun. unfold ret in Hrun. injection Hrun as <- <- <-.
    split; [unfold n in L2; lia | exact G2].
Qed.

Lemma config_write (input : val) (p : string) (x : val) (h h' : heap) :
  (cp <- getitem input "configParameters" ;; setitem cp p x)%py h = (Ok tt, h') ->
  exists l d, field h input "configParameters" = Some (VRef l)
              /\ nth_error h l = Some (ODict d)
              /\ h' = replace_nth l (ODict (dict_set p x d)) h.
Proof.
  intros Hw. apply bind_ok in Hw. destruct Hw as [cp [ha [Hg Hw]]].
  destruct (getitem_inv _ _ _ _ _ Hg) as [-> Hf]. specialize (Hf cp eq_refl).
  destruct (setitem_inv _ _ _ _ _ Hw) as [l [d [-> [Hl ->]]]].
  now exists l, d.
Qed.

(** One turn of the loop of lines 864-870 writes, if at all, into the
    generated [configParameters]. *)
Lemma fill_one_writes (input cfg par : val) (p : string) (h h' : heap) :
  fill_one input cfg par p h = (Ok tt, h') ->
  h' = h
  \/ exists l d x, field h input "configParameters" = Some (VRef l)
                   /\ nth_error h l = Some (ODict d)
                   /\ h' = replace_nth l (ODict (dict_set p x d)) h.
Proof.
  unfold fill_one. intros Hrun.
  apply bind_pure_ok in Hrun; [| apply pure_contains].
  destruct Hrun as [given [_ Hrun]].
  destruct given.
  - apply bind_pure_ok in Hrun; [| apply pure_getitem].
    destruct Hrun as [x [_ Hrun]].
    right. destruct (config_write _ _ _ _ _ Hrun) as [l [d H]]. now exists l, d, x.
  - apply bind_pure_ok in Hrun; [| apply pure_getitem].
    destruct Hrun as [cprops [_ Hrun]].
    apply bind_pure_ok in Hrun; [| apply pure_getitem].
    destruct Hrun as [decl [_ Hrun]].
    apply bind_pure_ok in Hrun; [| apply pure_contains].
    destruct Hrun as [has_default [_ Hrun]].
    destruct has_default.
    + apply bind_pure_ok in Hrun; [| apply pure_getitem].
      destruct Hrun as [cprops' [_ Hrun]].
      apply bind_pure_ok in Hrun; [| apply pure_getitem].
      destruct Hrun as [decl' [_ Hrun]].
      apply bind_pure_ok in Hrun; [| apply pure_getitem].
      destruct Hrun as [x [_ Hrun]].
      right. destruct (config_write _ _ _ _ _ Hrun) as [l [d H]]. now exists l, d, x.
    + left. unfold ret in Hrun. now injection Hrun as <-.
Qed.

(** A write into the generated [configParameters] leaves the caller's
    objects, those older than [n0], as they are. *)
Lemma config_write_frame (n0 : nat) (input : val) (c0 : option val) (hb h h' : heap)
    (p : string) :
  (forall l, c0 = Some (VRef l) -> (n0 <= l)%nat /\ VRef l <> input) ->
  field h input "configParameters" = c0 ->
  (forall l, (l < n0)%nat -> nth_error h l = nth_error hb l) ->
  (h' = h
   \/ exists l d x, field h input "configParameters" = Some (VRef l)
                    /\ nth_error h l = Some (ODict d)
                    /\ h' = replace_nth l (ODict (dict_set p x d)) h) ->
  field h' input "configParameters" = c0
  /\ (forall l, (l < n0)%nat -> nth_error h' l = nth_error hb l).
Proof.
  intros Hside Hc Hfr [-> | [l [d [x [Hf [Hl ->]]]]]]; [now split |].
  destruct (Hside l) as [Hge Hne]; [congruence |].
  split.
  - rewrite <- Hc. unfold field, lookup. destruct input as [| | | | | li]; try reflexivity.
    rewrite nth_error_replace_nth_neq by congruence. reflexivity.
  - intros l' Hl'. rewrite nth_error_replace_nth_neq by lia. now apply Hfr.
Qed.

Lemma fill_loop_frame (n0 : nat) (input cfg par : val) (c0 : option val) (hb : heap)
    (keys : list string) :
  (forall l, c0 = Some (VRef l) -> (n0 <= l)%nat /\ VRef l <> input) ->
  forall h h',
    field h input "configParameters" = c0 ->
    (forall l, (l < n0)%nat -> nth_error h l = nth_error hb l) ->
    for_each keys (fill_one input cfg par) h = (Ok tt, h') ->
    field h' input "configParameters" = c0
    /\ (forall l, (l < n0)%nat -> nth_error h' l = nth_error hb l).
Proof.
  intros Hside. induction keys as [| p keys IH]; intros h h' Hc Hfr Hrun; simpl in Hrun.
  - unfold ret in Hrun. injection Hrun as <-. now split.
  - apply bind_ok in Hrun. destruct Hrun as [[] [h1 [H1 Hrun]]].
    destruct (config_write_frame n0 input c0 hb h h1 p Hside Hc Hfr
                (fill_one_writes _ _ _ _ _ _ H1)) as [Hc1 Hfr1].
    exact (IH h1 h' Hc1 Hfr1 Hrun).
Qed.

Lemma fill_config_frame (n0 : nat) (input cfg parameters : val) (c0 : option val)
    (hb h2 h3 : heap) :
  (forall l, c0 = Some (VRef l) -> (n0 <= l)%nat /\ VRef l <> input) ->
  val_below (List.length h2) input = true ->
  field h2 input "configParameters" = c0 ->
  (forall l, (l < n0)%nat -> nth_error h2 l = nth_error hb l) ->
  (n0 <= List.length h2)%nat ->
  fill_config input cfg parameters h2 = (Ok tt, h3) ->
  field h3 input "configParameters" = c0
  /\ (forall l, (l < n0)%nat -> nth_error h3 l = nth_error hb l).
Proof.
  intros Hside Hin Hc Hfr Hlen Hrun. unfold fill_config in Hrun.
  apply bind_ok in Hrun. destruct Hrun as [par [hs [Hp Hrun]]].
  assert (Hs : field hs input "configParameters" = c0
               /\ forall l, (l < n0)%nat -> nth_error hs l = nth_error hb l).
  { destruct parameters;
      try (unfold ret in Hp; injection Hp as _ <-; now split).
    unfold alloc in Hp. injection Hp as _ <-. split.
    - now rewrite field_app_below.
    - intros l Hl. rewrite nth_error_app1 by lia. now apply Hfr. }
  destruct Hs as [Hcs Hfrs].
  apply bind_pure_ok in Hrun; [| apply pure_contains].
  destruct Hrun as [present [_ Hrun]].
  destruct present.
  - apply bind_pure_ok in Hrun; [| apply pure_getitem].
    destruct Hrun as [cp [_ Hrun]].
    apply bind_pure_ok in Hrun; [| apply pure_iterate_keys].
    destruct Hrun as [keys [_ Hrun]].
    exact (fill_loop_frame n0 input cfg par c0 hb keys Hside hs h3 Hcs Hfrs Hrun).
  - unfold ret in Hrun. injection Hrun as <-. now split.
Qed.

Lemma add_weather_frame (n0 : nat) (model schema input w : val)
    (required : list val) (interval : val) (c0 : option val) (hb h h' : heap) :
  val_from n0 input = true ->
  field h input "configParameters" = c0 ->
  (forall l, (l < n0)%nat -> nth_error h l = nth_error hb l) ->
  add_weather model schema input w required interval h = (Ok tt, h') ->
  field h' input "configParameters" = c0
  /\ (forall l, (l < n0)%nat -> nth_error h' l = nth_error hb l).
Proof.
  intros Hfrom Hc Hfr Hrun.
  destruct (add_weather_effect _ _ _ _ _ _ _ _ Hrun) as [-> | [l [d [-> [Hl ->]]]]];
    [now split |].
  simpl in Hfrom. apply Nat.leb_le in Hfrom.
  split.
  - rewrite field_set_other_key; [exact Hc | exact Hl | discriminate].
  - intros l' Hl'. rewrite nth_error_replace_nth_neq by lia. now apply Hfr.
Qed.

(** X27: a call that returns, made from a closed store for a model whose
    input schema declares [configParameters] with their [properties],
    leaves every object the store held before the call as it was, but for
    two: the dict of the schema's [properties] and the dict of the
    [properties] of its [configParameters], where lines 846-852 put the
    placeholders.  The caller's parameters, weather data and field
    observations, and the rest of the model, are read only. *)
Theorem model_input_writes_only_to_the_schema_properties
    (jsf : json -> res json) (h0 hf : heap)
    (model p w fo foq r ex orig props cfg cprops : val) :
  closed h0 = true ->
  field h0 model "execution" = Some ex ->
  field h0 ex "input_schema" = Some orig ->
  field h0 orig "properties" = Some props ->
  field h0 props "configParameters" = Some cfg ->
  field h0 cfg "properties" = Some cprops ->
  model_input jsf model p w fo foq h0 = (Ok r, hf) ->
  forall l, (l < List.length h0)%nat -> VRef l <> props -> VRef l <> cprops ->
    nth_error hf l = nth_error h0 l.
Proof.
  intros Hc Hex Hor Hp Hcfg Hcp Hrun l Hl Hn1 Hn2.
  unfold model_input in Hrun.
  apply bind_ok in Hrun. destruct Hrun as [[schema cfg'] [h1 [H1 Hrun]]].
  destruct (prepare_schema_frame h0 h1 model schema cfg' ex orig props cfg cprops
              Hc Hex Hor Hp Hcfg Hcp H1) as [Hlen G1].
  apply bind_ok in Hrun. destruct Hrun as [input [h2 [H2 Hrun]]].
  destruct (generate_fresh _ _ _ _ _ H2) as [ext [-> [F [Hfrom Hbel]]]].
  set (n0 := List.length h0) in *.
  set (c0 := field (h1 ++ ext)%list input "configParameters").
  assert (Hside : forall l', c0 = Some (VRef l') -> (n0 <= l')%nat /\ VRef l' <> input).
  { intros l' Hc0. unfold c0 in Hc0.
    destruct (field_ref _ _ _ _ Hc0) as [li [di [-> [Hli Hadi]]]].
    simpl in Hfrom. apply Nat.leb_le in Hfrom.
    destruct (fresh_field _ _ _ _ _ F Hfrom Hc0) as [Hf1 Hf2].
    simpl in Hf1, Hf2. apply Nat.leb_le in Hf1. apply Nat.ltb_lt in Hf2.
    split; [lia | intros [= E]; lia]. }
  assert (Hfrom0 : val_from n0 input = true).
  { destruct input; try reflexivity. simpl in *. apply Nat.leb_le in Hfrom.
    apply Nat.leb_le. lia. }
  assert (Hfr2 : forall l', (l' < n0)%nat ->
                   nth_error (h1 ++ ext)%list l' = nth_error h1 l').
  { intros l' Hl'. apply nth_error_app1. lia. }
  apply bind_ok in Hrun. destruct Hrun as [[] [h3 [H3 Hrun]]].
  destruct (fill_config_frame n0 input cfg' p c0 h1 (h1 ++ ext)%list h3 Hside Hbel
              eq_refl Hfr2 ltac:(rewrite length_app; lia) H3) as [Hc3 Hfr3].
  apply bind_pure_ok in Hrun; [| apply weather_requirements_pure].
  destruct Hrun as [[required interval] [_ Hrun]].
  apply bind_ok in Hrun. destruct Hrun as [[] [h4 [H4 Hrun]]].
  destruct (add_weather_frame n0 _ _ _ _ _ _ c0 h1 h3 h4 Hfrom0 Hc3 Hfr3 H4)
    as [Hc4 Hfr4].
  apply bind_ok in Hrun. destruct Hrun as [[] [h5 [H5 Hrun]]].
  unfold ret in Hrun. injection Hrun as <- <-.
  unfold add_fieldobs, fieldobs in H5. cbn [combine for_each] in H5.
  apply bind_ok in H5. destruct H5 as [[] [h4a [Hfo H5]]].
  apply bind_ok in H5. destruct H5 as [[] [h4b [Hfoq H5]]].
  unfold ret in H5. injection H5 as <-.
  assert (Hob : forall q pv ha hb',
             field ha input "configParameters" = c0 ->
             (forall l', (l' < n0)%nat -> nth_error ha l' = nth_error h1 l') ->
             add_fieldob model input cfg' q pv ha = (Ok tt, hb') ->
             field hb' input "configParameters" = c0
             /\ (forall l', (l' < n0)%nat -> nth_error hb' l' = nth_error h1 l')).
  { intros q pv ha hb' Hca Hfra Hq.
    apply (config_write_frame n0 input c0 h1 ha hb' q Hside Hca Hfra).
    destruct (add_fieldob_effect _ _ _ _ _ _ _ Hq) as [-> | [l' [d [Hf [Hd ->]]]]];
      [now left | right; now exists l', d, pv]. }
  destruct (Hob _ _ _ _ Hc4 Hfr4 Hfo) as [Hc5 Hfr5].
  destruct (Hob _ _ _ _ Hc5 Hfr5 Hfoq) as [_ Hfr6].
  rewrite Hfr6 by exact Hl. now apply G1.
Qed.

Lemma model_input_writes_only_to_the_schema_properties_witness :
  exists r hf,
    model_input full_fake (example_arg 0) (example_arg 1) (example_arg 2)
      (example_arg 3) (example_arg 4) (snd example_args_store) = (Ok r, hf)
    /\ example_arg 1 = VRef 17%nat
    /\ example_arg 2 = VRef 20%nat
    /\ nth_error hf 17%nat = nth_error (snd example_args_store) 17%nat
    /\ nth_error hf 20%nat = nth_error (snd example_args_store) 20%nat.
Proof.
  eexists. eexists.
  split; [vm_compute; reflexivity |].
  split; [reflexivity |].
  split; [reflexivity |].
  split.
  - eapply (model_input_writes_only_to_the_schema_properties full_fake
              (snd example_args_store) _ (example_arg 0) (example_arg 1) (example_arg 2)
              (example_arg 3) (example_arg 4) _ (VRef 12%nat) (VRef 11%nat)
              (VRef 8%nat) (VRef 6%nat) (VRef 4%nat));
      try solve [vm_compute; reflexivity]; try discriminate.
    vm_compute. lia.
  - eapply (model_input_writes_only_to_the_schema_properties full_fake
              (snd example_args_store) _ (example_arg 0) (example_arg 1) (example_arg 2)
              (example_arg 3) (example_arg 4) _ (VRef 12%nat) (VRef 11%nat)
              (VRef 8%nat) (VRef 6%nat) (VRef 4%nat));
      try solve [vm_compute; reflexivity]; try discriminate.
    vm_compute. lia.
Defined.
